(** * CPong: the swept collision engine of [main.c]

    A shallow embedding of the geometry queries, the two sweep resolvers
    ([getPaddleCollision], [getWallCollision]) and the part of the round-loop
    frame that consumes them, followed by the properties of the
    specification that were checked against it.

    Numbers.  A C [float] is an IEEE-754 binary32 value and is modelled by
    the Standard Library's [spec_float] with precision 24 and exponent bound
    128; every [float] operation of the source rounds to nearest-even in that
    format (the evaluation mode of an x86-64/SSE build, without fused
    multiply-add).  The only [double] arithmetic of the program is inside
    [Point_getDistance] and uses precision 53 and exponent bound 1024.
    An [int] is a [Z]; incrementing one ([score], [gameState]) wraps at 32
    bits. *)

From Stdlib Require Import ZArith Bool List Lia.
From Stdlib Require Import Floats.SpecFloat.
Import ListNotations.

Open Scope Z_scope.

(** ** binary32 and binary64 arithmetic *)

Module F32.

Definition prec : Z := 24.
Definition emax : Z := 128.

Definition float : Type := spec_float.

Definition add : float -> float -> float := SFadd prec emax.
Definition sub : float -> float -> float := SFsub prec emax.
Definition mul : float -> float -> float := SFmul prec emax.
Definition div : float -> float -> float := SFdiv prec emax.

(** The comparison operators of C: [a < b], [a <= b], [a == b].  [a > b]
    and [a >= b] are written [ltb b a] and [leb b a].  Every comparison
    with a NaN is false. *)
Definition ltb : float -> float -> bool := SFltb.
Definition leb : float -> float -> bool := SFleb.
Definition eqb : float -> float -> bool := SFeqb.
Definition gtb (a b : float) : bool := ltb b a.
Definition geb (a b : float) : bool := leb b a.

(** An integer constant or an [int] converted to [float]. *)
Definition of_Z (n : Z) : float := binary_normalize prec emax n 0 false.

(** The dyadic number [m * 2^e], rounded once (exactly representable when
    [m] has at most 24 bits and [e] is in range). *)
Definition of_dyadic (m e : Z) : float := binary_normalize prec emax m e false.

(** A decimal literal [n / 10^k] with suffix [f], rounded once. *)
Definition of_decimal (n : Z) (k : positive) : float :=
  div (of_Z n) (of_Z (Z.pow_pos 10 k)).

Definition is_nan (a : float) : bool :=
  match a with S754_nan => true | _ => false end.

Definition opp : float -> float := SFopp.
Definition abs : float -> float := SFabs.

Definition is_finite (a : float) : bool :=
  match a with S754_zero _ | S754_finite _ _ _ => true | _ => false end.

End F32.

Module F64.

Definition prec : Z := 53.
Definition emax : Z := 1024.

Definition add : spec_float -> spec_float -> spec_float := SFadd prec emax.
Definition mul : spec_float -> spec_float -> spec_float := SFmul prec emax.
Definition sqrt : spec_float -> spec_float := SFsqrt prec emax.
Definition of_Z (n : Z) : spec_float := binary_normalize prec emax n 0 false.

(** Conversion of a [float] to [double]: exact, the mantissa is only
    realigned to 53 bits. *)
Definition of_float (a : F32.float) : spec_float :=
  match a with
  | S754_finite s m e => binary_round prec emax s m e
  | _ => a
  end.

(** Conversion of a [double] to [float], as done by [return] in a function
    of result type [float]: one rounding to nearest-even. *)
Definition to_float (a : spec_float) : F32.float :=
  match a with
  | S754_finite s m e => binary_round F32.prec F32.emax s m e
  | _ => a
  end.

End F64.

Definition float : Type := F32.float.

Declare Scope f32_scope.
Delimit Scope f32_scope with f32.
Bind Scope f32_scope with F32.float.
Infix "+" := F32.add : f32_scope.
Infix "-" := F32.sub : f32_scope.
Infix "*" := F32.mul : f32_scope.
Infix "/" := F32.div : f32_scope.
Infix "<?" := F32.ltb : f32_scope.
Infix "<=?" := F32.leb : f32_scope.
Infix ">?" := F32.gtb : f32_scope.
Infix ">=?" := F32.geb : f32_scope.
Infix "==?" := F32.eqb (at level 70, no associativity) : f32_scope.

(** ** Constants of the program *)

Definition WINDOW_WIDTH : Z := 800.
Definition WINDOW_HEIGHT : Z := 600.

Definition BALL_SIZE : float := F32.of_Z 20.
Definition PADDLE_WIDTH : float := F32.of_Z 25.
Definition PADDLE_HEIGHT : float := F32.of_Z 100.

(** The [float] literals that occur in the modelled code. *)
Definition f0 : float := F32.of_Z 0.
Definition f0_1 : float := F32.of_decimal 1 1.
Definition f0_5 : float := F32.of_decimal 5 1.
Definition f3 : float := F32.of_Z 3.
Definition f5 : float := F32.of_Z 5.
Definition fm1 : float := F32.of_Z (-1).
Definition fm3 : float := F32.of_Z (-3).

(** The macros [MIN] and [MAX], at type [float]. *)
Definition MIN (u v : float) : float := if (u <? v)%f32 then u else v.
Definition MAX (u v : float) : float := if (u >? v)%f32 then u else v.

(** ** Data model *)

(** [typedef enum {TOP, RIGHT, BOTTOM, LEFT} Side].  A C enumeration is an
    integer type and the program itself stores [-1] in a [Side]
    ([getWallCollision]), so a [Side] is an integer with four named
    values. *)
Definition Side : Type := Z.
Abbreviation TOP := 0%Z (only parsing).
Abbreviation RIGHT := 1%Z (only parsing).
Abbreviation BOTTOM := 2%Z (only parsing).
Abbreviation LEFT := 3%Z (only parsing).

Record Point : Type := mkPoint { x : float; y : float }.

Record Line : Type := mkLine { a : Point; b : Point }.

Record Ball : Type := mkBall { ball_position : Point; ball_speed : Point }.

Record Paddle : Type := mkPaddle { paddle_position : Point; paddle_score : Z }.

(** [collides] is an [int] that only ever holds 0 or 1. *)
Record Collision : Type :=
  mkCollision { collides : bool; col_position : Point; col_side : Side }.

Definition origin : Point := mkPoint f0 f0.

(** ** Geometry queries *)

(** [sqrt(pow(b.x - a.x, 2) + (b.y - a.y, 2))]: the second summand is a
    comma expression, its value is the [int] 2.  The difference is a
    [float], [pow], [+] and [sqrt] work on [double], and the result is
    converted back to [float] by the [return].  [pow(d, 2)] of a [double]
    that holds a [float] is the exact square. *)
Definition Point_getDistance (p q : Point) : float :=
  let dx := F64.of_float (q.(x) - p.(x))%f32 in
  F64.to_float (F64.sqrt (F64.add (F64.mul dx dx) (F64.of_Z 2))).

Definition Ball_getVertex (ball : Ball) (vertex : Z) : Point :=
  let p := ball.(ball_position) in
  match vertex with
  | 0 => p
  | 1 => mkPoint (p.(x) + BALL_SIZE)%f32 p.(y)
  | 2 => mkPoint (p.(x) + BALL_SIZE)%f32 (p.(y) + BALL_SIZE)%f32
  | 3 => mkPoint p.(x) (p.(y) + BALL_SIZE)%f32
  | _ => mkPoint f0 f0
  end.

Definition Ball_getSide (ball : Ball) (side : Side) : Line :=
  match side with
  | TOP => mkLine (Ball_getVertex ball 0) (Ball_getVertex ball 1)
  | RIGHT => mkLine (Ball_getVertex ball 1) (Ball_getVertex ball 2)
  | BOTTOM => mkLine (Ball_getVertex ball 2) (Ball_getVertex ball 3)
  | LEFT => mkLine (Ball_getVertex ball 3) (Ball_getVertex ball 0)
  | _ => mkLine (mkPoint f0 f0) (mkPoint f0 f0)
  end.

Definition Ball_getBound (ball : Ball) (side : Side) : float :=
  let p := ball.(ball_position) in
  match side with
  | TOP => p.(y)
  | RIGHT => (p.(x) + BALL_SIZE)%f32
  | BOTTOM => (p.(y) + BALL_SIZE)%f32
  | LEFT => p.(x)
  | _ => f0
  end.

Definition Paddle_getVertex (paddle : Paddle) (vertex : Z) : Point :=
  let p := paddle.(paddle_position) in
  match vertex with
  | 0 => p
  | 1 => mkPoint (p.(x) + PADDLE_WIDTH)%f32 p.(y)
  | 2 => mkPoint (p.(x) + PADDLE_WIDTH)%f32 (p.(y) + PADDLE_HEIGHT)%f32
  | 3 => mkPoint p.(x) (p.(y) + PADDLE_HEIGHT)%f32
  | _ => mkPoint f0 f0
  end.

Definition Paddle_getSide (paddle : Paddle) (side : Side) : Line :=
  match side with
  | TOP => mkLine (Paddle_getVertex paddle 0) (Paddle_getVertex paddle 1)
  | RIGHT => mkLine (Paddle_getVertex paddle 1) (Paddle_getVertex paddle 2)
  | BOTTOM => mkLine (Paddle_getVertex paddle 2) (Paddle_getVertex paddle 3)
  | LEFT => mkLine (Paddle_getVertex paddle 3) (Paddle_getVertex paddle 0)
  | _ => mkLine (mkPoint f0 f0) (mkPoint f0 f0)
  end.

Definition Paddle_getBound (paddle : Paddle) (side : Side) : float :=
  let p := paddle.(paddle_position) in
  match side with
  | TOP => p.(y)
  | RIGHT => (p.(x) + PADDLE_WIDTH)%f32
  | BOTTOM => (p.(y) + PADDLE_HEIGHT)%f32
  | LEFT => p.(x)
  | _ => f0
  end.

(** ** The sweep resolvers *)

Definition no_collision : Collision := mkCollision false (mkPoint f0 f0) TOP.

(** A cell of the local array [collisionVertices]: indeterminate ([None])
    until a loop stores into it.  [cell_get] reads a cell; the resolver reads
    a cell only when the collision of its loop was found, that is after the
    loop stored into it ([horizontalTests_cell], [verticalTests_cell]). *)
Definition cell_get (c : option Z) : Z :=
  match c with Some v => v | None => 0 end.

(** The last block of both resolvers: the contact point is taken as the new
    position of the colliding vertex and the top-left corner is computed
    back from it. *)
Definition snapToContact (returnVal : Collision) (vertex : Z)
    (newPosition : Point) : Point :=
  if returnVal.(collides) then
    let originReference := mkBall returnVal.(col_position) (mkPoint f0 f0) in
    let backToOrigin := Ball_getVertex originReference vertex in
    let c := returnVal.(col_position) in
    mkPoint (c.(x) - (backToOrigin.(x) - c.(x)))%f32
            (c.(y) - (backToOrigin.(y) - c.(y)))%f32
  else newPosition.

Section Resolvers.

(** The division used for the slope and for solving the line equation for
    [x].  The program uses [F32.div]; the resolvers are written over an
    arbitrary [divide] so that a result can be shown not to consult it. *)
Variable divide : float -> float -> float.

(** The loop [for(int i = 0; i < 2; ++i)] of the horizontal tests, over the
    remaining entries of [horizontalVertices].  Result: [horizontalCol] and
    the cell [collisionVertices[0]]. *)
Fixpoint horizontalTests (ball : Ball) (paddle : Paddle) (slope : float)
    (paddleSide : Side) (vertices : list Z) (cell : option Z)
    : Collision * option Z :=
  match vertices with
  | [] => (no_collision, cell)
  | v :: rest =>
    let vertexPos := Ball_getVertex ball v in
    let nextPos :=
      mkPoint (vertexPos.(x) + ball.(ball_speed).(x))%f32
              (vertexPos.(y) + ball.(ball_speed).(y))%f32 in
    let ballMinX := MIN vertexPos.(x) nextPos.(x) in
    let ballMaxX := MAX vertexPos.(x) nextPos.(x) in
    let paddleX := Paddle_getBound paddle paddleSide in
    if negb ((paddleX >=? ballMinX) && (paddleX <=? ballMaxX))%f32
    then (no_collision, Some v)                                  (* break *)
    else
      let yIncp := (vertexPos.(y) - vertexPos.(x) * slope)%f32 in
      let paddleMinY := Paddle_getBound paddle TOP in
      let paddleMaxY := Paddle_getBound paddle BOTTOM in
      let ballColY := (paddleX * slope + yIncp)%f32 in
      if negb ((ballColY >=? paddleMinY) && (ballColY <=? paddleMaxY))%f32
      then horizontalTests ball paddle slope paddleSide rest (Some v)
                                                              (* continue *)
      else (mkCollision true (mkPoint paddleX ballColY) paddleSide, Some v)
    end.

(** The loop of the vertical tests.  Result: [verticalCol] and the cell
    [collisionVertices[1]]. *)
Fixpoint verticalTests (ball : Ball) (paddle : Paddle) (slope : float)
    (paddleSide : Side) (vertices : list Z) (cell : option Z)
    : Collision * option Z :=
  match vertices with
  | [] => (no_collision, cell)
  | v :: rest =>
    if (slope ==? f0)%f32 then (no_collision, cell)              (* break *)
    else
      let vertexPos := Ball_getVertex ball v in
      let nextPos :=
        mkPoint (vertexPos.(x) + ball.(ball_speed).(x))%f32
                (vertexPos.(y) + ball.(ball_speed).(y))%f32 in
      let ballMinY := MIN vertexPos.(y) nextPos.(y) in
      let ballMaxY := MAX vertexPos.(y) nextPos.(y) in
      let paddleY := Paddle_getBound paddle paddleSide in
      if negb ((paddleY >=? ballMinY) && (paddleY <=? ballMaxY))%f32
      then (no_collision, Some v)                                (* break *)
      else
        let yIncp := (vertexPos.(y) - vertexPos.(x) * slope)%f32 in
        let paddleMinX := Paddle_getBound paddle LEFT in
        let paddleMaxX := Paddle_getBound paddle RIGHT in
        let ballColX := divide (paddleY - yIncp)%f32 slope in
        if negb ((ballColX >=? paddleMinX) && (ballColX <=? paddleMaxX))%f32
        then verticalTests ball paddle slope paddleSide rest (Some v)
                                                              (* continue *)
        else (mkCollision true (mkPoint ballColX paddleY) paddleSide, Some v)
  end.

(** What the two direction blocks of [getPaddleCollision] leave behind for
    one axis: the ball vertices to test, the paddle side to test against
    and its edge ([paddleEdges], stored but never read afterwards). *)
Record AxisTest : Type :=
  mkAxisTest { testVertices : list Z; paddleSide : Side; paddleEdge : Line }.

(** [if(ball->speed.x >= 0.0f){...}else{...}]; [None] is the early
    [return returnVal]. *)
Definition horizontalSetup (ball : Ball) (paddle : Paddle) : option AxisTest :=
  if (ball.(ball_speed).(x) >=? f0)%f32 then
    if (Ball_getBound ball LEFT >? Paddle_getBound paddle RIGHT)%f32 then None
    else Some (mkAxisTest [1; 2] LEFT (Paddle_getSide paddle LEFT))
  else
    if (Ball_getBound ball RIGHT <? Paddle_getBound paddle LEFT)%f32 then None
    else Some (mkAxisTest [0; 3] RIGHT (Paddle_getSide paddle RIGHT)).

(** [if(ball->speed.y >= 0.0f){...}else{...}]. *)
Definition verticalSetup (ball : Ball) (paddle : Paddle) : option AxisTest :=
  if (ball.(ball_speed).(y) >=? f0)%f32 then
    if (Ball_getBound ball TOP >? Paddle_getBound paddle BOTTOM)%f32 then None
    else Some (mkAxisTest [2; 3] TOP (Paddle_getSide paddle TOP))
  else
    if (Ball_getBound ball BOTTOM <? Paddle_getBound paddle TOP)%f32 then None
    else Some (mkAxisTest [0; 1] BOTTOM (Paddle_getSide paddle BOTTOM)).

(** "Assigns the closest collision occurence to returnVal": the result is
    [returnVal] and [collisionVertex]. *)
Definition closestPaddleCollision (ball : Ball)
    (horizontalCol verticalCol : Collision) (cell0 cell1 : option Z)
    : Collision * Z :=
  if horizontalCol.(collides) && verticalCol.(collides) then
    let returnIndex :=
      if (Point_getDistance (Ball_getVertex ball (cell_get cell0))
                            horizontalCol.(col_position)
          <? Point_getDistance (Ball_getVertex ball (cell_get cell1))
                               verticalCol.(col_position))%f32
      then 0 else 1 in
    (if returnIndex =? 0 then horizontalCol else verticalCol,
     if returnIndex =? 0 then cell_get cell0 else cell_get cell1)
  else if horizontalCol.(collides) then (horizontalCol, cell_get cell0)
  else if verticalCol.(collides) then (verticalCol, cell_get cell1)
  else (no_collision, 0).

(** [getPaddleCollision] up to the choice of [returnVal] and
    [collisionVertex]. *)
Definition paddleSweep (ball : Ball) (paddle : Paddle) : Collision * Z :=
  let returnVal := no_collision in
  let slopeN := ball.(ball_speed).(y) in
  let slopeD := ball.(ball_speed).(x) in
  if (slopeD ==? f0)%f32 then (returnVal, 0)
  else
    let slope := divide slopeN slopeD in
    match horizontalSetup ball paddle with
    | None => (returnVal, 0)
    | Some h =>
      match verticalSetup ball paddle with
      | None => (returnVal, 0)
      | Some v =>
        let '(horizontalCol, cell0) :=
          horizontalTests ball paddle slope h.(paddleSide)
                          h.(testVertices) None in
        let '(verticalCol, cell1) :=
          verticalTests ball paddle slope v.(paddleSide)
                        v.(testVertices) None in
        closestPaddleCollision ball horizontalCol verticalCol cell0 cell1
      end
    end.

(** [Collision getPaddleCollision(const Ball *ball, const Paddle *paddle,
    Point *newPosition)]: the result and the final content of
    [*newPosition]. *)
Definition getPaddleCollision_with (ball : Ball) (paddle : Paddle)
    (newPosition : Point) : Collision * Point :=
  let '(returnVal, collisionVertex) := paddleSweep ball paddle in
  (returnVal, snapToContact returnVal collisionVertex newPosition).

(** The vertex tested by [getWallCollision], with the two sides and bounds
    it is tested against. *)
Definition horizontalSide (ball : Ball) : Side :=
  if (ball.(ball_speed).(x) >=? f0)%f32 then RIGHT else LEFT.

Definition horizontalBound (ball : Ball) : float :=
  if (ball.(ball_speed).(x) >=? f0)%f32 then F32.of_Z WINDOW_WIDTH else f0.

Definition verticalSide (ball : Ball) : Side :=
  if (ball.(ball_speed).(y) >=? f0)%f32 then BOTTOM else TOP.

Definition verticalBound (ball : Ball) : float :=
  if (ball.(ball_speed).(y) >=? f0)%f32 then F32.of_Z WINDOW_HEIGHT else f0.

Definition testedVertex (ball : Ball) : Z :=
  let hs := horizontalSide ball in
  let vs := verticalSide ball in
  if (hs =? RIGHT) && (vs =? BOTTOM) then 2
  else if (hs =? LEFT) && (vs =? BOTTOM) then 3
  else if (hs =? RIGHT) && (vs =? TOP) then 1
  else 0.

(** The two candidates of [getWallCollision], [horizontalCol] and
    [verticalCol], for a defined [slope]. *)
Definition wallCandidates (ball : Ball) (slope : float)
    : Collision * Collision :=
  let vertexPos := Ball_getVertex ball (testedVertex ball) in
  let nextPos :=
    mkPoint (vertexPos.(x) + ball.(ball_speed).(x))%f32
            (vertexPos.(y) + ball.(ball_speed).(y))%f32 in
  let yIncp := (vertexPos.(y) - vertexPos.(x) * slope)%f32 in
  let horizontalCol :=
    if ((MIN vertexPos.(x) nextPos.(x) <=? horizontalBound ball)
        && (MAX vertexPos.(x) nextPos.(x) >=? horizontalBound ball))%f32
    then mkCollision true
           (mkPoint (horizontalBound ball)
                    (slope * horizontalBound ball + yIncp)%f32)
           (horizontalSide ball)
    else no_collision in
  let verticalCol :=
    if ((MIN vertexPos.(y) nextPos.(y) <=? verticalBound ball)
        && (MAX vertexPos.(y) nextPos.(y) >=? verticalBound ball))%f32
    then mkCollision true
           (mkPoint (divide (verticalBound ball - yIncp)%f32 slope)
                    (verticalBound ball))
           (verticalSide ball)
    else no_collision in
  (horizontalCol, verticalCol).

(** [getWallCollision] up to the choice of [returnVal]. *)
Definition wallSweep (ball : Ball) : Collision :=
  let returnVal := no_collision in
  let slopeN := ball.(ball_speed).(y) in
  let slopeD := ball.(ball_speed).(x) in
  if (slopeD ==? f0)%f32 then returnVal
  else
    let slope := divide slopeN slopeD in
    let vertexPos := Ball_getVertex ball (testedVertex ball) in
    let '(horizontalCol, verticalCol) := wallCandidates ball slope in
    if horizontalCol.(collides) && verticalCol.(collides) then
      if (Point_getDistance vertexPos horizontalCol.(col_position)
          <? Point_getDistance vertexPos verticalCol.(col_position))%f32
      then horizontalCol else verticalCol
    else if horizontalCol.(collides) then horizontalCol
    else if verticalCol.(collides) then verticalCol
    else returnVal.

(** [Collision getWallCollision(const Ball *ball, Point *newPosition)]. *)
Definition getWallCollision_with (ball : Ball) (newPosition : Point)
    : Collision * Point :=
  let returnVal := wallSweep ball in
  (returnVal, snapToContact returnVal (testedVertex ball) newPosition).

End Resolvers.

Definition getPaddleCollision : Ball -> Paddle -> Point -> Collision * Point :=
  getPaddleCollision_with F32.div.

Definition getWallCollision : Ball -> Point -> Collision * Point :=
  getWallCollision_with F32.div.

(** ** The round loop *)

(** [++n] on an [int]: 32-bit two's complement. *)
Definition INT_MAX : Z := 2147483647.

Definition int_incr (n : Z) : Z :=
  (n + 1 + 2147483648) mod 4294967296 - 2147483648.

(** The variables of [main] that the round-loop state reads and writes. *)
Record Game : Type :=
  mkGame { gameState : Z; p1 : Paddle; p2 : Paddle; ball : Ball }.

(** What a frame writes to [stdout]: [ScoreLine m n] is the line
    ["Score is: m to n"]. *)
Inductive Output : Type :=
  | ScoreLine (p1score p2score : Z).

Definition set_speed_y (bl : Ball) (v : float) : Ball :=
  mkBall bl.(ball_position) (mkPoint bl.(ball_speed).(x) v).

Definition set_position_y (bl : Ball) (v : float) : Ball :=
  mkBall (mkPoint bl.(ball_position).(x) v) bl.(ball_speed).

Definition incr_score (p : Paddle) : Paddle :=
  mkPaddle p.(paddle_position) (int_incr p.(paddle_score)).

(** The response to a paddle hit before the clamp of [speed.y]: the ball is
    moved to [ballNextA]; a hit on a LEFT or RIGHT paddle side reverses and
    accelerates [speed.x] and deflects [speed.y]; any other side inverts
    [speed.y]. *)
Definition paddleResponse (g : Game) (paddleCol : Collision)
    (ballNextA : Point) : Ball :=
  let bl := mkBall ballNextA g.(ball).(ball_speed) in
  let halves (p : Paddle) :=
    ((ballNextA.(y) + f0_5 * BALL_SIZE
      - (p.(paddle_position).(y) + f0_5 * PADDLE_HEIGHT)) / f5)%f32 in
  if paddleCol.(col_side) =? LEFT then
    mkBall ballNextA
      (mkPoint (bl.(ball_speed).(x) * fm1 - f0_5)%f32
               (bl.(ball_speed).(y) + halves g.(p2))%f32)
  else if paddleCol.(col_side) =? RIGHT then
    mkBall ballNextA
      (mkPoint (bl.(ball_speed).(x) * fm1 + f0_5)%f32
               (bl.(ball_speed).(y) + halves g.(p1))%f32)
  else set_speed_y bl (bl.(ball_speed).(y) * fm1)%f32.

(** The clamp of [speed.y] that ends the paddle branch. *)
Definition clampSpeedY (bl : Ball) : Ball :=
  let vx := bl.(ball_speed).(x) in
  let vy := bl.(ball_speed).(y) in
  if (vy >=? MAX (vx * f3) (vx * fm3))%f32
  then set_speed_y bl (MAX (vx * f3) (vx * fm3))%f32
  else if (vy <=? MIN (vx * f3) (vx * fm3))%f32
  then set_speed_y bl (MIN (vx * f3) (vx * fm3))%f32
  else bl.

(** "Double check if the ball is out of bounds to handle an edge case". *)
Definition clampPositionY (bl : Ball) : Ball :=
  if (bl.(ball_position).(y) <=? f0)%f32 then set_position_y bl f0_1
  else if (bl.(ball_position).(y) >=? F32.of_Z WINDOW_HEIGHT)%f32
  then set_position_y bl (F32.of_Z WINDOW_HEIGHT - BALL_SIZE - f0_1)%f32
  else bl.

(** The two resolver calls of a frame: the paddle on the side the ball is
    heading to, then the walls, each with its own zeroed out-parameter. *)
Definition framePaddleCollision (g : Game) : Collision * Point :=
  let ballNextA := mkPoint f0 f0 in
  if (g.(ball).(ball_speed).(x) >=? f0)%f32
  then getPaddleCollision g.(ball) g.(p2) ballNextA
  else getPaddleCollision g.(ball) g.(p1) ballNextA.

Definition frameWallCollision (g : Game) : Collision * Point :=
  let ballNextB := mkPoint f0 f0 in
  getWallCollision g.(ball) ballNextB.

(** One frame of the round-loop state ([gameState == 1]) from "Set up
    variables for line segment ball-paddle collision detection" up to the
    final double check: the two resolver calls and the response.  The first
    part of the frame (keys, paddle movement, the change of [speed.y] when a
    moving paddle overlaps the ball) only prepares the [Game] this step
    starts from. *)
Definition roundResponse (g : Game) : Game * list Output :=
  let '(paddleCol, ballNextA) := framePaddleCollision g in
  let '(wallCol, ballNextB) := frameWallCollision g in
  if paddleCol.(collides) then
    (mkGame g.(gameState) g.(p1) g.(p2)
            (clampSpeedY (paddleResponse g paddleCol ballNextA)), [])
  else if wallCol.(collides) then
    if (wallCol.(col_side) =? TOP) || (wallCol.(col_side) =? BOTTOM) then
      (mkGame g.(gameState) g.(p1) g.(p2)
              (set_speed_y g.(ball) (g.(ball).(ball_speed).(y) * fm1)%f32),
       [])
    else if wallCol.(col_side) =? LEFT then
      let p2' := incr_score g.(p2) in
      (mkGame (int_incr g.(gameState)) g.(p1) p2' g.(ball),
       [ScoreLine g.(p1).(paddle_score) p2'.(paddle_score)])
    else if wallCol.(col_side) =? RIGHT then
      let p1' := incr_score g.(p1) in
      (mkGame (int_incr g.(gameState)) p1' g.(p2) g.(ball),
       [ScoreLine p1'.(paddle_score) g.(p2).(paddle_score)])
    else (g, [])
  else
    (mkGame g.(gameState) g.(p1) g.(p2)
       (mkBall
          (mkPoint
             (g.(ball).(ball_position).(x) + g.(ball).(ball_speed).(x))%f32
             (g.(ball).(ball_position).(y) + g.(ball).(ball_speed).(y))%f32)
          g.(ball).(ball_speed)),
     []).

(** The whole step: the response, then the double check of the ball's
    [y]-position. *)
Definition roundStep (g : Game) : Game * list Output :=
  let '(g1, out) := roundResponse g in
  (mkGame g1.(gameState) g1.(p1) g1.(p2) (clampPositionY g1.(ball)), out).

(** ** Notation for test data *)

(** The point with integer coordinates [(u, v)]. *)
Definition pt (u v : Z) : Point := mkPoint (F32.of_Z u) (F32.of_Z v).

(** The paddles at their starting positions. *)
Definition paddle1 : Paddle := mkPaddle (pt 75 250) 0.
Definition paddle2 : Paddle := mkPaddle (pt 700 250) 0.

(** A [Game] in the round-loop state with the paddles at their starting
    positions. *)
Definition game (bl : Ball) : Game := mkGame 1 paddle1 paddle2 bl.

(** Ball states used as concrete inputs below. *)

(** Straight down, no horizontal velocity. *)
Definition ball_vertical : Ball := mkBall (pt 690 290) (pt 0 3).

(** Heading right and down at 45 degrees towards the top-left corner of the
    right paddle: the ball's RIGHT bound (697) is short of the paddle's LEFT
    (700) and RIGHT (725) bounds, its BOTTOM bound (249) is short of the
    paddle's TOP (250) and BOTTOM (350) bounds.  The bottom-right vertex
    moves from (697, 249) to (702, 254) through (700, 252). *)
Definition ball_before_paddle : Ball := mkBall (pt 677 229) (pt 5 5).

(** Heading right, already beyond the right paddle's RIGHT side. *)
Definition ball_behind_paddle : Ball := mkBall (pt 730 290) (pt 5 3).

(** Heading left and up; the leading vertex crosses [x = 0] this frame. *)
Definition ball_at_left_wall : Ball := mkBall (pt 2 290) (pt (-5) (-3)).

(** Heading right and down; the leading vertex crosses [x = 800]. *)
Definition ball_at_right_wall : Ball := mkBall (pt 778 290) (pt 5 3).

(** Heading right and down, three units short of the right paddle's LEFT
    side at the height of the paddle: a hit on that side this frame. *)
Definition ball_hits_paddle : Ball := mkBall (pt 677 290) (pt 5 2).

(** The same hit with a steep descent: the response leaves the ball with the
    velocity (-5.5, 22.4), outside three times 5.5. *)
Definition ball_steep_hit : Ball := mkBall (pt 677 290) (pt 5 20).


(** Heading right along the line [y = 30 + 2^-18]; the bottom-right vertex
    moves from (790, 50 + 2^-18) to (805, 50 + 2^-18) and crosses
    [x = 800]. *)
Definition ball_odd_y : Ball :=
  mkBall (mkPoint (F32.of_Z 770) (F32.of_dyadic 7864321 (-18))) (pt 15 0).

(** Heading right and up, one unit below the top wall; the leading
    (top-right) vertex moves from (420, 1) to (424, -1) and crosses [y = 0]
    at (422, 0). *)
Definition ball_at_top_wall : Ball := mkBall (pt 400 1) (pt 4 (-2)).

(** Heading right and down at 45 degrees into the bottom-right corner: the
    leading (bottom-right) vertex starts at (800 - 2^-14, 600 - 2^-13). *)
Definition ball_near_corner : Ball :=
  mkBall (mkPoint (F32.of_dyadic 12779519 (-14)) (F32.of_dyadic 4751359 (-13)))
         (pt 5 5).

(** * The properties of the specification, as definitions *)

(** [t] lies between [p] and [q], in either order: the segment from [p] to
    [q] of one coordinate axis crosses the line at coordinate [t]. *)
Definition between (p q t : float) : bool :=
  (((p <=? t) && (t <=? q)) || ((q <=? t) && (t <=? p)))%f32.

(** The vertex that leads in both directions of travel, chosen by the signs
    of the two velocity components, and the segment it sweeps during the
    frame. *)
Definition leadingVertex (bl : Ball) : Z :=
  if (bl.(ball_speed).(x) >=? f0)%f32
  then if (bl.(ball_speed).(y) >=? f0)%f32 then 2 else 1
  else if (bl.(ball_speed).(y) >=? f0)%f32 then 3 else 0.

Definition sweptStart (bl : Ball) : Point := Ball_getVertex bl (leadingVertex bl).

Definition sweptEnd (bl : Ball) : Point :=
  mkPoint ((sweptStart bl).(x) + bl.(ball_speed).(x))%f32
          ((sweptStart bl).(y) + bl.(ball_speed).(y))%f32.

Definition crosses_x (bl : Ball) (t : float) : bool :=
  between (sweptStart bl).(x) (sweptEnd bl).(x) t.

Definition crosses_y (bl : Ball) (t : float) : bool :=
  between (sweptStart bl).(y) (sweptEnd bl).(y) t.

(** The two boundary lines that face the direction of travel. *)
Definition facingBoundX (bl : Ball) : float :=
  if (bl.(ball_speed).(x) >=? f0)%f32 then F32.of_Z 800 else F32.of_Z 0.

Definition facingBoundY (bl : Ball) : float :=
  if (bl.(ball_speed).(y) >=? f0)%f32 then F32.of_Z 600 else F32.of_Z 0.

(** The ball's bounds on its leading sides have not reached the paddle: in
    both directions of travel the leading bound is still short of the
    paddle's near bound, and so of its far bound too. *)
Definition leading_bound_short (bl : Ball) (pd : Paddle) : bool :=
  (if (bl.(ball_speed).(x) >=? f0)%f32
   then (Ball_getBound bl RIGHT <? Paddle_getBound pd LEFT)%f32
        && (Ball_getBound bl RIGHT <? Paddle_getBound pd RIGHT)%f32
   else (Ball_getBound bl LEFT >? Paddle_getBound pd RIGHT)%f32
        && (Ball_getBound bl LEFT >? Paddle_getBound pd LEFT)%f32)
  && (if (bl.(ball_speed).(y) >=? f0)%f32
      then (Ball_getBound bl BOTTOM <? Paddle_getBound pd TOP)%f32
           && (Ball_getBound bl BOTTOM <? Paddle_getBound pd BOTTOM)%f32
      else (Ball_getBound bl TOP >? Paddle_getBound pd BOTTOM)%f32
           && (Ball_getBound bl TOP >? Paddle_getBound pd TOP)%f32).

(** The ball's bound on its trailing side already lies beyond the paddle's
    far bound, horizontally or vertically. *)
Definition trailing_bound_past (bl : Ball) (pd : Paddle) : bool :=
  (if (bl.(ball_speed).(x) >=? f0)%f32
   then (Ball_getBound bl LEFT >? Paddle_getBound pd RIGHT)%f32
   else (Ball_getBound bl RIGHT <? Paddle_getBound pd LEFT)%f32)
  || (if (bl.(ball_speed).(y) >=? f0)%f32
      then (Ball_getBound bl TOP >? Paddle_getBound pd BOTTOM)%f32
      else (Ball_getBound bl BOTTOM <? Paddle_getBound pd TOP)%f32).

(** The vertex [v] of a ball whose top-left corner is at [position]. *)
Definition vertexAt (position : Point) (v : Z) : Point :=
  Ball_getVertex (mkBall position origin) v.

(** The vertices with an offset of [BALL_SIZE] from the top-left corner in
    [x] (1 and 2) and in [y] (2 and 3). *)
Definition x_offset (v : Z) : bool := (v =? 1) || (v =? 2).
Definition y_offset (v : Z) : bool := (v =? 2) || (v =? 3).

(** Adding [BALL_SIZE] to [c] and taking it away again is exact. *)
Definition exact20 (c : float) : Prop :=
  ((c + BALL_SIZE) - c)%f32 = BALL_SIZE
  /\ ((c - BALL_SIZE) + BALL_SIZE)%f32 = c.

(** The condition under which a contact coordinate [c] survives the
    back-computation of the top-left corner: exactness of the [BALL_SIZE]
    round trip where the colliding vertex has an offset, a finite number
    where it has none. *)
Definition coordinate_exact (offset : bool) (c : float) : Prop :=
  if offset then exact20 c else F32.is_finite c = true.

(** The colliding vertex of the ball once it is put at the corrected
    position that the resolver wrote to its out-parameter. *)
Definition wallVertex (bl : Ball) (np : Point) : Point :=
  vertexAt (snd (getWallCollision bl np)) (testedVertex bl).

Definition paddleVertex (bl : Ball) (pd : Paddle) (np : Point) : Point :=
  vertexAt (snd (getPaddleCollision bl pd np))
           (snd (paddleSweep F32.div bl pd)).

(** The Euclidean distance [sqrt((b.x-a.x)^2 + (b.y-a.y)^2)] in the
    arithmetic of [Point_getDistance]: [float] differences, [double] squares,
    sum and square root, [float] result. *)
Definition euclideanDistance (p q : Point) : float :=
  let dx := F64.of_float (q.(x) - p.(x))%f32 in
  let dy := F64.of_float (q.(y) - p.(y))%f32 in
  F64.to_float (F64.sqrt (F64.add (F64.mul dx dx) (F64.mul dy dy))).

(** The range of an [int]. *)
Definition INT_MIN : Z := -2147483648.

(** * The rest of the game logic of [main] *)

(** ** Constants *)

Definition P1_START_X : float := F32.of_Z 75.
Definition P1_START_Y : float := F32.of_Z 250.
Definition P2_START_X : float := F32.of_Z 700.
Definition P2_START_Y : float := F32.of_Z 250.
Definition BALL_START_X : float := F32.of_Z 390.
Definition BALL_START_Y : float := F32.of_Z 290.
Definition BALL_SPEED : float := F32.of_Z 5.
Definition PADDLE_SPEED : float := F32.of_Z 8.
Definition f1 : float := F32.of_Z 1.

(** ** What the frame reads from outside the program

    One iteration of the window loop calls the keyboard, the clock, the
    random number generator and the rectangle intersection test of the
    graphics library.  Their results are the inputs of the iteration; a
    result that the taken path does not ask for is not used.

    - [now]: the value of [time(NULL)];
    - [keyReturn], [keyW], [keyS], [keyUp], [keyDown]: [sfKeyboard_isKeyPressed];
    - [intersects]: [sfFloatRect_intersects] on the rectangle of the paddle
      the ball is heading to and the rectangle of the ball;
    - [randSide], [randFraction], [randSign]: the three values of [rand()] of
      a serve, named after their use (horizontal direction, the fraction
      [(float)rand() / (float)RAND_MAX], the sign of the fraction). *)
Record Inputs : Type :=
  mkInputs {
    now : Z;
    keyReturn : bool;
    keyW : bool;
    keyS : bool;
    keyUp : bool;
    keyDown : bool;
    intersects : bool;
    randSide : Z;
    randFraction : Z;
    randSign : Z
  }.

(** ** Integer conversions *)

(** [--n] on an [int]. *)
Definition int_decr (n : Z) : Z :=
  (n - 1 + 2147483648) mod 4294967296 - 2147483648.

(** A [float] passed where an [int] is expected: the fractional part is
    discarded; the conversion is undefined ([None]) for a NaN, an infinity
    and a value whose integral part is not an [int]. *)
Definition float_to_int (v : float) : option Z :=
  match v with
  | S754_zero _ => Some 0
  | S754_finite s m e =>
    let t := match e with
             | Zneg k => Z.shiftr (Zpos m) (Zpos k)
             | _ => Z.shiftl (Zpos m) e
             end in
    let n := if s then - t else t in
    if (INT_MIN <=? n) && (n <=? INT_MAX) then Some n else None
  | _ => None
  end.

(** [abs] of [<stdlib.h>]: undefined for [INT_MIN]. *)
Definition int_abs (n : Z) : option Z :=
  if n =? INT_MIN then None else Some (Z.abs n).

(** [abs(v)] for a [float] [v] is defined: [v] converts to an [int], and
    that [int] is not [INT_MIN]. *)
Definition abs_defined (v : float) : bool :=
  match float_to_int v with
  | Some n => negb (n =? INT_MIN)
  | None => false
  end.

(** ** The round loop before the collision tests *)

(** "W key pressed" / "Up key pressed". *)
Definition moveUp (p : Paddle) : Paddle :=
  let newY := (p.(paddle_position).(y) - PADDLE_SPEED)%f32 in
  let newY := if (newY >? f0)%f32 then newY else f0 in
  mkPaddle (mkPoint p.(paddle_position).(x) newY) p.(paddle_score).

(** "S key pressed" / "Down key pressed". *)
Definition moveDown (p : Paddle) : Paddle :=
  let newY := (p.(paddle_position).(y) + PADDLE_SPEED)%f32 in
  let newY :=
    if (newY <? F32.of_Z WINDOW_HEIGHT - PADDLE_HEIGHT)%f32 then newY
    else (F32.of_Z WINDOW_HEIGHT - PADDLE_HEIGHT)%f32 in
  mkPaddle (mkPoint p.(paddle_position).(x) newY) p.(paddle_score).

(** The two key tests of one paddle: the moved paddle and its direction
    ([p1Dir] or [p2Dir]). *)
Definition movePaddle (up down : bool) (p : Paddle) : Paddle * Z :=
  let '(p, dir) := if up then (moveUp p, 0 - 1) else (p, 0) in
  if down then (moveDown p, dir + 1) else (p, dir).

(** "Check if the ball intersects a paddle after paddle movement": when the
    rectangles intersect and the paddle moved, [speed.y] becomes
    [abs(speed.y) * (float)dir] plus or minus [PADDLE_SPEED].  [abs] is the
    [int] function, so [speed.y] is first converted to [int]. *)
Definition spin (hit : bool) (dir : Z) (bl : Ball) : option Ball :=
  if hit then
    if negb (dir =? 0) then
      match float_to_int bl.(ball_speed).(y) with
      | None => None
      | Some n =>
        match int_abs n with
        | None => None
        | Some k =>
          let vy := (F32.of_Z k * F32.of_Z dir)%f32 in
          Some (set_speed_y bl
                  (vy + (if dir =? 1 then PADDLE_SPEED
                         else f0 - PADDLE_SPEED))%f32)
        end
      end
    else Some bl
  else Some bl.

(** The [Game] the collision step starts from: paddles moved by the keys,
    [speed.y] changed by the paddle the ball is heading to.  [None] when a
    conversion is undefined. *)
Definition roundInput (inp : Inputs) (g : Game) : option Game :=
  let ballXDir := if (g.(ball).(ball_speed).(x) >=? f0)%f32 then 1 else 0 in
  let '(p1', p1Dir) := movePaddle inp.(keyW) inp.(keyS) g.(p1) in
  let '(p2', p2Dir) := movePaddle inp.(keyUp) inp.(keyDown) g.(p2) in
  let dir := if ballXDir =? 1 then p2Dir else p1Dir in
  match spin inp.(intersects) dir g.(ball) with
  | None => None
  | Some bl => Some (mkGame g.(gameState) p1' p2' bl)
  end.

(** The whole block of the round-loop state. *)
Definition roundFrame (inp : Inputs) (g : Game) : option (Game * list Output) :=
  match roundInput inp g with
  | None => None
  | Some g1 => Some (roundStep g1)
  end.

(** ** The startup and new-round states *)

(** The variables of [main] outside a round: the [Game], [gameStarting] (an
    [int] that holds 0 or 1) and [sinceStart]. *)
Record Session : Type :=
  mkSession { session_game : Game; gameStarting : bool; sinceStart : Z }.

(** The lines written to [stdout] by the three states. *)
Inductive Message : Type :=
  | StartingLine                 (* "Starting the game in 3 seconds..." *)
  | WinnerLine (player : Z)      (* "Player n wins!" *)
  | RoundLine (o : Output).

Section Serve.

(** [RAND_MAX] of [<stdlib.h>]. *)
Variable RAND_MAX : Z.

(** "Set object positions and generate random ball speed and direction":
    the ball of a serve. *)
Definition serveBall (inp : Inputs) : Ball :=
  let vx := BALL_SPEED in
  let vy := f3 in
  let vx := if negb (Z.rem inp.(randSide) 2 =? 0) then (vx * fm1)%f32 else vx in
  let vy :=
    (vy * (F32.of_Z inp.(randFraction) / F32.of_Z RAND_MAX
           * (if negb (Z.rem inp.(randSign) 2 =? 0) then fm1 else f1)
           + f0_1))%f32 in
  mkBall (mkPoint BALL_START_X BALL_START_Y) (mkPoint vx vy).

(** The positions of a serve; the scores are given. *)
Definition serveGame (inp : Inputs) (state score1 score2 : Z) : Game :=
  mkGame state
         (mkPaddle (mkPoint P1_START_X P1_START_Y) score1)
         (mkPaddle (mkPoint P2_START_X P2_START_Y) score2)
         (serveBall inp).

(** [gameState == 0], "Startup state". *)
Definition startupState (inp : Inputs) (s : Session)
    : Session * list Message :=
  let g := s.(session_game) in
  if s.(gameStarting) then
    if inp.(now) - s.(sinceStart) >=? 3 then
      (mkSession (serveGame inp (int_incr g.(gameState)) 0 0) false
                 s.(sinceStart), [])
    else (s, [])
  else if inp.(keyReturn) then
    (mkSession g true inp.(now), [StartingLine])
  else (s, []).

(** [gameState == 2], "New round state". *)
Definition newRoundState (inp : Inputs) (s : Session)
    : Session * list Message :=
  let g := s.(session_game) in
  if s.(gameStarting) then
    if inp.(now) - s.(sinceStart) >=? 1 then
      (mkSession (serveGame inp (int_decr g.(gameState))
                            g.(p1).(paddle_score) g.(p2).(paddle_score))
                 false s.(sinceStart), [])
    else (s, [])
  else if (g.(p1).(paddle_score) >=? 9) || (g.(p2).(paddle_score) >=? 9) then
    let larger :=
      if g.(p1).(paddle_score) >? g.(p2).(paddle_score)
      then g.(p1).(paddle_score) else g.(p2).(paddle_score) in
    (mkSession (mkGame 0 g.(p1) g.(p2) g.(ball)) false s.(sinceStart),
     [WinnerLine (if larger =? g.(p1).(paddle_score) then 1 else 2)])
  else (mkSession g true inp.(now), []).

(** The game logic of one iteration of the window loop; [None] when a
    conversion of the round loop is undefined. *)
Definition gameLogic (inp : Inputs) (s : Session)
    : option (Session * list Message) :=
  let g := s.(session_game) in
  if g.(gameState) =? 0 then Some (startupState inp s)
  else if g.(gameState) =? 1 then
    match roundFrame inp g with
    | None => None
    | Some (g', out) =>
      Some (mkSession g' s.(gameStarting) s.(sinceStart), map RoundLine out)
    end
  else if g.(gameState) =? 2 then Some (newRoundState inp s)
  else Some (s, []).

(** The game logic over a sequence of iterations, one [Inputs] each. *)
Fixpoint gameRun (inps : list Inputs) (s : Session) : option Session :=
  match inps with
  | [] => Some s
  | inp :: rest =>
    match gameLogic inp s with
    | None => None
    | Some (s', _) => gameRun rest s'
    end
  end.

End Serve.

(** The variables of [main] when the window loop is entered; [t0] is the
    value of [time(NULL)] at that moment. *)
Definition initialSession (t0 : Z) : Session :=
  mkSession
    (mkGame 0 (mkPaddle (mkPoint P1_START_X P1_START_Y) 0)
              (mkPaddle (mkPoint P2_START_X P2_START_Y) 0)
              (mkBall (mkPoint BALL_START_X BALL_START_Y)
                      (mkPoint BALL_SPEED BALL_SPEED)))
    false t0.

(** The up and the down key of the paddle the ball is heading to: the
    arrow keys of paddle 2 when [speed.x >= 0], W and S of paddle 1
    otherwise. *)
Definition facingUpKey (inp : Inputs) (g : Game) : bool :=
  if (g.(ball).(ball_speed).(x) >=? f0)%f32 then inp.(keyUp) else inp.(keyW).

Definition facingDownKey (inp : Inputs) (g : Game) : bool :=
  if (g.(ball).(ball_speed).(x) >=? f0)%f32 then inp.(keyDown) else inp.(keyS).

(** ** Concrete inputs *)

(** An iteration at clock value [t] with only the Return key pressed, and
    one with no key pressed. *)
Definition press_return (t : Z) : Inputs :=
  mkInputs t true false false false false false 0 0 0.

Definition idle (t : Z) : Inputs :=
  mkInputs t false false false false false false 0 0 0.

(** An iteration with only the down key of paddle 2 pressed while the
    rectangles of that paddle and the ball intersect. *)
Definition drag_down : Inputs :=
  mkInputs 0 false false false false true true 0 0 0.

(** An iteration at clock value [t] with only the up key of paddle 2
    pressed. *)
Definition hold_up (t : Z) : Inputs :=
  mkInputs t false false false true false false 0 0 0.

(** The iterations of one round that player 1 wins: the serve goes to the
    right and slightly down ([rand()] gives 0 three times), paddle 2 is
    moved up out of the way, and the ball reaches the right wall in the
    78th iteration; the 79th finds the round over, and the next serve
    follows one second later. *)
Definition rally (t : Z) : list Inputs :=
  repeat (hold_up t) 79 ++ [idle t; idle (t + 1)].

(** [n] such rounds, one per second from [t] on. *)
Fixpoint rallies (n : nat) (t : Z) : list Inputs :=
  match n with
  | O => []
  | S k => rally t ++ rallies k (t + 1)
  end.

(** From the first iteration to the first point: Return at second 0, the
    serve at second 3, then [n] iterations of flight, 78 to the point. *)
Definition flight (n : nat) : list Inputs :=
  [press_return 0; idle 3] ++ repeat (hold_up 3) n.

Definition first_point : list Inputs := flight 78.

(** From the first iteration to the ninth point of player 1. *)
Definition match_point : list Inputs :=
  [press_return 0; idle 3] ++ rallies 8 3 ++ repeat (hold_up 11) 78.

(** ** Concrete sessions *)

(** The session after Return was pressed at second 0. *)
Definition awaiting_serve : Session :=
  mkSession
    (mkGame 0 paddle1 paddle2 (mkBall (pt 390 290) (pt 5 5))) true 0.

(** The ball of a [rally] one step before the right wall: at [x = 775],
    [y] about 313.1, with velocity 5 and about 0.3. *)
Definition ball_in_flight : Ball :=
  mkBall (mkPoint (F32.of_Z 775) (S754_finite false 10259630 (-15)))
         (mkPoint (F32.of_Z 5) (S754_finite false 10066330 (-25))).

(** The sessions of a [rally] with that ball: paddle 2 at the top, player 2
    without points. *)
Definition flight_session (state score1 since : Z) : Session :=
  mkSession
    (mkGame state (mkPaddle (pt 75 250) score1) (mkPaddle (pt 700 0) 0)
            ball_in_flight)
    false since.

(** Before and after the first point, and before the winner of the match
    is announced. *)
Definition before_first_point : Session := flight_session 1 0 0.
Definition after_first_point : Session := flight_session 2 1 0.
Definition before_winner : Session := flight_session 2 9 10.

(** ** The invariant of the game logic *)

(** What holds for the variables of [main] after every iteration of the
    window loop: [gameState] is 0, 1 or 2; both scores are within 0..9 and
    not both 9; during a round, and while the next serve is awaited, both
    are below 9; during a round [gameStarting] is 0; [speed.x] is a non-zero
    number; the paddles are in their columns. *)
Definition session_ok (s : Session) : Prop :=
  let g := s.(session_game) in
  (g.(gameState) = 0 \/ g.(gameState) = 1 \/ g.(gameState) = 2)
  /\ 0 <= g.(p1).(paddle_score) <= 9
  /\ 0 <= g.(p2).(paddle_score) <= 9
  /\ ~ (g.(p1).(paddle_score) = 9 /\ g.(p2).(paddle_score) = 9)
  /\ (g.(gameState) = 1 ->
      s.(gameStarting) = false
      /\ g.(p1).(paddle_score) <= 8 /\ g.(p2).(paddle_score) <= 8)
  /\ (g.(gameState) = 2 -> s.(gameStarting) = true ->
      g.(p1).(paddle_score) <= 8 /\ g.(p2).(paddle_score) <= 8)
  /\ F32.is_nan g.(ball).(ball_speed).(x) = false
  /\ (g.(ball).(ball_speed).(x) ==? f0)%f32 = false
  /\ g.(p1).(paddle_position).(x) = P1_START_X
  /\ g.(p2).(paddle_position).(x) = P2_START_X.

(** ** Auxiliary notions for the arithmetic facts *)

(** The mantissa of a shift record is not negative and has at least [j]
    binary digits. *)
Definition has_digits (j : Z) (mrs : shr_record) : Prop :=
  j <= Zdigits2 (shr_m mrs) /\ 0 <= shr_m mrs.

(** The classes of non-NaN values by sign; a zero belongs to both. *)
Definition not_positive (u : float) : bool :=
  match u with
  | S754_zero _ | S754_infinity true | S754_finite true _ _ => true
  | _ => false
  end.

Definition not_negative (u : float) : bool :=
  match u with
  | S754_zero _ | S754_infinity false | S754_finite false _ _ => true
  | _ => false
  end.

(** * Facts about the floating-point operations *)

Section FloatFacts.

Variables prec emax : Z.

Lemma shr_1_nonneg mrs : 0 <= shr_m mrs -> 0 <= shr_m (shr_1 mrs).
Proof.
  destruct mrs as [m r s]; simpl.
  destruct m as [|p|p]; simpl; try lia.
  destruct p; simpl; lia.
Qed.

Lemma iter_pos_shr_1_nonneg n : forall mrs,
  0 <= shr_m mrs -> 0 <= shr_m (iter_pos shr_1 n mrs).
Proof.
  induction n as [n IH|n IH|]; intros mrs H; simpl.
  - apply IH, IH, shr_1_nonneg, H.
  - apply IH, IH, H.
  - apply shr_1_nonneg, H.
Qed.

Lemma shr_nonneg mrs e n :
  0 <= shr_m mrs -> 0 <= shr_m (fst (shr mrs e n)).
Proof.
  intros H; destruct n; simpl; auto using iter_pos_shr_1_nonneg.
Qed.

Lemma shr_record_of_loc_m m l : shr_m (shr_record_of_loc m l) = m.
Proof. destruct l as [|[]]; reflexivity. Qed.

Lemma shr_fexp_nonneg m e l :
  0 <= m -> 0 <= shr_m (fst (shr_fexp prec emax m e l)).
Proof.
  intros H; unfold shr_fexp; apply shr_nonneg.
  rewrite shr_record_of_loc_m; exact H.
Qed.

Lemma round_nearest_even_nonneg m l : 0 <= m -> 0 <= round_nearest_even m l.
Proof.
  intros H; destruct l as [|[]]; simpl; try lia.
  destruct (Z.even m); lia.
Qed.

(** Rounding a non-negative mantissa never yields a NaN. *)
Lemma binary_round_aux_not_nan s m e l :
  0 <= m -> F32.is_nan (binary_round_aux prec emax s m e l) = false.
Proof.
  intros H; unfold binary_round_aux.
  pose proof (shr_fexp_nonneg m e l H) as H1.
  destruct (shr_fexp prec emax m e l) as [mrs' e']; simpl in H1.
  pose proof (shr_fexp_nonneg _ e' loc_Exact
                (round_nearest_even_nonneg _ (loc_of_shr_record mrs') H1))
    as H2.
  destruct (shr_fexp prec emax _ e' loc_Exact) as [mrs'' e'']; simpl in H2.
  destruct (shr_m mrs''); try lia; try reflexivity.
  destruct (e'' <=? emax - prec); reflexivity.
Qed.

(** Rounding is symmetric in the sign. *)
Lemma binary_round_aux_opp s m e l :
  binary_round_aux prec emax (negb s) m e l
  = SFopp (binary_round_aux prec emax s m e l).
Proof.
  unfold binary_round_aux.
  destruct (shr_fexp prec emax m e l) as [mrs' e'].
  destruct (shr_fexp prec emax _ e' loc_Exact) as [mrs'' e''].
  destruct (shr_m mrs''); try reflexivity.
  destruct (e'' <=? emax - prec); reflexivity.
Qed.

Lemma binary_round_aux_abs s m e l :
  SFabs (binary_round_aux prec emax s m e l)
  = binary_round_aux prec emax false m e l.
Proof.
  unfold binary_round_aux.
  destruct (shr_fexp prec emax m e l) as [mrs' e'].
  destruct (shr_fexp prec emax _ e' loc_Exact) as [mrs'' e''].
  destruct (shr_m mrs''); try reflexivity.
  destruct (e'' <=? emax - prec); reflexivity.
Qed.

Lemma SFmul_opp_r u v :
  SFmul prec emax u (SFopp v) = SFopp (SFmul prec emax u v).
Proof.
  destruct u as [s|s| |s m e], v as [s'|s'| |s' m' e']; simpl;
    try reflexivity; try (destruct s, s'; reflexivity).
  rewrite <- binary_round_aux_opp. f_equal. destruct s, s'; reflexivity.
Qed.

Lemma SFmul_abs u v :
  SFabs (SFmul prec emax u v) = SFmul prec emax (SFabs u) (SFabs v).
Proof.
  destruct u as [s|s| |s m e], v as [s'|s'| |s' m' e']; simpl;
    try reflexivity.
  apply binary_round_aux_abs.
Qed.

Lemma SFmul_comm u v : SFmul prec emax u v = SFmul prec emax v u.
Proof.
  destruct u as [s|s| |s m e], v as [s'|s'| |s' m' e']; simpl;
    try reflexivity; try (rewrite xorb_comm; reflexivity).
  rewrite xorb_comm, Pos.mul_comm, Z.add_comm; reflexivity.
Qed.

Lemma SFmul_finite_not_nan u s m e :
  F32.is_nan u = false ->
  F32.is_nan (SFmul prec emax u (S754_finite s m e)) = false.
Proof.
  destruct u as [s0|s0| |s0 m0 e0]; simpl;
    try reflexivity; try discriminate.
  intros _. apply binary_round_aux_not_nan. lia.
Qed.

(** [u - (u - u) = u] for every zero and every finite [u]. *)
Lemma SFsub_sub_diag u :
  F32.is_finite u = true -> SFsub prec emax u (SFsub prec emax u u) = u.
Proof.
  destruct u as [s|s| |s m e]; simpl; try discriminate; intros _.
  - destruct s; reflexivity.
  - rewrite Z.sub_diag. reflexivity.
Qed.

Lemma SFadd_nan_l u v : F32.is_nan u = true -> SFadd prec emax u v = S754_nan.
Proof. destruct u; simpl; try discriminate; reflexivity. Qed.

End FloatFacts.

(** ** The order of the non-NaN values *)

Lemma SFcompare_antisym (u v : float) :
  SFcompare v u = option_map CompOpp (SFcompare u v).
Proof.
  destruct u as [s|s| |s m e], v as [s'|s'| |s' m' e']; simpl;
    try reflexivity;
    try (destruct s; try destruct s'; reflexivity);
    try (destruct s'; reflexivity).
  destruct s, s'; simpl; try reflexivity;
    rewrite (Z.compare_antisym e e'); destruct (e ?= e'); simpl;
    try reflexivity;
    change (Pos.compare_cont Eq m' m) with (Pos.compare m' m);
    change (Pos.compare_cont Eq m m') with (Pos.compare m m');
    rewrite (Pos.compare_antisym m m'); destruct (m ?= m')%positive;
    reflexivity.
Qed.

Lemma SFcompare_nan (u v : float) :
  SFcompare u v = None <-> F32.is_nan u = true \/ F32.is_nan v = true.
Proof.
  destruct u as [s|s| |s m e], v as [s'|s'| |s' m' e']; simpl;
    split; intros H; try discriminate; auto;
    try (destruct H; discriminate).
Qed.

Lemma leb_not_nan (u v : float) :
  (u <=? v)%f32 = true -> F32.is_nan u = false /\ F32.is_nan v = false.
Proof.
  unfold F32.leb, SFleb.
  destruct u, v; simpl; try discriminate; auto.
Qed.

Lemma ltb_not_nan (u v : float) :
  (u <? v)%f32 = true -> F32.is_nan u = false /\ F32.is_nan v = false.
Proof.
  unfold F32.ltb, SFltb.
  destruct u, v; simpl; try discriminate; auto.
Qed.

Lemma ltb_leb (u v : float) : (u <? v)%f32 = true -> (u <=? v)%f32 = true.
Proof.
  unfold F32.ltb, F32.leb, SFltb, SFleb.
  destruct (SFcompare u v) as [[]|]; try discriminate; reflexivity.
Qed.

Lemma ltb_antisym (u v : float) : (u <? v)%f32 = true -> (v <=? u)%f32 = false.
Proof.
  unfold F32.ltb, F32.leb, SFltb, SFleb. rewrite (SFcompare_antisym u v).
  destruct (SFcompare u v) as [[]|]; try discriminate; reflexivity.
Qed.

Lemma leb_false_ltb (u v : float) :
  F32.is_nan u = false -> F32.is_nan v = false ->
  (u <=? v)%f32 = false -> (v <? u)%f32 = true.
Proof.
  unfold F32.ltb, F32.leb, SFltb, SFleb. intros Hu Hv.
  rewrite (SFcompare_antisym u v).
  destruct (SFcompare u v) as [[]|] eqn:E; simpl; try discriminate;
    try reflexivity.
  apply SFcompare_nan in E. destruct E; congruence.
Qed.

Lemma ltb_false_leb (u v : float) :
  F32.is_nan u = false -> F32.is_nan v = false ->
  (u <? v)%f32 = false -> (v <=? u)%f32 = true.
Proof.
  unfold F32.ltb, F32.leb, SFltb, SFleb. intros Hu Hv.
  rewrite (SFcompare_antisym u v).
  destruct (SFcompare u v) as [[]|] eqn:E; simpl; try discriminate;
    try reflexivity.
  apply SFcompare_nan in E. destruct E; congruence.
Qed.

Lemma leb_refl (u : float) : F32.is_nan u = false -> (u <=? u)%f32 = true.
Proof.
  intros H. apply ltb_false_leb; auto.
  destruct (u <? u)%f32 eqn:E; auto.
  pose proof (ltb_antisym _ _ E) as E1. pose proof (ltb_leb _ _ E). congruence.
Qed.

Lemma leb_trans (u v w : float) :
  (u <=? v)%f32 = true -> (v <=? w)%f32 = true -> (u <=? w)%f32 = true.
Proof.
  unfold F32.leb, SFleb.
  destruct u as [s|s| |s m e], v as [s'|s'| |s' m' e'],
           w as [s''|s''| |s'' m'' e''];
    simpl; try discriminate; try reflexivity;
    repeat match goal with s : bool |- _ => destruct s end; simpl;
    try discriminate; try reflexivity.
  all: change (Pos.compare_cont Eq) with Pos.compare.
  all: destruct (Z.compare_spec e e'); try discriminate;
       destruct (Z.compare_spec e' e''); try discriminate;
       destruct (Z.compare_spec e e''); try reflexivity; try lia; subst.
  all: destruct (Pos.compare_spec m m'); try discriminate;
       destruct (Pos.compare_spec m' m''); try discriminate;
       destruct (Pos.compare_spec m m''); simpl;
       try reflexivity; try lia; try discriminate.
Qed.

Lemma abs_opp (u : float) : F32.abs (F32.opp u) = F32.abs u.
Proof. destruct u; reflexivity. Qed.

Lemma abs_not_nan (u : float) : F32.is_nan (F32.abs u) = F32.is_nan u.
Proof. destruct u; reflexivity. Qed.

Lemma opp_not_nan (u : float) : F32.is_nan (F32.opp u) = F32.is_nan u.
Proof. destruct u; reflexivity. Qed.

Lemma MAX_cases (u v : float) : MAX u v = u \/ MAX u v = v.
Proof. unfold MAX. destruct (u >? v)%f32; auto. Qed.

Lemma MIN_cases (u v : float) : MIN u v = u \/ MIN u v = v.
Proof. unfold MIN. destruct (u <? v)%f32; auto. Qed.

(** A value between [MIN c (-c)] and [MAX c (-c)] has a magnitude of at most
    that of [c]. *)
Lemma abs_leb_of_clamped (v c : float) :
  (v <=? MAX c (F32.opp c))%f32 = true ->
  (MIN c (F32.opp c) <=? v)%f32 = true ->
  (F32.abs v <=? F32.abs c)%f32 = true.
Proof.
  unfold MIN, MAX, F32.gtb, F32.ltb, F32.leb, F32.abs, F32.opp, SFltb, SFleb.
  destruct v as [s|s| |s m e], c as [s'|s'| |s' m' e'];
    repeat match goal with s : bool |- _ => destruct s end; simpl;
    try discriminate; try reflexivity; auto.
  all: change (Pos.compare_cont Eq) with Pos.compare.
  all: destruct (Z.compare_spec e e'); destruct (Z.compare_spec e' e);
       try discriminate; try reflexivity; try lia; subst.
  all: destruct (Pos.compare_spec m m'); destruct (Pos.compare_spec m' m);
       simpl; try discriminate; try reflexivity; try lia.
Qed.

Lemma leb_nan_l (u v : float) : F32.is_nan u = true -> (u <=? v)%f32 = false.
Proof.
  intros H. destruct (u <=? v)%f32 eqn:E; [|reflexivity].
  apply leb_not_nan in E. destruct E; congruence.
Qed.

Lemma leb_nan_r (u v : float) : F32.is_nan v = true -> (u <=? v)%f32 = false.
Proof.
  intros H. destruct (u <=? v)%f32 eqn:E; [|reflexivity].
  apply leb_not_nan in E. destruct E; congruence.
Qed.

Lemma ltb_nan_r (u v : float) : F32.is_nan v = true -> (u <? v)%f32 = false.
Proof.
  intros H. destruct (u <? v)%f32 eqn:E; [|reflexivity].
  apply ltb_not_nan in E. destruct E; congruence.
Qed.

(** The range test of the resolvers, [MIN(p, q) <= t && MAX(p, q) >= t],
    says that [t] lies between [p] and [q]; [q] is [p] plus a displacement,
    so it is a NaN whenever [p] is. *)
Lemma min_max_between (p q t : float) :
  (F32.is_nan p = true -> F32.is_nan q = true) ->
  ((MIN p q <=? t) && (MAX p q >=? t))%f32 = between p q t.
Proof.
  intros Hpq. unfold MIN, MAX, between, F32.gtb, F32.geb.
  destruct (F32.is_nan q) eqn:Nq.
  - rewrite (ltb_nan_r p q Nq), (leb_nan_l q t Nq), (leb_nan_r t q Nq).
    rewrite andb_false_r. reflexivity.
  - destruct (F32.is_nan p) eqn:Np; [specialize (Hpq eq_refl); discriminate|].
    destruct (p <? q)%f32 eqn:Epq.
    + pose proof (ltb_antisym _ _ Epq) as Eqp.
      assert (Eqp' : (q <? p)%f32 = false).
      { destruct (q <? p)%f32 eqn:E; [|reflexivity].
        apply ltb_leb in E. congruence. }
      rewrite Eqp'.
      destruct ((q <=? t) && (t <=? p))%f32 eqn:E.
      * apply andb_true_iff in E. destruct E as [E1 E2].
        pose proof (leb_trans _ _ _ E1 E2). congruence.
      * rewrite orb_false_r. reflexivity.
    + pose proof (ltb_false_leb _ _ Np Nq Epq) as Lqp.
      destruct (q <? p)%f32 eqn:Eqp.
      * pose proof (ltb_antisym _ _ Eqp) as Lpq.
        destruct ((p <=? t) && (t <=? q))%f32 eqn:E.
        -- apply andb_true_iff in E. destruct E as [E1 E2].
           pose proof (leb_trans _ _ _ E1 E2). congruence.
        -- reflexivity.
      * pose proof (ltb_false_leb _ _ Nq Np Eqp) as Lpq.
        assert (E1 : (p <=? t)%f32 = (q <=? t)%f32).
        { destruct (q <=? t)%f32 eqn:E.
          - exact (leb_trans _ _ _ Lpq E).
          - destruct (p <=? t)%f32 eqn:E'; [|reflexivity].
            pose proof (leb_trans _ _ _ Lqp E'). congruence. }
        assert (E2 : (t <=? p)%f32 = (t <=? q)%f32).
        { destruct (t <=? q)%f32 eqn:E.
          - exact (leb_trans _ _ _ E Lqp).
          - destruct (t <=? p)%f32 eqn:E'; [|reflexivity].
            pose proof (leb_trans _ _ _ E' Lpq). congruence. }
        rewrite E1, E2.
        destruct ((q <=? t)%f32), ((t <=? q)%f32); reflexivity.
Qed.

(** * The embedding on the scenarios of the specification *)

(** The constants are the binary32 values of the literals. *)
Example literals :
  f0 = S754_zero false
  /\ BALL_SIZE = S754_finite false 10485760 (-19)
  /\ f0_1 = S754_finite false 13421773 (-27)
  /\ f0_5 = S754_finite false 8388608 (-24)
  /\ fm3 = S754_finite true 12582912 (-22)
  /\ (F32.of_Z WINDOW_HEIGHT - BALL_SIZE - f0_1)%f32
     = S754_finite false 9501082 (-14).
Proof. repeat split; reflexivity. Qed.

(** The two balls with fractional coordinates are binary32 numbers. *)
Example fractional_inputs_valid :
  valid_binary F32.prec F32.emax ball_odd_y.(ball_position).(y) = true
  /\ valid_binary F32.prec F32.emax ball_near_corner.(ball_position).(x) = true
  /\ valid_binary F32.prec F32.emax ball_near_corner.(ball_position).(y) = true.
Proof. repeat split; reflexivity. Qed.

(** Ball at (390, 290) with velocity (5, 3), paddle 2 at (700, 250): no
    collision this frame, the ball advances to (395, 293). *)
Example scenario_free_flight :
  roundStep (game (mkBall (pt 390 290) (pt 5 3)))
  = (game (mkBall (pt 395 293) (pt 5 3)), []).
Proof. vm_compute. reflexivity. Qed.

(** Velocity (-5, -3), the swept vertex crosses [x = 0]: side LEFT, contact
    on [x = 0], a point for player 2. *)
Example scenario_left_wall :
  col_side (fst (getWallCollision ball_at_left_wall origin)) = LEFT
  /\ (fst (getWallCollision ball_at_left_wall origin)).(col_position).(x) = f0
  /\ roundStep (game ball_at_left_wall)
     = (mkGame 2 paddle1 (mkPaddle (pt 700 250) 1) ball_at_left_wall,
        [ScoreLine 0 1]).
Proof. repeat split; vm_compute; reflexivity. Qed.

(** A hit on the LEFT side of paddle 2 with velocity (5, 0) at the height of
    the paddle's centre: the ball is put at the corrected position and leaves
    with velocity (-5.5, 0). *)
Example scenario_paddle_hit :
  roundStep (game (mkBall (pt 677 290) (pt 5 0)))
  = (game (mkBall (pt 680 290)
                  (mkPoint (F32.of_dyadic (-11) (-1)) f0)), []).
Proof. vm_compute. reflexivity. Qed.

(** * Geometry queries *)

(** C10.  The geometry queries are total functions, and on every vertex
    index outside 0..3 and every side value outside the enumeration they
    return the zero value: the point (0,0), the line from (0,0) to (0,0), the
    bound 0. *)
Theorem C10_queries_default (bl : Ball) (pd : Paddle) (n : Z) :
  n < 0 \/ 3 < n ->
  Ball_getVertex bl n = mkPoint f0 f0
  /\ Paddle_getVertex pd n = mkPoint f0 f0
  /\ Ball_getSide bl n = mkLine (mkPoint f0 f0) (mkPoint f0 f0)
  /\ Paddle_getSide pd n = mkLine (mkPoint f0 f0) (mkPoint f0 f0)
  /\ Ball_getBound bl n = f0
  /\ Paddle_getBound pd n = f0.
Proof.
  intros H.
  destruct n as [|q|q]; [lia| |repeat split; reflexivity].
  destruct q as [[q|q|]|[q|q|]|]; try lia; repeat split; reflexivity.
Qed.

Lemma C10_queries_default_witness :
  (7 < 0 \/ 3 < 7)
  /\ Ball_getVertex (mkBall (pt 390 290) (pt 5 3)) 7
     = mkPoint f0 f0
  /\ Paddle_getVertex paddle1 7 = mkPoint f0 f0
  /\ Ball_getSide (mkBall (pt 390 290) (pt 5 3)) 7
     = mkLine (mkPoint f0 f0) (mkPoint f0 f0)
  /\ Paddle_getSide paddle1 7 = mkLine (mkPoint f0 f0) (mkPoint f0 f0)
  /\ Ball_getBound (mkBall (pt 390 290) (pt 5 3)) 7 = f0
  /\ Paddle_getBound paddle1 7 = f0.
Proof.
  assert (H : 7 < 0 \/ 3 < 7) by (right; reflexivity).
  split; [exact H|].
  exact (C10_queries_default (mkBall (pt 390 290) (pt 5 3)) paddle1 7 H).
Defined.

(** * The resolvers *)

(** C5.  When [velocity.x] is zero (of either sign) both resolvers return
    "no collision" and leave the out-parameter alone, for every paddle and
    whatever the division would compute: the result does not depend on
    [divide], the slope is never formed. *)
Theorem C5_zero_dx_no_collision (divide : float -> float -> float)
    (bl : Ball) (pd : Paddle) (np : Point) :
  (bl.(ball_speed).(x) ==? f0)%f32 = true ->
  getPaddleCollision_with divide bl pd np = (no_collision, np)
  /\ getWallCollision_with divide bl np = (no_collision, np)
  /\ getPaddleCollision bl pd np = (no_collision, np)
  /\ getWallCollision bl np = (no_collision, np).
Proof.
  intros H.
  unfold getPaddleCollision, getWallCollision, getPaddleCollision_with,
    getWallCollision_with, paddleSweep, wallSweep.
  rewrite H. repeat split; reflexivity.
Qed.

Lemma C5_zero_dx_no_collision_witness :
  (ball_vertical.(ball_speed).(x) ==? f0)%f32 = true
  /\ getPaddleCollision_with (fun _ _ => S754_nan) ball_vertical paddle2
       (pt 1 2)
     = (no_collision, pt 1 2)
  /\ getWallCollision_with (fun _ _ => S754_nan) ball_vertical (pt 1 2)
     = (no_collision, pt 1 2)
  /\ getPaddleCollision ball_vertical paddle2 (pt 1 2)
     = (no_collision, pt 1 2)
  /\ getWallCollision ball_vertical (pt 1 2) = (no_collision, pt 1 2).
Proof.
  assert (H : (ball_vertical.(ball_speed).(x) ==? f0)%f32 = true)
    by reflexivity.
  split; [exact H|].
  exact (C5_zero_dx_no_collision (fun _ _ => S754_nan) ball_vertical paddle2
           (pt 1 2) H).
Defined.

(** The broad-phase rejects of [getPaddleCollision]. *)
Lemma horizontalSetup_reject (bl : Ball) (pd : Paddle) :
  (if (bl.(ball_speed).(x) >=? f0)%f32
   then (Ball_getBound bl LEFT >? Paddle_getBound pd RIGHT)%f32
   else (Ball_getBound bl RIGHT <? Paddle_getBound pd LEFT)%f32) = true ->
  horizontalSetup bl pd = None.
Proof.
  unfold horizontalSetup.
  destruct (bl.(ball_speed).(x) >=? f0)%f32; intros ->; reflexivity.
Qed.

Lemma verticalSetup_reject (bl : Ball) (pd : Paddle) :
  (if (bl.(ball_speed).(y) >=? f0)%f32
   then (Ball_getBound bl TOP >? Paddle_getBound pd BOTTOM)%f32
   else (Ball_getBound bl BOTTOM <? Paddle_getBound pd TOP)%f32) = true ->
  verticalSetup bl pd = None.
Proof.
  unfold verticalSetup.
  destruct (bl.(ball_speed).(y) >=? f0)%f32; intros ->; reflexivity.
Qed.

Example ball_before_paddle_hit :
  getPaddleCollision ball_before_paddle paddle2 origin
  = (mkCollision true (pt 700 252) LEFT, pt 680 232).
Proof. vm_compute. reflexivity. Qed.

(** C6, as stated, fails: [ball_before_paddle] has reached the paddle with
    neither of its leading bounds, and its sweep hits the paddle's LEFT side
    at (700, 252) during the step. *)
Lemma C6_leading_bound_counterexample :
  ~ (forall (bl : Ball) (pd : Paddle) (np : Point),
       leading_bound_short bl pd = true ->
       collides (fst (getPaddleCollision bl pd np)) = false).
Proof.
  intros H.
  specialize (H ball_before_paddle paddle2 origin eq_refl).
  vm_compute in H. discriminate H.
Qed.

(** C6, amended.  If the ball's bound on its trailing side already lies
    beyond the paddle's far bound in a direction of travel (LEFT beyond the
    paddle's RIGHT when it moves right, RIGHT before the paddle's LEFT when
    it moves left, TOP below the paddle's BOTTOM when it moves down, BOTTOM
    above the paddle's TOP when it moves up), [getPaddleCollision] reports
    no collision and leaves the out-parameter alone, whatever the overlap on
    the other axis. *)
Theorem C6_broad_phase_reject (bl : Ball) (pd : Paddle) (np : Point) :
  trailing_bound_past bl pd = true ->
  getPaddleCollision bl pd np = (no_collision, np).
Proof.
  unfold trailing_bound_past. intros H.
  unfold getPaddleCollision, getPaddleCollision_with, paddleSweep.
  destruct (bl.(ball_speed).(x) ==? f0)%f32; [reflexivity|].
  apply orb_true_iff in H. destruct H as [H|H].
  - rewrite (horizontalSetup_reject _ _ H). reflexivity.
  - rewrite (verticalSetup_reject _ _ H).
    destruct (horizontalSetup bl pd); reflexivity.
Qed.

Lemma C6_broad_phase_reject_witness :
  trailing_bound_past ball_behind_paddle paddle2 = true
  /\ getPaddleCollision ball_behind_paddle paddle2 origin
     = (no_collision, origin).
Proof.
  assert (H : trailing_bound_past ball_behind_paddle paddle2 = true)
    by (vm_compute; reflexivity).
  split; [exact H|].
  exact (C6_broad_phase_reject ball_behind_paddle paddle2 origin H).
Defined.

(** * The round loop *)

Lemma int_incr_small (n : Z) : INT_MIN <= n < INT_MAX -> int_incr n = n + 1.
Proof.
  unfold INT_MIN, INT_MAX, int_incr. intros H.
  rewrite Z.mod_small; lia.
Qed.

Lemma clampPositionY_speed (bl : Ball) :
  (clampPositionY bl).(ball_speed) = bl.(ball_speed).
Proof.
  unfold clampPositionY.
  destruct (_ <=? _)%f32; [reflexivity|].
  destruct (_ >=? _)%f32; reflexivity.
Qed.

Lemma clampPositionY_x (bl : Ball) :
  (clampPositionY bl).(ball_position).(x) = bl.(ball_position).(x).
Proof.
  unfold clampPositionY.
  destruct (_ <=? _)%f32; [reflexivity|].
  destruct (_ >=? _)%f32; reflexivity.
Qed.

(** C3.  In a round-loop frame without a paddle collision, a wall collision
    on side LEFT adds one to player 2's score, one on side RIGHT adds one to
    player 1's score; either way [gameState] goes from 1 to 2 (the round is
    over), the score line is printed, the other paddle is unchanged, and the
    ball is the ball the frame started with, only passed through the final
    double check of its y-position: its velocity is not reflected and its
    x-position is not moved to the wall. *)
Theorem C3_side_wall_scores (g : Game) :
  g.(gameState) = 1 ->
  collides (fst (framePaddleCollision g)) = false ->
  collides (fst (frameWallCollision g)) = true ->
  (col_side (fst (frameWallCollision g)) = LEFT ->
   INT_MIN <= g.(p2).(paddle_score) < INT_MAX ->
   roundStep g
   = (mkGame 2 g.(p1)
        (mkPaddle g.(p2).(paddle_position) (g.(p2).(paddle_score) + 1))
        (clampPositionY g.(ball)),
      [ScoreLine g.(p1).(paddle_score) (g.(p2).(paddle_score) + 1)]))
  /\ (col_side (fst (frameWallCollision g)) = RIGHT ->
      INT_MIN <= g.(p1).(paddle_score) < INT_MAX ->
      roundStep g
      = (mkGame 2
           (mkPaddle g.(p1).(paddle_position) (g.(p1).(paddle_score) + 1))
           g.(p2) (clampPositionY g.(ball)),
         [ScoreLine (g.(p1).(paddle_score) + 1) g.(p2).(paddle_score)]))
  /\ (clampPositionY g.(ball)).(ball_speed) = g.(ball).(ball_speed)
  /\ (clampPositionY g.(ball)).(ball_position).(x)
     = g.(ball).(ball_position).(x).
Proof.
  intros Hs Hp Hw. unfold roundStep, roundResponse.
  destruct (framePaddleCollision g) as [pc na].
  destruct (frameWallCollision g) as [wc nb].
  simpl in Hp, Hw |- *. rewrite Hp, Hw, Hs.
  repeat split.
  - intros Hl Hr. rewrite Hl. simpl.
    unfold incr_score; simpl. rewrite (int_incr_small _ Hr). reflexivity.
  - intros Hl Hr. rewrite Hl. simpl.
    unfold incr_score; simpl. rewrite (int_incr_small _ Hr). reflexivity.
  - apply clampPositionY_speed.
  - apply clampPositionY_x.
Qed.

Lemma C3_side_wall_scores_witness :
  (game ball_at_left_wall).(gameState) = 1
  /\ collides (fst (framePaddleCollision (game ball_at_left_wall))) = false
  /\ collides (fst (frameWallCollision (game ball_at_left_wall))) = true
  /\ col_side (fst (frameWallCollision (game ball_at_left_wall))) = LEFT
  /\ (INT_MIN <= 0 < INT_MAX)
  /\ roundStep (game ball_at_left_wall)
     = (mkGame 2 paddle1 (mkPaddle (pt 700 250) (0 + 1))
          (clampPositionY ball_at_left_wall),
        [ScoreLine 0 (0 + 1)]).
Proof.
  assert (H1 : (game ball_at_left_wall).(gameState) = 1) by reflexivity.
  assert (H2 : collides (fst (framePaddleCollision (game ball_at_left_wall)))
               = false) by (vm_compute; reflexivity).
  assert (H3 : collides (fst (frameWallCollision (game ball_at_left_wall)))
               = true) by (vm_compute; reflexivity).
  assert (H4 : col_side (fst (frameWallCollision (game ball_at_left_wall)))
               = LEFT) by (vm_compute; reflexivity).
  assert (H5 : INT_MIN <= 0 < INT_MAX) by (unfold INT_MIN, INT_MAX; lia).
  repeat (split; [assumption|]).
  exact (proj1 (C3_side_wall_scores (game ball_at_left_wall) H1 H2 H3) H4 H5).
Defined.

Lemma mul_fm3 (u : float) : (u * fm3)%f32 = F32.opp (u * f3)%f32.
Proof.
  change fm3 with (SFopp f3). unfold F32.mul, F32.opp. apply SFmul_opp_r.
Qed.

(** After [clampSpeedY] the magnitude of [speed.y] is at most three times
    that of [speed.x], unless a component is a NaN. *)
Lemma clampSpeedY_bound (bl : Ball) :
  F32.is_nan (clampSpeedY bl).(ball_speed).(x) = false ->
  F32.is_nan (clampSpeedY bl).(ball_speed).(y) = false ->
  (F32.abs (clampSpeedY bl).(ball_speed).(y)
   <=? f3 * F32.abs (clampSpeedY bl).(ball_speed).(x))%f32 = true.
Proof.
  assert (Hx : (clampSpeedY bl).(ball_speed).(x) = bl.(ball_speed).(x)).
  { unfold clampSpeedY. destruct (_ >=? _)%f32; [reflexivity|].
    destruct (_ <=? _)%f32; reflexivity. }
  rewrite Hx. intros Nx.
  set (vx := bl.(ball_speed).(x)) in *.
  set (c := (vx * f3)%f32).
  assert (Nc : F32.is_nan c = false)
    by (apply (SFmul_finite_not_nan F32.prec F32.emax vx); exact Nx).
  assert (Hc : (f3 * F32.abs vx)%f32 = F32.abs c).
  { unfold c, F32.mul, F32.abs. rewrite SFmul_abs, SFmul_comm. reflexivity. }
  rewrite Hc.
  unfold clampSpeedY. fold vx. rewrite !mul_fm3. fold c.
  destruct (bl.(ball_speed).(y) >=? MAX c (F32.opp c))%f32 eqn:E1.
  - simpl. intros _.
    destruct (MAX_cases c (F32.opp c)) as [-> | ->];
      rewrite ?abs_opp; apply leb_refl; rewrite abs_not_nan; exact Nc.
  - destruct (bl.(ball_speed).(y) <=? MIN c (F32.opp c))%f32 eqn:E2.
    + simpl. intros _.
      destruct (MIN_cases c (F32.opp c)) as [-> | ->];
        rewrite ?abs_opp; apply leb_refl; rewrite abs_not_nan; exact Nc.
    + intros Ny.
      assert (NM : F32.is_nan (MAX c (F32.opp c)) = false)
        by (destruct (MAX_cases c (F32.opp c)) as [-> | ->];
            rewrite ?opp_not_nan; exact Nc).
      assert (Nm : F32.is_nan (MIN c (F32.opp c)) = false)
        by (destruct (MIN_cases c (F32.opp c)) as [-> | ->];
            rewrite ?opp_not_nan; exact Nc).
      apply abs_leb_of_clamped.
      * apply ltb_leb, leb_false_ltb; assumption.
      * apply ltb_leb, leb_false_ltb; assumption.
Qed.




(** * The wall resolver *)

Lemma testedVertex_leading (bl : Ball) : testedVertex bl = leadingVertex bl.
Proof.
  unfold testedVertex, leadingVertex, horizontalSide, verticalSide.
  destruct (bl.(ball_speed).(x) >=? f0)%f32,
           (bl.(ball_speed).(y) >=? f0)%f32; reflexivity.
Qed.

Lemma horizontalBound_facing (bl : Ball) : horizontalBound bl = facingBoundX bl.
Proof. reflexivity. Qed.

Lemma verticalBound_facing (bl : Ball) : verticalBound bl = facingBoundY bl.
Proof. reflexivity. Qed.

(** The two range tests of [getWallCollision] are the two crossings. *)
Lemma wall_test_x (bl : Ball) :
  let vertexPos := Ball_getVertex bl (testedVertex bl) in
  let nextX := (vertexPos.(x) + bl.(ball_speed).(x))%f32 in
  ((MIN vertexPos.(x) nextX <=? horizontalBound bl)
   && (MAX vertexPos.(x) nextX >=? horizontalBound bl))%f32
  = crosses_x bl (facingBoundX bl).
Proof.
  cbv zeta. rewrite min_max_between.
  - unfold crosses_x, sweptEnd, sweptStart. cbn [x y].
    rewrite testedVertex_leading. reflexivity.
  - intros H. unfold F32.add. rewrite SFadd_nan_l by exact H. reflexivity.
Qed.

Lemma wall_test_y (bl : Ball) :
  let vertexPos := Ball_getVertex bl (testedVertex bl) in
  let nextY := (vertexPos.(y) + bl.(ball_speed).(y))%f32 in
  ((MIN vertexPos.(y) nextY <=? verticalBound bl)
   && (MAX vertexPos.(y) nextY >=? verticalBound bl))%f32
  = crosses_y bl (facingBoundY bl).
Proof.
  cbv zeta. rewrite min_max_between.
  - unfold crosses_y, sweptEnd, sweptStart. cbn [x y].
    rewrite testedVertex_leading. reflexivity.
  - intros H. unfold F32.add. rewrite SFadd_nan_l by exact H. reflexivity.
Qed.

(** What [getWallCollision] returns when the slope is defined: one of the
    two candidates, each present exactly when its boundary is crossed. *)
Lemma wallSweep_cases (divide : float -> float -> float) (bl : Ball) :
  (bl.(ball_speed).(x) ==? f0)%f32 = false ->
  (wallSweep divide bl = no_collision
   /\ crosses_x bl (facingBoundX bl) = false
   /\ crosses_y bl (facingBoundY bl) = false)
  \/ (collides (wallSweep divide bl) = true
      /\ col_side (wallSweep divide bl) = horizontalSide bl
      /\ (wallSweep divide bl).(col_position).(x) = facingBoundX bl
      /\ crosses_x bl (facingBoundX bl) = true)
  \/ (collides (wallSweep divide bl) = true
      /\ col_side (wallSweep divide bl) = verticalSide bl
      /\ (wallSweep divide bl).(col_position).(y) = facingBoundY bl
      /\ crosses_y bl (facingBoundY bl) = true).
Proof.
  intros H. unfold wallSweep, wallCandidates. rewrite H.
  pose proof (wall_test_x bl) as Tx. pose proof (wall_test_y bl) as Ty.
  cbv zeta in Tx, Ty |- *. cbn [x y] in Tx, Ty |- *. rewrite Tx, Ty.
  destruct (crosses_x bl (facingBoundX bl)),
           (crosses_y bl (facingBoundY bl)); simpl.
  - destruct (_ <? _)%f32; [right; left | right; right]; repeat split.
  - right; left; repeat split.
  - right; right; repeat split.
  - left; repeat split.
Qed.

(** C1.  For every ball state with a non-zero [velocity.x],
    [getWallCollision] tests the leading vertex (the one chosen by the signs
    of the two velocity components) and reports a collision if and only if
    the segment swept by that vertex crosses an arena boundary within the
    frame's displacement.  The boundaries are the two in the direction of
    travel: [x = 800] when [velocity.x >= 0], else [x = 0]; [y = 600] when
    [velocity.y >= 0], else [y = 0].  The reported contact lies exactly on
    the crossed boundary: [contact.x] is 800 for RIGHT and 0 for LEFT,
    [contact.y] is 600 for BOTTOM and 0 for TOP. *)
Theorem C1_wall_collision_iff_facing_boundary (bl : Ball) (np : Point) :
  (bl.(ball_speed).(x) ==? f0)%f32 = false ->
  testedVertex bl = leadingVertex bl
  /\ (collides (fst (getWallCollision bl np)) = true
      <-> crosses_x bl (facingBoundX bl) = true
          \/ crosses_y bl (facingBoundY bl) = true)
  /\ (collides (fst (getWallCollision bl np)) = true ->
      (col_side (fst (getWallCollision bl np)) = RIGHT
       /\ (fst (getWallCollision bl np)).(col_position).(x) = F32.of_Z 800
       /\ crosses_x bl (F32.of_Z 800) = true)
      \/ (col_side (fst (getWallCollision bl np)) = LEFT
          /\ (fst (getWallCollision bl np)).(col_position).(x) = F32.of_Z 0
          /\ crosses_x bl (F32.of_Z 0) = true)
      \/ (col_side (fst (getWallCollision bl np)) = BOTTOM
          /\ (fst (getWallCollision bl np)).(col_position).(y) = F32.of_Z 600
          /\ crosses_y bl (F32.of_Z 600) = true)
      \/ (col_side (fst (getWallCollision bl np)) = TOP
          /\ (fst (getWallCollision bl np)).(col_position).(y) = F32.of_Z 0
          /\ crosses_y bl (F32.of_Z 0) = true)).
Proof.
  intros H. split; [apply testedVertex_leading|].
  unfold getWallCollision, getWallCollision_with. simpl.
  destruct (wallSweep_cases F32.div bl H)
    as [(E & Cx & Cy) | [(C & S & P & Cx) | (C & S & P & Cy)]].
  - rewrite E, Cx, Cy. simpl. split.
    + split; [discriminate | intros [?|?]; discriminate].
    + discriminate.
  - rewrite C, S, P. split.
    + split; auto.
    + intros _. revert Cx.
      unfold horizontalSide, facingBoundX.
      destruct (bl.(ball_speed).(x) >=? f0)%f32; intros Cx.
      * left. repeat split. exact Cx.
      * right; left. repeat split. exact Cx.
  - rewrite C, S, P. split.
    + split; auto.
    + intros _. revert Cy.
      unfold verticalSide, facingBoundY.
      destruct (bl.(ball_speed).(y) >=? f0)%f32; intros Cy.
      * right; right; left. repeat split. exact Cy.
      * right; right; right. repeat split. exact Cy.
Qed.

Lemma C1_wall_collision_iff_facing_boundary_witness :
  (ball_at_left_wall.(ball_speed).(x) ==? f0)%f32 = false
  /\ crosses_x ball_at_left_wall (facingBoundX ball_at_left_wall) = true
  /\ collides (fst (getWallCollision ball_at_left_wall origin)) = true.
Proof.
  assert (H : (ball_at_left_wall.(ball_speed).(x) ==? f0)%f32 = false)
    by reflexivity.
  assert (C : crosses_x ball_at_left_wall (facingBoundX ball_at_left_wall)
              = true) by (vm_compute; reflexivity).
  split; [exact H|]. split; [exact C|].
  exact (proj2 (proj1 (proj2
           (C1_wall_collision_iff_facing_boundary ball_at_left_wall origin H)))
         (or_introl C)).
Defined.

(** * Snap to contact *)

(** The back-computation for one colliding vertex. *)
Lemma snapToContact_vertex (col : Collision) (v : Z) (np : Point) :
  collides col = true -> 0 <= v <= 3 ->
  (coordinate_exact (x_offset v) col.(col_position).(x) ->
   (vertexAt (snapToContact col v np) v).(x) = col.(col_position).(x))
  /\ (coordinate_exact (y_offset v) col.(col_position).(y) ->
      (vertexAt (snapToContact col v np) v).(y) = col.(col_position).(y)).
Proof.
  intros C Hv. unfold snapToContact, vertexAt. rewrite C.
  assert (Cases : v = 0 \/ v = 1 \/ v = 2 \/ v = 3) by lia.
  destruct Cases as [-> | [-> | [-> | ->]]];
    cbn -[BALL_SIZE F32.add F32.sub]; split; unfold exact20;
    try (intros [E1 E2]; rewrite E1; exact E2);
    try (intros E; apply (SFsub_sub_diag F32.prec F32.emax); exact E).
Qed.

Lemma horizontalTests_cell (bl : Ball) (pd : Paddle) (slope : float)
    (side : Side) (vs : list Z) :
  forall cell,
    collides (fst (horizontalTests bl pd slope side vs cell)) = true ->
    exists v, snd (horizontalTests bl pd slope side vs cell) = Some v
              /\ In v vs.
Proof.
  induction vs as [|v rest IH]; intros cell; simpl.
  - discriminate.
  - destruct (negb _).
    + simpl. discriminate.
    + destruct (negb _).
      * intros H. destruct (IH _ H) as (w & E & I). eauto.
      * simpl. eauto.
Qed.

Lemma verticalTests_cell (divide : float -> float -> float) (bl : Ball)
    (pd : Paddle) (slope : float) (side : Side) (vs : list Z) :
  forall cell,
    collides (fst (verticalTests divide bl pd slope side vs cell)) = true ->
    exists v, snd (verticalTests divide bl pd slope side vs cell) = Some v
              /\ In v vs.
Proof.
  induction vs as [|v rest IH]; intros cell; simpl.
  - discriminate.
  - destruct (slope ==? f0)%f32; [simpl; discriminate|].
    destruct (negb _).
    + simpl. discriminate.
    + destruct (negb _).
      * intros H. destruct (IH _ H) as (w & E & I). eauto.
      * simpl. eauto.
Qed.

Lemma horizontalSetup_vertices (bl : Ball) (pd : Paddle) (h : AxisTest) :
  horizontalSetup bl pd = Some h ->
  forall v, In v h.(testVertices) -> 0 <= v <= 3.
Proof.
  unfold horizontalSetup.
  destruct (_ >=? _)%f32; destruct (_ <? _)%f32 || destruct (_ >? _)%f32;
    try discriminate; intros [= <-]; simpl; intros v Hv; lia.
Qed.

Lemma verticalSetup_vertices (bl : Ball) (pd : Paddle) (h : AxisTest) :
  verticalSetup bl pd = Some h ->
  forall v, In v h.(testVertices) -> 0 <= v <= 3.
Proof.
  unfold verticalSetup.
  destruct (_ >=? _)%f32; destruct (_ <? _)%f32 || destruct (_ >? _)%f32;
    try discriminate; intros [= <-]; simpl; intros v Hv; lia.
Qed.

(** The colliding vertex of a reported paddle collision is one of the four
    vertices. *)
Lemma paddleSweep_vertex (divide : float -> float -> float) (bl : Ball)
    (pd : Paddle) :
  collides (fst (paddleSweep divide bl pd)) = true ->
  0 <= snd (paddleSweep divide bl pd) <= 3.
Proof.
  unfold paddleSweep.
  destruct (_ ==? _)%f32; [simpl; discriminate|].
  destruct (horizontalSetup bl pd) as [h|] eqn:Eh; [|simpl; discriminate].
  destruct (verticalSetup bl pd) as [w|] eqn:Ew; [|simpl; discriminate].
  pose proof (horizontalTests_cell bl pd (divide (y (ball_speed bl))
                (x (ball_speed bl))) h.(paddleSide) h.(testVertices) None)
    as Th.
  pose proof (verticalTests_cell divide bl pd (divide (y (ball_speed bl))
                (x (ball_speed bl))) w.(paddleSide) w.(testVertices) None)
    as Tw.
  destruct (horizontalTests _ _ _ _ _ _) as [hc c0].
  destruct (verticalTests _ _ _ _ _ _ _) as [vc c1].
  simpl in Th, Tw. unfold closestPaddleCollision.
  destruct (collides hc) eqn:Ch; destruct (collides vc) eqn:Cv; simpl.
  - destruct (Th eq_refl) as (v0 & -> & I0).
    destruct (Tw eq_refl) as (v1 & -> & I1).
    destruct (_ <? _)%f32; simpl; intros _.
    + exact (horizontalSetup_vertices _ _ _ Eh _ I0).
    + exact (verticalSetup_vertices _ _ _ Ew _ I1).
  - destruct (Th eq_refl) as (v0 & -> & I0). intros _.
    exact (horizontalSetup_vertices _ _ _ Eh _ I0).
  - destruct (Tw eq_refl) as (v1 & -> & I1). intros _.
    exact (verticalSetup_vertices _ _ _ Ew _ I1).
  - discriminate.
Qed.

Lemma testedVertex_range (bl : Ball) : 0 <= testedVertex bl <= 3.
Proof.
  rewrite testedVertex_leading. unfold leadingVertex.
  destruct (_ >=? _)%f32; destruct (_ >=? _)%f32; lia.
Qed.

Lemma exact20_800 : exact20 (F32.of_Z 800).
Proof. split; reflexivity. Qed.

Lemma exact20_600 : exact20 (F32.of_Z 600).
Proof. split; reflexivity. Qed.

(** C8, as stated, fails: [ball_odd_y] hits the RIGHT wall at
    (800, 50 + 2^-18); the corrected position is (780, 30 + 2^-17), whose
    bottom-right vertex is (800, 50 + 2^-17): [50 + 2^-18 + 20] is not a
    binary32 number and rounds to 70. *)
Lemma C8_rounding_counterexample :
  ~ (forall (bl : Ball) (np : Point),
       collides (fst (getWallCollision bl np)) = true ->
       wallVertex bl np = col_position (fst (getWallCollision bl np))).
Proof.
  intros H.
  assert (C : collides (fst (getWallCollision ball_odd_y origin)) = true)
    by (vm_compute; reflexivity).
  specialize (H ball_odd_y origin C). vm_compute in H. discriminate H.
Qed.

(** C8, amended.  For every collision reported by either resolver, put the
    ball at the corrected position written to the out-parameter; its
    colliding vertex then has the contact point's coordinate

    - in every coordinate in which the vertex has no offset from the top-left
      corner, when the contact coordinate is a finite number;
    - in every coordinate in which it has the offset [BALL_SIZE], when adding
      [BALL_SIZE] to the contact coordinate and taking it away again is exact
      in binary32;
    - for a wall collision, always in the coordinate of the boundary that
      was hit ([x] for LEFT and RIGHT, [y] for TOP and BOTTOM).

    The colliding vertex of a paddle collision is one of the vertices 0..3. *)
Theorem C8_snap_places_vertex (bl : Ball) (pd : Paddle) (np : Point) :
  (collides (fst (getWallCollision bl np)) = true ->
   (coordinate_exact (x_offset (testedVertex bl))
      (fst (getWallCollision bl np)).(col_position).(x) ->
    (wallVertex bl np).(x) = (fst (getWallCollision bl np)).(col_position).(x))
   /\ (coordinate_exact (y_offset (testedVertex bl))
         (fst (getWallCollision bl np)).(col_position).(y) ->
       (wallVertex bl np).(y)
       = (fst (getWallCollision bl np)).(col_position).(y))
   /\ (col_side (fst (getWallCollision bl np)) = LEFT
       \/ col_side (fst (getWallCollision bl np)) = RIGHT ->
       (wallVertex bl np).(x)
       = (fst (getWallCollision bl np)).(col_position).(x))
   /\ (col_side (fst (getWallCollision bl np)) = TOP
       \/ col_side (fst (getWallCollision bl np)) = BOTTOM ->
       (wallVertex bl np).(y)
       = (fst (getWallCollision bl np)).(col_position).(y)))
  /\ (collides (fst (getPaddleCollision bl pd np)) = true ->
      0 <= snd (paddleSweep F32.div bl pd) <= 3
      /\ (coordinate_exact (x_offset (snd (paddleSweep F32.div bl pd)))
            (fst (getPaddleCollision bl pd np)).(col_position).(x) ->
          (paddleVertex bl pd np).(x)
          = (fst (getPaddleCollision bl pd np)).(col_position).(x))
      /\ (coordinate_exact (y_offset (snd (paddleSweep F32.div bl pd)))
            (fst (getPaddleCollision bl pd np)).(col_position).(y) ->
          (paddleVertex bl pd np).(y)
          = (fst (getPaddleCollision bl pd np)).(col_position).(y))).
Proof.
  split.
  - unfold wallVertex, getWallCollision, getWallCollision_with. simpl.
    intros C.
    destruct (snapToContact_vertex (wallSweep F32.div bl) (testedVertex bl) np
                C (testedVertex_range bl)) as [Sx Sy].
    split; [exact Sx|]. split; [exact Sy|].
    assert (H : (bl.(ball_speed).(x) ==? f0)%f32 = false).
    { destruct (bl.(ball_speed).(x) ==? f0)%f32 eqn:E; [|reflexivity].
      unfold wallSweep in C. rewrite E in C. discriminate C. }
    destruct (wallSweep_cases F32.div bl H)
      as [(E & _) | [(_ & S & P & _) | (_ & S & P & _)]].
    + rewrite E in C. discriminate C.
    + split.
      * intros _. apply Sx. rewrite P, testedVertex_leading.
        unfold leadingVertex, facingBoundX.
        destruct (bl.(ball_speed).(x) >=? f0)%f32;
          destruct (bl.(ball_speed).(y) >=? f0)%f32;
          first [exact exact20_800 | reflexivity].
      * rewrite S. unfold horizontalSide.
        destruct (bl.(ball_speed).(x) >=? f0)%f32; intros [?|?]; discriminate.
    + split.
      * rewrite S. unfold verticalSide.
        destruct (bl.(ball_speed).(y) >=? f0)%f32; intros [?|?]; discriminate.
      * intros _. apply Sy. rewrite P, testedVertex_leading.
        unfold leadingVertex, facingBoundY.
        destruct (bl.(ball_speed).(x) >=? f0)%f32;
          destruct (bl.(ball_speed).(y) >=? f0)%f32;
          first [exact exact20_600 | reflexivity].
  - unfold paddleVertex, getPaddleCollision, getPaddleCollision_with.
    pose proof (paddleSweep_vertex F32.div bl pd) as V.
    destruct (paddleSweep F32.div bl pd) as [col v]. simpl in V |- *.
    intros C. specialize (V C). split; [exact V|].
    exact (snapToContact_vertex col v np C V).
Qed.

Lemma C8_snap_places_vertex_witness :
  collides (fst (getWallCollision ball_at_right_wall origin)) = true
  /\ coordinate_exact (x_offset (testedVertex ball_at_right_wall))
       (fst (getWallCollision ball_at_right_wall origin)).(col_position).(x)
  /\ (wallVertex ball_at_right_wall origin).(x)
     = (fst (getWallCollision ball_at_right_wall origin)).(col_position).(x).
Proof.
  assert (C : collides (fst (getWallCollision ball_at_right_wall origin))
              = true) by (vm_compute; reflexivity).
  assert (E : coordinate_exact (x_offset (testedVertex ball_at_right_wall))
                (fst (getWallCollision ball_at_right_wall origin))
                .(col_position).(x))
    by (vm_compute; split; reflexivity).
  split; [exact C|]. split; [exact E|].
  exact (proj1 (proj1 (C8_snap_places_vertex ball_at_right_wall paddle2 origin)
                  C) E).
Defined.

(** * Defects *)

(** The response to a TOP or BOTTOM wall collision inverts [speed.y] and
    nothing else: the corrected position [ballNextB] is not used. *)
Lemma wall_bounce_keeps_position (g : Game) :
  collides (fst (framePaddleCollision g)) = false ->
  collides (fst (frameWallCollision g)) = true ->
  col_side (fst (frameWallCollision g)) = TOP
  \/ col_side (fst (frameWallCollision g)) = BOTTOM ->
  roundResponse g
  = (mkGame g.(gameState) g.(p1) g.(p2)
       (mkBall g.(ball).(ball_position)
          (mkPoint g.(ball).(ball_speed).(x)
                   (g.(ball).(ball_speed).(y) * fm1)%f32)),
     []).
Proof.
  intros Hp Hw Hs. unfold roundResponse.
  destruct (framePaddleCollision g) as [pc na].
  destruct (frameWallCollision g) as [wc nb].
  simpl in Hp, Hw, Hs |- *. rewrite Hp, Hw.
  destruct Hs as [-> | ->]; reflexivity.
Qed.

(** C2.  The frame of [ball_at_top_wall]: no paddle collision, a wall
    collision with side TOP and contact (422, 0), the corrected position
    (402, 0) in [ballNextB]; the frame inverts [speed.y], prints nothing and
    changes no score, and leaves the ball at (400, 1), not at (402, 0) nor
    at [y = 0.1]. *)
Theorem C2_top_wall_frame :
  collides (fst (framePaddleCollision (game ball_at_top_wall))) = false
  /\ frameWallCollision (game ball_at_top_wall)
     = (mkCollision true (pt 422 0) TOP, pt 402 0)
  /\ roundStep (game ball_at_top_wall)
     = (game (mkBall (pt 400 1) (pt 4 2)), []).
Proof. repeat split; vm_compute; reflexivity. Qed.

(** C4.  [Point_getDistance] does not look at the y-coordinates: it is
    [sqrt(dx^2 + 2)].  For (0,0) and (3,4) it returns the binary32 value of
    [sqrt 11] (13910933 * 2^-22, about 3.3166) where the Euclidean distance
    is 5.  And the resolver can return the farther contact:
    for [ball_near_corner] both candidates are found, the horizontal one
    (side RIGHT) is the closer in Euclidean distance, both get the distance
    [sqrt 2] from [Point_getDistance], and the vertical one (side BOTTOM) is
    returned. *)
Theorem C4_distance_ignores_dy :
  (forall p q : Point,
     Point_getDistance p q
     = Point_getDistance (mkPoint p.(x) f0) (mkPoint q.(x) f0))
  /\ Point_getDistance (pt 0 0) (pt 3 4) = F32.of_dyadic 13910933 (-22)
  /\ euclideanDistance (pt 0 0) (pt 3 4) = F32.of_Z 5
  /\ (ball_near_corner.(ball_speed).(y) / ball_near_corner.(ball_speed).(x))%f32
     = F32.of_Z 1
  /\ wallCandidates F32.div ball_near_corner (F32.of_Z 1)
     = (mkCollision true
          (mkPoint (F32.of_Z 800) (F32.of_dyadic 9830399 (-14))) RIGHT,
        mkCollision true
          (mkPoint (F32.of_dyadic 13107201 (-14)) (F32.of_Z 600)) BOTTOM)
  /\ (euclideanDistance (sweptStart ball_near_corner)
        (mkPoint (F32.of_Z 800) (F32.of_dyadic 9830399 (-14)))
      <? euclideanDistance (sweptStart ball_near_corner)
           (mkPoint (F32.of_dyadic 13107201 (-14)) (F32.of_Z 600)))%f32 = true
  /\ Point_getDistance (sweptStart ball_near_corner)
       (mkPoint (F32.of_Z 800) (F32.of_dyadic 9830399 (-14)))
     = Point_getDistance (sweptStart ball_near_corner)
         (mkPoint (F32.of_dyadic 13107201 (-14)) (F32.of_Z 600))
  /\ fst (getWallCollision ball_near_corner origin)
     = mkCollision true
         (mkPoint (F32.of_dyadic 13107201 (-14)) (F32.of_Z 600)) BOTTOM.
Proof.
  split; [intros p q; reflexivity|].
  repeat split; vm_compute; reflexivity.
Qed.

(** * Further properties of the geometry queries *)

(** X1.  For each of the four sides, [Ball_getSide] and [Paddle_getSide]
    return the segment from the vertex with the number of the side to the
    next vertex clockwise, and both ends of the segment lie on the bound
    that [Ball_getBound] and [Paddle_getBound] give for that side (a [y] for
    TOP and BOTTOM, an [x] for RIGHT and LEFT). *)
Theorem X1_sides_on_bounds (bl : Ball) (pd : Paddle) (s : Side) :
  0 <= s <= 3 ->
  Ball_getSide bl s
  = mkLine (Ball_getVertex bl s) (Ball_getVertex bl ((s + 1) mod 4))
  /\ Paddle_getSide pd s
     = mkLine (Paddle_getVertex pd s) (Paddle_getVertex pd ((s + 1) mod 4))
  /\ (if Z.even s
      then (Ball_getSide bl s).(a).(y) = Ball_getBound bl s
           /\ (Ball_getSide bl s).(b).(y) = Ball_getBound bl s
           /\ (Paddle_getSide pd s).(a).(y) = Paddle_getBound pd s
           /\ (Paddle_getSide pd s).(b).(y) = Paddle_getBound pd s
      else (Ball_getSide bl s).(a).(x) = Ball_getBound bl s
           /\ (Ball_getSide bl s).(b).(x) = Ball_getBound bl s
           /\ (Paddle_getSide pd s).(a).(x) = Paddle_getBound pd s
           /\ (Paddle_getSide pd s).(b).(x) = Paddle_getBound pd s).
Proof.
  intros H.
  assert (Cases : s = 0 \/ s = 1 \/ s = 2 \/ s = 3) by lia.
  destruct Cases as [-> | [-> | [-> | ->]]]; repeat split; reflexivity.
Qed.

Lemma X1_sides_on_bounds_witness :
  (0 <= RIGHT <= 3)
  /\ Ball_getSide ball_at_top_wall RIGHT = mkLine (pt 420 1) (pt 420 21)
  /\ Ball_getBound ball_at_top_wall RIGHT = F32.of_Z 420.
Proof.
  assert (H : 0 <= RIGHT <= 3) by lia.
  split; [exact H|].
  pose proof (X1_sides_on_bounds ball_at_top_wall paddle1 RIGHT H)
    as (E & _ & _ & B & _).
  split.
  - rewrite E. vm_compute. reflexivity.
  - rewrite <- B. rewrite E. vm_compute. reflexivity.
Defined.

(** * Further properties of the resolvers *)

Lemma horizontalTests_result (bl : Ball) (pd : Paddle) (slope : float)
    (side : Side) (vs : list Z) :
  forall cell,
    fst (horizontalTests bl pd slope side vs cell) = no_collision
    \/ (collides (fst (horizontalTests bl pd slope side vs cell)) = true
        /\ col_side (fst (horizontalTests bl pd slope side vs cell)) = side
        /\ (fst (horizontalTests bl pd slope side vs cell)).(col_position).(x)
           = Paddle_getBound pd side
        /\ (Paddle_getBound pd TOP
            <=? (fst (horizontalTests bl pd slope side vs cell))
                .(col_position).(y))%f32 = true
        /\ ((fst (horizontalTests bl pd slope side vs cell)).(col_position).(y)
            <=? Paddle_getBound pd BOTTOM)%f32 = true).
Proof.
  induction vs as [|v rest IH]; intros cell; simpl.
  - left; reflexivity.
  - destruct (negb _); [left; reflexivity|].
    destruct (negb _) eqn:E; [apply IH|].
    right. apply negb_false_iff, andb_true_iff in E.
    simpl. repeat split; apply E.
Qed.

Lemma verticalTests_result (divide : float -> float -> float) (bl : Ball)
    (pd : Paddle) (slope : float) (side : Side) (vs : list Z) :
  forall cell,
    fst (verticalTests divide bl pd slope side vs cell) = no_collision
    \/ ((slope ==? f0)%f32 = false
        /\ collides (fst (verticalTests divide bl pd slope side vs cell)) = true
        /\ col_side (fst (verticalTests divide bl pd slope side vs cell)) = side
        /\ (fst (verticalTests divide bl pd slope side vs cell))
           .(col_position).(y) = Paddle_getBound pd side
        /\ (Paddle_getBound pd LEFT
            <=? (fst (verticalTests divide bl pd slope side vs cell))
                .(col_position).(x))%f32 = true
        /\ ((fst (verticalTests divide bl pd slope side vs cell))
            .(col_position).(x) <=? Paddle_getBound pd RIGHT)%f32 = true).
Proof.
  induction vs as [|v rest IH]; intros cell; simpl.
  - left; reflexivity.
  - destruct (slope ==? f0)%f32 eqn:Z; [left; reflexivity|].
    destruct (negb _); [left; reflexivity|].
    destruct (negb _) eqn:E; [apply IH|].
    right. apply negb_false_iff, andb_true_iff in E.
    simpl. repeat split; apply E.
Qed.

(** What [getPaddleCollision] returns: nothing, or the candidate of one of
    the two loops. *)
Lemma paddleSweep_cases (divide : float -> float -> float) (bl : Ball)
    (pd : Paddle) :
  paddleSweep divide bl pd = (no_collision, 0)
  \/ (exists h cell,
        horizontalSetup bl pd = Some h
        /\ (bl.(ball_speed).(x) ==? f0)%f32 = false
        /\ fst (paddleSweep divide bl pd)
           = fst (horizontalTests bl pd
                    (divide bl.(ball_speed).(y) bl.(ball_speed).(x))
                    h.(paddleSide) h.(testVertices) cell)
        /\ collides (fst (paddleSweep divide bl pd)) = true)
  \/ (exists v cell,
        verticalSetup bl pd = Some v
        /\ (bl.(ball_speed).(x) ==? f0)%f32 = false
        /\ fst (paddleSweep divide bl pd)
           = fst (verticalTests divide bl pd
                    (divide bl.(ball_speed).(y) bl.(ball_speed).(x))
                    v.(paddleSide) v.(testVertices) cell)
        /\ collides (fst (paddleSweep divide bl pd)) = true).
Proof.
  unfold paddleSweep.
  destruct (_ ==? _)%f32 eqn:Z; [left; reflexivity|].
  destruct (horizontalSetup bl pd) as [h|] eqn:Eh; [|left; reflexivity].
  destruct (verticalSetup bl pd) as [w|] eqn:Ew; [|left; reflexivity].
  set (slope := divide _ _).
  pose proof (horizontalTests_result bl pd slope h.(paddleSide)
                h.(testVertices) None) as Rh.
  pose proof (verticalTests_result divide bl pd slope w.(paddleSide)
                w.(testVertices) None) as Rw.
  destruct (horizontalTests _ _ _ _ _ _) as [hc c0] eqn:Th.
  destruct (verticalTests _ _ _ _ _ _ _) as [vc c1] eqn:Tw.
  simpl in Rh, Rw. unfold closestPaddleCollision.
  assert (Fh : hc = fst (horizontalTests bl pd slope h.(paddleSide)
                           h.(testVertices) None)) by (rewrite Th; reflexivity).
  assert (Fw : vc = fst (verticalTests divide bl pd slope w.(paddleSide)
                           w.(testVertices) None)) by (rewrite Tw; reflexivity).
  destruct (collides hc) eqn:Ch; destruct (collides vc) eqn:Cv; simpl.
  - destruct (_ <? _)%f32; simpl.
    + right; left. exists h, None. auto.
    + right; right. exists w, None. auto.
  - right; left. exists h, None. auto.
  - right; right. exists w, None. auto.
  - left. reflexivity.
Qed.

(** X2.  A resolver that reports no collision returns the zeroed
    [Collision] ([collides = 0], position (0,0), side TOP) and does not write
    to [*newPosition]. *)
Theorem X2_no_collision_untouched (bl : Ball) (pd : Paddle) (np : Point) :
  (collides (fst (getPaddleCollision bl pd np)) = false ->
   getPaddleCollision bl pd np = (no_collision, np))
  /\ (collides (fst (getWallCollision bl np)) = false ->
      getWallCollision bl np = (no_collision, np)).
Proof.
  split.
  - unfold getPaddleCollision, getPaddleCollision_with.
    destruct (paddleSweep_cases F32.div bl pd)
      as [E | [(h & c & _ & _ & _ & C) | (v & c & _ & _ & _ & C)]].
    + rewrite E. reflexivity.
    + destruct (paddleSweep F32.div bl pd) as [r v]. simpl in *. congruence.
    + destruct (paddleSweep F32.div bl pd) as [r w]. simpl in *. congruence.
  - unfold getWallCollision, getWallCollision_with. simpl.
    destruct (bl.(ball_speed).(x) ==? f0)%f32 eqn:Z.
    + unfold wallSweep. rewrite Z. reflexivity.
    + destruct (wallSweep_cases F32.div bl Z)
        as [(E & _) | [(C & _) | (C & _)]].
      * rewrite E. reflexivity.
      * congruence.
      * congruence.
Qed.

Lemma X2_no_collision_untouched_witness :
  collides (fst (getPaddleCollision ball_at_top_wall paddle2 (pt 7 9))) = false
  /\ getPaddleCollision ball_at_top_wall paddle2 (pt 7 9)
     = (no_collision, pt 7 9).
Proof.
  assert (H : collides (fst (getPaddleCollision ball_at_top_wall paddle2
                               (pt 7 9))) = false)
    by (vm_compute; reflexivity).
  split; [exact H|].
  exact (proj1 (X2_no_collision_untouched ball_at_top_wall paddle2 (pt 7 9)) H).
Defined.

Lemma horizontalSetup_cases (bl : Ball) (pd : Paddle) (h : AxisTest) :
  horizontalSetup bl pd = Some h ->
  ((bl.(ball_speed).(x) >=? f0)%f32 = true /\ h.(paddleSide) = LEFT)
  \/ ((bl.(ball_speed).(x) >=? f0)%f32 = false /\ h.(paddleSide) = RIGHT).
Proof.
  unfold horizontalSetup.
  destruct (_ >=? _)%f32; destruct (_ <? _)%f32 || destruct (_ >? _)%f32;
    try discriminate; intros [= <-]; auto.
Qed.

Lemma verticalSetup_cases (bl : Ball) (pd : Paddle) (h : AxisTest) :
  verticalSetup bl pd = Some h ->
  ((bl.(ball_speed).(y) >=? f0)%f32 = true /\ h.(paddleSide) = TOP)
  \/ ((bl.(ball_speed).(y) >=? f0)%f32 = false /\ h.(paddleSide) = BOTTOM).
Proof.
  unfold verticalSetup.
  destruct (_ >=? _)%f32; destruct (_ <? _)%f32 || destruct (_ >? _)%f32;
    try discriminate; intros [= <-]; auto.
Qed.

(** X3.  A collision reported by [getPaddleCollision] lies on the paddle
    edge that faces the ball's direction of travel: side LEFT (only when
    [speed.x >= 0]) or RIGHT (only otherwise) with [contact.x] the paddle's
    bound on that side and [contact.y] within the paddle's TOP and BOTTOM
    bounds; or side TOP (only when [speed.y >= 0]) or BOTTOM (only
    otherwise) with [contact.y] the paddle's bound on that side and
    [contact.x] within the paddle's LEFT and RIGHT bounds. *)
Theorem X3_paddle_contact_on_edge (bl : Ball) (pd : Paddle) (np : Point) :
  collides (fst (getPaddleCollision bl pd np)) = true ->
  ((col_side (fst (getPaddleCollision bl pd np)) = LEFT
    /\ (bl.(ball_speed).(x) >=? f0)%f32 = true
    \/ col_side (fst (getPaddleCollision bl pd np)) = RIGHT
       /\ (bl.(ball_speed).(x) >=? f0)%f32 = false)
   /\ (fst (getPaddleCollision bl pd np)).(col_position).(x)
      = Paddle_getBound pd (col_side (fst (getPaddleCollision bl pd np)))
   /\ (Paddle_getBound pd TOP
       <=? (fst (getPaddleCollision bl pd np)).(col_position).(y))%f32 = true
   /\ ((fst (getPaddleCollision bl pd np)).(col_position).(y)
       <=? Paddle_getBound pd BOTTOM)%f32 = true)
  \/ ((col_side (fst (getPaddleCollision bl pd np)) = TOP
       /\ (bl.(ball_speed).(y) >=? f0)%f32 = true
       \/ col_side (fst (getPaddleCollision bl pd np)) = BOTTOM
          /\ (bl.(ball_speed).(y) >=? f0)%f32 = false)
      /\ (fst (getPaddleCollision bl pd np)).(col_position).(y)
         = Paddle_getBound pd (col_side (fst (getPaddleCollision bl pd np)))
      /\ (Paddle_getBound pd LEFT
          <=? (fst (getPaddleCollision bl pd np)).(col_position).(x))%f32
         = true
      /\ ((fst (getPaddleCollision bl pd np)).(col_position).(x)
          <=? Paddle_getBound pd RIGHT)%f32 = true).
Proof.
  unfold getPaddleCollision, getPaddleCollision_with.
  destruct (paddleSweep_cases F32.div bl pd)
    as [E | [(h & c & Eh & _ & F & _) | (v & c & Ev & _ & F & _)]].
  - rewrite E. simpl. discriminate.
  - destruct (paddleSweep F32.div bl pd) as [r w]. simpl in F |- *.
    intros C. left.
    destruct (horizontalTests_result bl pd
                (F32.div bl.(ball_speed).(y) bl.(ball_speed).(x))
                h.(paddleSide) h.(testVertices) c)
      as [N | (_ & S & P & T & B)].
    + rewrite <- F in N. rewrite N in C. discriminate C.
    + rewrite <- F in S, P, T, B. rewrite S.
      split; [|auto].
      destruct (horizontalSetup_cases _ _ _ Eh) as [[V ->] | [V ->]]; auto.
  - destruct (paddleSweep F32.div bl pd) as [r w]. simpl in F |- *.
    intros C. right.
    destruct (verticalTests_result F32.div bl pd
                (F32.div bl.(ball_speed).(y) bl.(ball_speed).(x))
                v.(paddleSide) v.(testVertices) c)
      as [N | (_ & _ & S & P & T & B)].
    + rewrite <- F in N. rewrite N in C. discriminate C.
    + rewrite <- F in S, P, T, B. rewrite S.
      split; [|auto].
      destruct (verticalSetup_cases _ _ _ Ev) as [[V ->] | [V ->]]; auto.
Qed.

Lemma X3_paddle_contact_on_edge_witness :
  collides (fst (getPaddleCollision ball_hits_paddle paddle2 origin)) = true
  /\ col_side (fst (getPaddleCollision ball_hits_paddle paddle2 origin)) = LEFT
  /\ (fst (getPaddleCollision ball_hits_paddle paddle2 origin))
     .(col_position).(x) = F32.of_Z 700.
Proof.
  assert (H : collides (fst (getPaddleCollision ball_hits_paddle paddle2
                               origin)) = true) by (vm_compute; reflexivity).
  split; [exact H|].
  destruct (X3_paddle_contact_on_edge ball_hits_paddle paddle2 origin H)
    as [(_ & P & _) | (S & _)].
  - split; [vm_compute; reflexivity|].
    rewrite P. vm_compute. reflexivity.
  - exfalso. destruct S as [[S _] | [S _]]; vm_compute in S; discriminate S.
Defined.

Lemma verticalTests_nan_slope (bl : Ball) (pd : Paddle) (slope : float)
    (side : Side) (vs : list Z) :
  F32.is_nan slope = true ->
  forall cell, fst (verticalTests F32.div bl pd slope side vs cell)
               = no_collision.
Proof.
  intros N. induction vs as [|v rest IH]; intros cell; simpl.
  - reflexivity.
  - destruct (slope ==? f0)%f32; [reflexivity|].
    destruct (negb _); [reflexivity|].
    assert (D : forall u, F32.div u slope = S754_nan).
    { intros u. destruct slope; try discriminate. destruct u; reflexivity. }
    rewrite D. unfold F32.geb.
    rewrite (leb_nan_r (x (paddle_position pd)) S754_nan eq_refl).
    simpl. apply IH.
Qed.

(** The slope of a path without vertical velocity is zero, or a NaN when
    [speed.x] is a NaN. *)
Lemma slope_of_zero_dy (vx vy : float) :
  (vy ==? f0)%f32 = true -> (vx ==? f0)%f32 = false ->
  (F32.div vy vx ==? f0)%f32 = true \/ F32.is_nan (F32.div vy vx) = true.
Proof.
  intros Hy Hx.
  destruct vy as [s|s| |s m e]; try discriminate Hy;
    try (destruct s; discriminate Hy).
  destruct vx as [s'|s'| |s' m' e']; try discriminate Hx; auto.
Qed.

(** X4.  A ball without vertical velocity ([speed.y] is zero) never gets a
    TOP or BOTTOM collision from [getPaddleCollision]: a reported collision
    is on the paddle's LEFT or RIGHT side. *)
Theorem X4_horizontal_path_hits_side (bl : Ball) (pd : Paddle) (np : Point) :
  (bl.(ball_speed).(y) ==? f0)%f32 = true ->
  collides (fst (getPaddleCollision bl pd np)) = true ->
  col_side (fst (getPaddleCollision bl pd np)) = LEFT
  \/ col_side (fst (getPaddleCollision bl pd np)) = RIGHT.
Proof.
  intros Zy.
  unfold getPaddleCollision, getPaddleCollision_with.
  destruct (paddleSweep_cases F32.div bl pd)
    as [E | [(h & c & Eh & _ & F & _) | (v & c & Ev & Zx & F & _)]].
  - rewrite E. simpl. discriminate.
  - destruct (paddleSweep F32.div bl pd) as [r w]. simpl in F |- *.
    intros C.
    destruct (horizontalTests_result bl pd
                (F32.div bl.(ball_speed).(y) bl.(ball_speed).(x))
                h.(paddleSide) h.(testVertices) c)
      as [N | (_ & S & _)].
    + rewrite <- F in N. rewrite N in C. discriminate C.
    + rewrite <- F in S. rewrite S.
      destruct (horizontalSetup_cases _ _ _ Eh) as [[_ ->] | [_ ->]]; auto.
  - destruct (paddleSweep F32.div bl pd) as [r w]. simpl in F |- *.
    intros C. exfalso.
    destruct (slope_of_zero_dy _ _ Zy Zx) as [Z | N].
    + destruct (verticalTests_result F32.div bl pd
                  (F32.div bl.(ball_speed).(y) bl.(ball_speed).(x))
                  v.(paddleSide) v.(testVertices) c)
        as [E | (Z' & _)].
      * rewrite <- F in E. rewrite E in C. discriminate C.
      * congruence.
    + rewrite (verticalTests_nan_slope bl pd _ v.(paddleSide)
                 v.(testVertices) N c) in F.
      rewrite F in C. discriminate C.
Qed.

Lemma X4_horizontal_path_hits_side_witness :
  ((mkBall (pt 677 290) (pt 5 0)).(ball_speed).(y) ==? f0)%f32 = true
  /\ collides (fst (getPaddleCollision (mkBall (pt 677 290) (pt 5 0))
                      paddle2 origin)) = true
  /\ (col_side (fst (getPaddleCollision (mkBall (pt 677 290) (pt 5 0))
                       paddle2 origin)) = LEFT
      \/ col_side (fst (getPaddleCollision (mkBall (pt 677 290) (pt 5 0))
                          paddle2 origin)) = RIGHT).
Proof.
  assert (H1 : ((mkBall (pt 677 290) (pt 5 0)).(ball_speed).(y) ==? f0)%f32
               = true) by reflexivity.
  assert (H2 : collides (fst (getPaddleCollision (mkBall (pt 677 290) (pt 5 0))
                                paddle2 origin)) = true)
    by (vm_compute; reflexivity).
  split; [exact H1|]. split; [exact H2|].
  exact (X4_horizontal_path_hits_side (mkBall (pt 677 290) (pt 5 0)) paddle2
           origin H1 H2).
Defined.

(** X5.  The corrected position that [getWallCollision] writes puts the
    ball flush against the wall that was hit: [x = 780] for RIGHT, [x = 0]
    for LEFT, [y = 580] for BOTTOM, [y = 0] for TOP. *)
Theorem X5_wall_snap_flush (bl : Ball) (np : Point) :
  collides (fst (getWallCollision bl np)) = true ->
  (col_side (fst (getWallCollision bl np)) = RIGHT ->
   (snd (getWallCollision bl np)).(x) = F32.of_Z 780)
  /\ (col_side (fst (getWallCollision bl np)) = LEFT ->
      (snd (getWallCollision bl np)).(x) = F32.of_Z 0)
  /\ (col_side (fst (getWallCollision bl np)) = BOTTOM ->
      (snd (getWallCollision bl np)).(y) = F32.of_Z 580)
  /\ (col_side (fst (getWallCollision bl np)) = TOP ->
      (snd (getWallCollision bl np)).(y) = F32.of_Z 0).
Proof.
  unfold getWallCollision, getWallCollision_with. simpl. intros C.
  assert (H : (bl.(ball_speed).(x) ==? f0)%f32 = false).
  { destruct (bl.(ball_speed).(x) ==? f0)%f32 eqn:E; [|reflexivity].
    unfold wallSweep in C. rewrite E in C. discriminate C. }
  unfold snapToContact. rewrite C. rewrite testedVertex_leading.
  destruct (wallSweep_cases F32.div bl H)
    as [(E & _) | [(_ & S & P & _) | (_ & S & P & _)]].
  - rewrite E in C. discriminate C.
  - rewrite S. revert P.
    unfold horizontalSide, leadingVertex, facingBoundX.
    destruct (bl.(ball_speed).(x) >=? f0)%f32;
      destruct (bl.(ball_speed).(y) >=? f0)%f32;
      intros P; repeat split; intros; try discriminate;
      cbn -[F32.add F32.sub wallSweep]; rewrite P; reflexivity.
  - rewrite S. revert P.
    unfold verticalSide, leadingVertex, facingBoundY.
    destruct (bl.(ball_speed).(x) >=? f0)%f32;
      destruct (bl.(ball_speed).(y) >=? f0)%f32;
      intros P; repeat split; intros; try discriminate;
      cbn -[F32.add F32.sub wallSweep]; rewrite P; reflexivity.
Qed.

Lemma X5_wall_snap_flush_witness :
  collides (fst (getWallCollision ball_at_right_wall origin)) = true
  /\ col_side (fst (getWallCollision ball_at_right_wall origin)) = RIGHT
  /\ (snd (getWallCollision ball_at_right_wall origin)).(x) = F32.of_Z 780.
Proof.
  assert (C : collides (fst (getWallCollision ball_at_right_wall origin))
              = true) by (vm_compute; reflexivity).
  assert (S : col_side (fst (getWallCollision ball_at_right_wall origin))
              = RIGHT) by (vm_compute; reflexivity).
  split; [exact C|]. split; [exact S|].
  exact (proj1 (X5_wall_snap_flush ball_at_right_wall origin C) S).
Defined.

(** * Further properties of [Point_getDistance] *)

Lemma binary_round_opp (prec emax : Z) (s : bool) (m : positive) (e : Z) :
  binary_round prec emax (negb s) m e = SFopp (binary_round prec emax s m e).
Proof.
  unfold binary_round. destruct (shl_align _ _ _) as [mz ez].
  apply binary_round_aux_opp.
Qed.

Lemma SFopp_involutive (u : float) : SFopp (SFopp u) = u.
Proof. destruct u; simpl; rewrite ?negb_involutive; reflexivity. Qed.

Lemma binary_normalize_opp (prec emax : Z) (m e : Z) :
  m <> 0 ->
  binary_normalize prec emax (- m) e false
  = SFopp (binary_normalize prec emax m e false).
Proof.
  destruct m as [|q|q]; intros H; [contradiction| |]; simpl.
  - apply (binary_round_opp prec emax false).
  - pose proof (binary_round_opp prec emax false q e) as H1.
    simpl in H1. rewrite H1, SFopp_involutive. reflexivity.
Qed.

(** Swapping the operands of a subtraction negates the result, except that
    a zero difference of equal operands is [+0] either way. *)
Lemma SFsub_swap (prec emax : Z) (u v : float) :
  SFsub prec emax v u = SFopp (SFsub prec emax u v)
  \/ (SFsub prec emax v u = S754_zero false
      /\ SFsub prec emax u v = S754_zero false).
Proof.
  destruct u as [s|s| |s m e], v as [s'|s'| |s' m' e']; simpl;
    try (left; reflexivity);
    try (destruct s, s'; simpl; auto; fail);
    try (left; rewrite negb_involutive; reflexivity).
  rewrite (Z.min_comm e' e).
  set (A := cond_Zopp s (Z.pos (fst (shl_align m e (Z.min e e'))))).
  set (B := cond_Zopp s' (Z.pos (fst (shl_align m' e' (Z.min e e'))))).
  destruct (Z.eq_dec (A - B) 0) as [E | E].
  - right. replace (B - A) with 0 by lia. rewrite E. auto.
  - left. replace (B - A) with (- (A - B)) by lia.
    apply binary_normalize_opp. exact E.
Qed.

Lemma of_float_opp (d : float) : F64.of_float (SFopp d) = SFopp (F64.of_float d).
Proof.
  destruct d; simpl; try reflexivity. apply binary_round_opp.
Qed.

Lemma SFmul_opp_opp (prec emax : Z) (u : float) :
  SFmul prec emax (SFopp u) (SFopp u) = SFmul prec emax u u.
Proof.
  rewrite SFmul_opp_r, SFmul_comm, SFmul_opp_r, SFopp_involutive.
  reflexivity.
Qed.

(** X6.  [Point_getDistance] is symmetric: it returns the same [float] for
    [(p, q)] and for [(q, p)], whatever the coordinates. *)
Theorem X6_distance_symmetric (p q : Point) :
  Point_getDistance p q = Point_getDistance q p.
Proof.
  unfold Point_getDistance, F32.sub.
  destruct (SFsub_swap F32.prec F32.emax p.(x) q.(x)) as [E | [E1 E2]].
  - rewrite E, of_float_opp. unfold F64.mul. rewrite SFmul_opp_opp.
    reflexivity.
  - rewrite E1, E2. reflexivity.
Qed.

(** * Further properties of the collision step of a frame *)

(** The cases of a collision step, as far as the score board goes. *)
Lemma roundStep_scoreboard (g : Game) :
  (fst (roundStep g)).(p1).(paddle_position) = g.(p1).(paddle_position)
  /\ (fst (roundStep g)).(p2).(paddle_position) = g.(p2).(paddle_position)
  /\ ((fst (roundStep g)).(gameState) = g.(gameState)
      /\ (fst (roundStep g)).(p1) = g.(p1)
      /\ (fst (roundStep g)).(p2) = g.(p2)
      /\ snd (roundStep g) = []
      \/ collides (fst (framePaddleCollision g)) = false
         /\ collides (fst (frameWallCollision g)) = true
         /\ col_side (fst (frameWallCollision g)) = LEFT
         /\ (fst (roundStep g)).(gameState) = int_incr g.(gameState)
         /\ (fst (roundStep g)).(p1) = g.(p1)
         /\ (fst (roundStep g)).(p2).(paddle_score)
            = int_incr g.(p2).(paddle_score)
         /\ snd (roundStep g)
            = [ScoreLine g.(p1).(paddle_score)
                         (int_incr g.(p2).(paddle_score))]
      \/ collides (fst (framePaddleCollision g)) = false
         /\ collides (fst (frameWallCollision g)) = true
         /\ col_side (fst (frameWallCollision g)) = RIGHT
         /\ (fst (roundStep g)).(gameState) = int_incr g.(gameState)
         /\ (fst (roundStep g)).(p2) = g.(p2)
         /\ (fst (roundStep g)).(p1).(paddle_score)
            = int_incr g.(p1).(paddle_score)
         /\ snd (roundStep g)
            = [ScoreLine (int_incr g.(p1).(paddle_score))
                         g.(p2).(paddle_score)]).
Proof.
  unfold roundStep, roundResponse.
  destruct (framePaddleCollision g) as [pc na].
  destruct (frameWallCollision g) as [wc nb]. simpl.
  destruct (collides pc).
  { simpl. repeat split. left. repeat split. }
  destruct (collides wc).
  2:{ simpl. repeat split. left. repeat split. }
  destruct (_ || _).
  { simpl. repeat split. left. repeat split. }
  destruct (col_side wc =? LEFT) eqn:L.
  { apply Z.eqb_eq in L. simpl. repeat split. right; left. repeat split.
    exact L. }
  destruct (col_side wc =? RIGHT) eqn:R.
  { apply Z.eqb_eq in R. simpl. repeat split. right; right. repeat split.
    exact R. }
  simpl. repeat split. left. repeat split.
Qed.

(** X7.  What a collision step does to the score board.  It never moves a
    paddle.  Either it leaves [gameState] and both scores alone and prints
    nothing; or no paddle collision was reported, the wall collision has
    side LEFT (RIGHT), [gameState] and the score of player 2 (player 1) are
    incremented, the other paddle is unchanged and exactly one score line
    with the new scores is printed. *)
Theorem X7_frame_accounting (g : Game) :
  (fst (roundStep g)).(p1).(paddle_position) = g.(p1).(paddle_position)
  /\ (fst (roundStep g)).(p2).(paddle_position) = g.(p2).(paddle_position)
  /\ ((fst (roundStep g)).(gameState) = g.(gameState)
      /\ (fst (roundStep g)).(p1) = g.(p1)
      /\ (fst (roundStep g)).(p2) = g.(p2)
      /\ snd (roundStep g) = []
      \/ collides (fst (framePaddleCollision g)) = false
         /\ collides (fst (frameWallCollision g)) = true
         /\ col_side (fst (frameWallCollision g)) = LEFT
         /\ (fst (roundStep g)).(gameState) = int_incr g.(gameState)
         /\ (fst (roundStep g)).(p1) = g.(p1)
         /\ (fst (roundStep g)).(p2).(paddle_score)
            = int_incr g.(p2).(paddle_score)
         /\ snd (roundStep g)
            = [ScoreLine g.(p1).(paddle_score)
                         (int_incr g.(p2).(paddle_score))]
      \/ collides (fst (framePaddleCollision g)) = false
         /\ collides (fst (frameWallCollision g)) = true
         /\ col_side (fst (frameWallCollision g)) = RIGHT
         /\ (fst (roundStep g)).(gameState) = int_incr g.(gameState)
         /\ (fst (roundStep g)).(p2) = g.(p2)
         /\ (fst (roundStep g)).(p1).(paddle_score)
            = int_incr g.(p1).(paddle_score)
         /\ snd (roundStep g)
            = [ScoreLine (int_incr g.(p1).(paddle_score))
                         g.(p2).(paddle_score)]).
Proof. exact (roundStep_scoreboard g). Qed.

(** A wall collision with side RIGHT or LEFT comes from the crossing of
    [x = 800] by a ball heading right, or of [x = 0] by a ball heading
    left. *)
Lemma wall_side_direction (bl : Ball) (np : Point) :
  collides (fst (getWallCollision bl np)) = true ->
  (col_side (fst (getWallCollision bl np)) = RIGHT ->
   (bl.(ball_speed).(x) >=? f0)%f32 = true
   /\ crosses_x bl (F32.of_Z 800) = true)
  /\ (col_side (fst (getWallCollision bl np)) = LEFT ->
      (bl.(ball_speed).(x) >=? f0)%f32 = false
      /\ crosses_x bl (F32.of_Z 0) = true).
Proof.
  unfold getWallCollision, getWallCollision_with. simpl. intros C.
  assert (H : (bl.(ball_speed).(x) ==? f0)%f32 = false).
  { destruct (bl.(ball_speed).(x) ==? f0)%f32 eqn:E; [|reflexivity].
    unfold wallSweep in C. rewrite E in C. discriminate C. }
  destruct (wallSweep_cases F32.div bl H)
    as [(E & _) | [(_ & S & _ & Cx) | (_ & S & _ & _)]].
  - rewrite E in C. discriminate C.
  - rewrite S. revert Cx. unfold horizontalSide, facingBoundX.
    destruct (bl.(ball_speed).(x) >=? f0)%f32; intros Cx;
      split; intros; try discriminate; auto.
  - rewrite S. unfold verticalSide.
    destruct (bl.(ball_speed).(y) >=? f0)%f32; split; intros; discriminate.
Qed.

(** X8.  Who can score in a collision step.  The score of player 1 changes
    only when the ball is heading right ([speed.x >= 0]), its leading vertex
    crosses [x = 800] during the frame and no paddle collision is reported;
    the score of player 2 only when the ball is heading left, its leading
    vertex crosses [x = 0] and no paddle collision is reported. *)
Theorem X8_score_direction (g : Game) :
  ((fst (roundStep g)).(p1).(paddle_score) <> g.(p1).(paddle_score) ->
   (g.(ball).(ball_speed).(x) >=? f0)%f32 = true
   /\ crosses_x g.(ball) (F32.of_Z 800) = true
   /\ collides (fst (framePaddleCollision g)) = false)
  /\ ((fst (roundStep g)).(p2).(paddle_score) <> g.(p2).(paddle_score) ->
      (g.(ball).(ball_speed).(x) >=? f0)%f32 = false
      /\ crosses_x g.(ball) (F32.of_Z 0) = true
      /\ collides (fst (framePaddleCollision g)) = false).
Proof.
  destruct (roundStep_scoreboard g)
    as (_ & _ & [(_ & E1 & E2 & _)
                | [(P & W & S & _ & E1 & _) | (P & W & S & _ & E2 & _)]]).
  - rewrite E1, E2. split; intros H; contradiction H; reflexivity.
  - rewrite E1. split; intros H; [contradiction H; reflexivity|].
    unfold frameWallCollision in W, S.
    destruct (proj2 (wall_side_direction _ _ W) S). auto.
  - rewrite E2. split; intros H; [|contradiction H; reflexivity].
    unfold frameWallCollision in W, S.
    destruct (proj1 (wall_side_direction _ _ W) S). auto.
Qed.

Lemma X8_score_direction_witness :
  (fst (roundStep (game ball_at_left_wall))).(p2).(paddle_score)
  <> (game ball_at_left_wall).(p2).(paddle_score)
  /\ ((game ball_at_left_wall).(ball).(ball_speed).(x) >=? f0)%f32 = false
  /\ crosses_x (game ball_at_left_wall).(ball) (F32.of_Z 0) = true
  /\ collides (fst (framePaddleCollision (game ball_at_left_wall))) = false.
Proof.
  assert (H : (fst (roundStep (game ball_at_left_wall))).(p2).(paddle_score)
              <> (game ball_at_left_wall).(p2).(paddle_score))
    by (vm_compute; discriminate).
  split; [exact H|].
  exact (proj2 (X8_score_direction (game ball_at_left_wall)) H).
Defined.

(** ** Multiplication by [-1.0f] *)

Lemma digits2_pos_shift23 (m : positive) :
  Zpos (digits2_pos (8388608 * m)) = Zpos (digits2_pos m) + 23.
Proof.
  cbn [Pos.mul digits2_pos]. rewrite !Pos2Z.inj_succ. lia.
Qed.

Lemma iter_shr_1_shift23 (m : positive) :
  iter_pos shr_1 23 (Build_shr_record (Zpos (8388608 * m)) false false)
  = Build_shr_record (Zpos m) false false.
Proof. reflexivity. Qed.

(** Rounding [m * 2^23 * 2^(e - 23)] gives back the binary32 number
    [m * 2^e]. *)
Lemma round_shift23 (s : bool) (m : positive) (e : Z) :
  bounded F32.prec F32.emax m e = true ->
  binary_round_aux F32.prec F32.emax s (Zpos (m * 8388608)) (e + -23) loc_Exact
  = S754_finite s m e.
Proof.
  intros B. apply andb_true_iff in B. destruct B as [C L].
  unfold canonical_mantissa in C. apply Z.eqb_eq in C.
  rewrite Pos.mul_comm.
  unfold binary_round_aux, shr_fexp.
  unfold Zdigits2 at 1. rewrite digits2_pos_shift23.
  replace (Z.pos (digits2_pos m) + 23 + (e + -23))
    with (Z.pos (digits2_pos m) + e) by lia.
  rewrite C.
  replace (e - (e + -23)) with 23 by lia.
  unfold shr at 1. cbn [shr_record_of_loc]. rewrite iter_shr_1_shift23.
  cbn [shr_m loc_of_shr_record round_nearest_even].
  unfold Zdigits2.
  replace (e + -23 + 23) with e by lia.
  rewrite C. rewrite Z.sub_diag. cbn [shr shr_record_of_loc shr_m].
  rewrite L. reflexivity.
Qed.

(** [v * -1.0f] is [-v], without rounding, for every binary32 number, zero
    and infinity. *)
Lemma mul_fm1_exact (v : float) :
  valid_binary F32.prec F32.emax v = true -> (v * fm1)%f32 = F32.opp v.
Proof.
  destruct v as [s|s| |s m e]; try (intros _; destruct s; reflexivity);
    try reflexivity.
  cbn [valid_binary]. intros B.
  change fm1 with (S754_finite true 8388608 (-23)).
  unfold F32.mul, F32.opp. cbn [SFmul SFopp].
  rewrite xorb_true_r. apply round_shift23. exact B.
Qed.

(** X9.  A bounce off the top or bottom wall negates [speed.y] exactly: in
    a collision step without paddle collision and with a wall collision of
    side TOP or BOTTOM, the ball keeps [speed.x] and its position (up to the
    final double check of [y]) and leaves with [speed.y] negated, bit for
    bit, when [speed.y] is a binary32 number; no score changes and nothing
    is printed. *)
Theorem X9_wall_bounce_negates (g : Game) :
  collides (fst (framePaddleCollision g)) = false ->
  collides (fst (frameWallCollision g)) = true ->
  col_side (fst (frameWallCollision g)) = TOP
  \/ col_side (fst (frameWallCollision g)) = BOTTOM ->
  valid_binary F32.prec F32.emax g.(ball).(ball_speed).(y) = true ->
  roundStep g
  = (mkGame g.(gameState) g.(p1) g.(p2)
       (clampPositionY
          (mkBall g.(ball).(ball_position)
             (mkPoint g.(ball).(ball_speed).(x)
                      (F32.opp g.(ball).(ball_speed).(y))))),
     []).
Proof.
  intros Hp Hw Hs Hv. unfold roundStep.
  rewrite (wall_bounce_keeps_position g Hp Hw Hs). simpl.
  rewrite (mul_fm1_exact _ Hv). reflexivity.
Qed.

Lemma X9_wall_bounce_negates_witness :
  collides (fst (framePaddleCollision (game ball_at_top_wall))) = false
  /\ collides (fst (frameWallCollision (game ball_at_top_wall))) = true
  /\ col_side (fst (frameWallCollision (game ball_at_top_wall))) = TOP
  /\ valid_binary F32.prec F32.emax
       (game ball_at_top_wall).(ball).(ball_speed).(y) = true
  /\ (fst (roundStep (game ball_at_top_wall))).(ball).(ball_speed)
     = pt 4 2.
Proof.
  assert (H1 : collides (fst (framePaddleCollision (game ball_at_top_wall)))
               = false) by (vm_compute; reflexivity).
  assert (H2 : collides (fst (frameWallCollision (game ball_at_top_wall)))
               = true) by (vm_compute; reflexivity).
  assert (H3 : col_side (fst (frameWallCollision (game ball_at_top_wall)))
               = TOP) by (vm_compute; reflexivity).
  assert (H4 : valid_binary F32.prec F32.emax
                 (game ball_at_top_wall).(ball).(ball_speed).(y) = true)
    by (vm_compute; reflexivity).
  repeat (split; [assumption|]).
  rewrite (X9_wall_bounce_negates (game ball_at_top_wall) H1 H2
             (or_introl H3) H4).
  vm_compute. reflexivity.
Defined.

(** * Rounding never loses a number above the underflow threshold *)

Section RoundSign.

Variables prec emax : Z.
Hypothesis prec_pos : 0 < prec.

Lemma iter_pos_counts {A : Type} (f : A -> A) (Q : Z -> A -> Prop) :
  (forall j u, Q j u -> Q (j - 1) (f u)) ->
  forall n k u, Q k u -> Q (k - Zpos n) (iter_pos f n u).
Proof.
  intros Step. induction n as [n IH|n IH|]; intros k u H; simpl.
  - replace (k - Zpos n~1) with (k - 1 - Zpos n - Zpos n) by lia.
    apply IH, IH, Step, H.
  - replace (k - Zpos n~0) with (k - Zpos n - Zpos n) by lia.
    apply IH, IH, H.
  - apply Step, H.
Qed.

Lemma shr_1_digits (j : Z) (mrs : shr_record) :
  has_digits j mrs -> has_digits (j - 1) (shr_1 mrs).
Proof.
  unfold has_digits. destruct mrs as [m r s]. simpl.
  destruct m as [|q|q]; simpl; try lia.
  destruct q; simpl; rewrite ?Pos2Z.inj_succ; lia.
Qed.

Lemma Zdigits2_pos_iff (m : Z) : 0 <= m -> 1 <= Zdigits2 m -> 0 < m.
Proof. destruct m; simpl; lia. Qed.

Lemma fexp_gap (d : Z) : emin prec emax < d -> 1 <= d - fexp prec emax d.
Proof. unfold fexp. lia. Qed.

Lemma shr_fexp_positive (m e : Z) (l : location) :
  0 < m -> emin prec emax < Zdigits2 m + e ->
  0 < shr_m (fst (shr_fexp prec emax m e l))
  /\ Zdigits2 m + e
     <= Zdigits2 (shr_m (fst (shr_fexp prec emax m e l)))
        + snd (shr_fexp prec emax m e l).
Proof.
  intros Hm Hd. unfold shr_fexp, shr.
  pose proof (fexp_gap _ Hd) as G.
  destruct (fexp prec emax (Zdigits2 m + e) - e) as [|n|n] eqn:E; simpl;
    rewrite ?shr_record_of_loc_m; try lia.
  assert (H0 : has_digits (Zdigits2 m) (shr_record_of_loc m l)).
  { unfold has_digits. rewrite shr_record_of_loc_m. lia. }
  destruct (iter_pos_counts shr_1 has_digits shr_1_digits n _ _ H0) as [D P].
  split; [|lia].
  apply Zdigits2_pos_iff; [exact P | lia].
Qed.

Lemma digits2_pos_succ (q : positive) :
  (digits2_pos q <= digits2_pos (Pos.succ q))%positive.
Proof.
  induction q as [q IH|q IH|]; simpl; try lia.
Qed.

Lemma round_nearest_even_positive (m : Z) (l : location) :
  0 < m ->
  0 < round_nearest_even m l /\ Zdigits2 m <= Zdigits2 (round_nearest_even m l).
Proof.
  intros H. destruct m as [|q|q]; try lia.
  assert (S : Zdigits2 (Zpos q) <= Zdigits2 (Zpos q + 1)).
  { replace (Zpos q + 1) with (Zpos (Pos.succ q)) by lia. simpl.
    pose proof (digits2_pos_succ q). lia. }
  destruct l as [|[]]; cbn [round_nearest_even];
    try destruct (Z.even (Zpos q)); split; lia.
Qed.

(** Rounding a positive mantissa above the underflow threshold gives a
    finite non-zero number or an infinity, of the given sign. *)
Lemma binary_round_aux_nonzero (s : bool) (m e : Z) (l : location) :
  0 < m -> emin prec emax < Zdigits2 m + e ->
  (exists m' e', binary_round_aux prec emax s m e l = S754_finite s m' e')
  \/ binary_round_aux prec emax s m e l = S754_infinity s.
Proof.
  intros Hm Hd. unfold binary_round_aux.
  destruct (shr_fexp_positive m e l Hm Hd) as [P1 D1].
  destruct (shr_fexp prec emax m e l) as [mrs' e']. simpl in P1, D1.
  destruct (round_nearest_even_positive (shr_m mrs') (loc_of_shr_record mrs') P1)
    as [P2 D2].
  assert (Hd2 : emin prec emax
                < Zdigits2 (round_nearest_even (shr_m mrs')
                              (loc_of_shr_record mrs')) + e') by lia.
  destruct (shr_fexp_positive _ e' loc_Exact P2 Hd2) as [P3 _].
  destruct (shr_fexp prec emax _ e' loc_Exact) as [mrs'' e'']. simpl in P3.
  destruct (shr_m mrs'') as [|q|q]; try lia.
  destruct (e'' <=? emax - prec); eauto.
Qed.

Lemma digits2_iter_xO (m d : positive) :
  Zpos (digits2_pos (Pos.iter xO m d)) = Zpos (digits2_pos m) + Zpos d.
Proof.
  induction d as [|d IH] using Pos.peano_ind.
  - change (Pos.iter xO m 1) with (xO m). cbn [digits2_pos].
    rewrite Pos2Z.inj_succ. lia.
  - rewrite Pos.iter_succ. cbn [digits2_pos].
    rewrite !Pos2Z.inj_succ. lia.
Qed.

Lemma shl_align_digits (m : positive) (e e' : Z) :
  Zpos (digits2_pos (fst (shl_align m e e'))) + snd (shl_align m e e')
  = Zpos (digits2_pos m) + e.
Proof.
  unfold shl_align.
  destruct (e' - e) as [|d|d] eqn:E; cbn [fst snd]; try reflexivity.
  rewrite digits2_iter_xO. lia.
Qed.

Lemma binary_round_nonzero (s : bool) (m : positive) (e : Z) :
  emin prec emax < Zpos (digits2_pos m) + e ->
  (exists m' e', binary_round prec emax s m e = S754_finite s m' e')
  \/ binary_round prec emax s m e = S754_infinity s.
Proof.
  intros Hd. unfold binary_round.
  pose proof (shl_align_digits m e (fexp prec emax (Zpos (digits2_pos m) + e)))
    as A.
  destruct (shl_align _ _ _) as [mz ez]. cbn [fst snd] in A.
  apply binary_round_aux_nonzero; cbn [Zdigits2]; lia.
Qed.

End RoundSign.

(** ** The sign of [speed.x] after a hit on a paddle side *)

Lemma digits2_pos_size (q : positive) : digits2_pos q = Pos.size q.
Proof. induction q as [q IH|q IH|]; simpl; congruence. Qed.

Lemma Zdigits2_log2 (q : positive) :
  Zpos (digits2_pos q) = Z.log2 (Zpos q) + 1.
Proof.
  destruct q as [q|q|]; cbn [digits2_pos Z.log2];
    rewrite ?Pos2Z.inj_succ, ?digits2_pos_size; lia.
Qed.

Lemma digits2_pos_add_r (p q : positive) :
  Zpos (digits2_pos q) <= Zpos (digits2_pos (p + q)).
Proof.
  rewrite !Zdigits2_log2.
  pose proof (Z.log2_le_mono (Zpos q) (Zpos (p + q))). lia.
Qed.

Lemma shl_align_snd (m : positive) (e e' : Z) :
  e' <= e -> snd (shl_align m e e') = e'.
Proof.
  intros H. unfold shl_align.
  destruct (e' - e) as [|d|d] eqn:E; cbn [snd]; lia.
Qed.

(** The aligned mantissa of [0.5f] has its leading bit at [2^-1]. *)
Lemma half_aligned_digits (e : Z) :
  Zpos (digits2_pos (fst (shl_align 8388608 (-24) (Z.min e (-24)))))
  + Z.min e (-24) = 0.
Proof.
  pose proof (shl_align_digits 8388608 (-24) (Z.min e (-24))) as D.
  rewrite shl_align_snd in D by lia.
  cbn [digits2_pos] in D. cbv [Pos.succ] in D. lia.
Qed.

Lemma binary_round_aux_sign (prec emax : Z) (s : bool) (m e : Z)
    (l : location) :
  0 <= m ->
  (if s then not_positive else not_negative)
    (binary_round_aux prec emax s m e l) = true.
Proof.
  intros H; unfold binary_round_aux.
  pose proof (shr_fexp_nonneg prec emax m e l H) as H1.
  destruct (shr_fexp prec emax m e l) as [mrs' e']; simpl in H1.
  pose proof (shr_fexp_nonneg prec emax _ e' loc_Exact
                (round_nearest_even_nonneg _ (loc_of_shr_record mrs') H1))
    as H2.
  destruct (shr_fexp prec emax _ e' loc_Exact) as [mrs'' e'']; simpl in H2.
  destruct (shr_m mrs''); try lia.
  - destruct s; reflexivity.
  - destruct (e'' <=? emax - prec); destruct s; reflexivity.
Qed.

Lemma geb_zero_class (u : float) :
  (u >=? f0)%f32 = true -> not_negative u = true.
Proof. destruct u as [s|[]| |[] m e]; try discriminate; reflexivity. Qed.

Lemma not_geb_zero_class (u : float) :
  F32.is_nan u = false -> (u >=? f0)%f32 = false -> not_positive u = true.
Proof. destruct u as [s|[]| |[] m e]; try discriminate; reflexivity. Qed.

Lemma mul_fm1_class (u : float) :
  (not_negative u = true -> not_positive (u * fm1)%f32 = true)
  /\ (not_positive u = true -> not_negative (u * fm1)%f32 = true).
Proof.
  change fm1 with (S754_finite true 8388608 (-23)).
  destruct u as [s|[]| |[] m e]; split; try discriminate; try reflexivity;
    intros _; unfold F32.mul; cbn [SFmul xorb].
  - apply (binary_round_aux_sign F32.prec F32.emax false). lia.
  - apply (binary_round_aux_sign F32.prec F32.emax true). lia.
Qed.

Lemma emin32 : emin F32.prec F32.emax = -149.
Proof. reflexivity. Qed.

(** A value that is not positive, less [0.5f], is negative. *)
Lemma sub_half_negative (u : float) :
  not_positive u = true -> (u - f0_5 <? f0)%f32 = true.
Proof.
  change f0_5 with (S754_finite false 8388608 (-24)).
  destruct u as [s|[]| |[] m e]; try discriminate; try reflexivity.
  intros _. unfold F32.sub. cbn [SFsub cond_Zopp].
  set (A := fst (shl_align m e (Z.min e (-24)))).
  set (B := fst (shl_align 8388608 (-24) (Z.min e (-24)))).
  change (- Z.pos A - Z.pos B) with (Z.neg (A + B)).
  cbn [binary_normalize].
  assert (D : emin F32.prec F32.emax
              < Zpos (digits2_pos (A + B)) + Z.min e (-24)).
  { rewrite emin32. pose proof (half_aligned_digits e).
    pose proof (digits2_pos_add_r A B). fold B in H. lia. }
  destruct (binary_round_nonzero F32.prec F32.emax eq_refl true _ _ D)
    as [(m' & e' & ->) | ->]; reflexivity.
Qed.

(** A value that is not negative, plus [0.5f], is positive. *)
Lemma add_half_positive (u : float) :
  not_negative u = true -> (f0 <? u + f0_5)%f32 = true.
Proof.
  change f0_5 with (S754_finite false 8388608 (-24)).
  destruct u as [s|[]| |[] m e]; try discriminate; try reflexivity.
  intros _. unfold F32.add. cbn [SFadd cond_Zopp].
  set (A := fst (shl_align m e (Z.min e (-24)))).
  set (B := fst (shl_align 8388608 (-24) (Z.min e (-24)))).
  change (Z.pos A + Z.pos B) with (Z.pos (A + B)).
  cbn [binary_normalize].
  assert (D : emin F32.prec F32.emax
              < Zpos (digits2_pos (A + B)) + Z.min e (-24)).
  { rewrite emin32. pose proof (half_aligned_digits e).
    pose proof (digits2_pos_add_r A B). fold B in H. lia. }
  destruct (binary_round_nonzero F32.prec F32.emax eq_refl false _ _ D)
    as [(m' & e' & ->) | ->]; reflexivity.
Qed.

(** * The horizontal velocity through a collision step *)

Lemma SFadd_nan_r (prec emax : Z) (u v : float) :
  F32.is_nan v = true -> SFadd prec emax u v = S754_nan.
Proof. destruct v; try discriminate. destruct u; reflexivity. Qed.

(** A horizontal candidate is only found for a [speed.x] that is not a
    NaN. *)
Lemma horizontalTests_not_nan (bl : Ball) (pd : Paddle) (slope : float)
    (side : Side) (vs : list Z) :
  forall cell,
    collides (fst (horizontalTests bl pd slope side vs cell)) = true ->
    F32.is_nan bl.(ball_speed).(x) = false.
Proof.
  induction vs as [|v rest IH]; intros cell; simpl.
  - discriminate.
  - destruct (negb _) eqn:R; [simpl; discriminate|].
    intros _. apply negb_false_iff, andb_true_iff in R. destruct R as [R _].
    destruct (F32.is_nan bl.(ball_speed).(x)) eqn:N; [exfalso|reflexivity].
    unfold F32.geb, MIN, F32.add in R.
    rewrite (SFadd_nan_r F32.prec F32.emax _ _ N) in R.
    rewrite (ltb_nan_r _ S754_nan eq_refl) in R.
    apply leb_not_nan in R. destruct R as [R _]. discriminate R.
Qed.

(** The sign of [speed.x] at a hit on a paddle side. *)
Lemma paddle_side_class (bl : Ball) (pd : Paddle) (np : Point) :
  collides (fst (getPaddleCollision bl pd np)) = true ->
  (col_side (fst (getPaddleCollision bl pd np)) = LEFT ->
   not_negative bl.(ball_speed).(x) = true)
  /\ (col_side (fst (getPaddleCollision bl pd np)) = RIGHT ->
      not_positive bl.(ball_speed).(x) = true).
Proof.
  unfold getPaddleCollision, getPaddleCollision_with.
  destruct (paddleSweep_cases F32.div bl pd)
    as [E | [(h & c & Eh & _ & F & C) | (v & c & Ev & _ & F & _)]].
  - rewrite E. simpl. discriminate.
  - destruct (paddleSweep F32.div bl pd) as [r w]. simpl in F, C |- *.
    intros _. rewrite F in C.
    pose proof (horizontalTests_not_nan _ _ _ _ _ _ C) as N.
    destruct (horizontalTests_result bl pd
                (F32.div bl.(ball_speed).(y) bl.(ball_speed).(x))
                h.(paddleSide) h.(testVertices) c)
      as [E | (_ & S & _)].
    + rewrite E in C. discriminate C.
    + rewrite F, S.
      destruct (horizontalSetup_cases _ _ _ Eh) as [[V ->] | [V ->]];
        split; intros; try discriminate.
      * apply geb_zero_class, V.
      * apply not_geb_zero_class; assumption.
  - destruct (paddleSweep F32.div bl pd) as [r w]. simpl in F |- *.
    intros C.
    destruct (verticalTests_result F32.div bl pd
                (F32.div bl.(ball_speed).(y) bl.(ball_speed).(x))
                v.(paddleSide) v.(testVertices) c)
      as [E | (_ & _ & S & _)].
    + rewrite <- F in E. rewrite E in C. discriminate C.
    + rewrite F, S.
      destruct (verticalSetup_cases _ _ _ Ev) as [[_ ->] | [_ ->]];
        split; intros; discriminate.
Qed.

Lemma clampSpeedY_x (bl : Ball) :
  (clampSpeedY bl).(ball_speed).(x) = bl.(ball_speed).(x).
Proof.
  unfold clampSpeedY. destruct (_ >=? _)%f32; [reflexivity|].
  destruct (_ <=? _)%f32; reflexivity.
Qed.

(** [speed.x] after a collision step. *)
Lemma roundStep_speed_x (g : Game) :
  (fst (roundStep g)).(ball).(ball_speed).(x)
  = if collides (fst (framePaddleCollision g)) then
      if col_side (fst (framePaddleCollision g)) =? LEFT
      then (g.(ball).(ball_speed).(x) * fm1 - f0_5)%f32
      else if col_side (fst (framePaddleCollision g)) =? RIGHT
      then (g.(ball).(ball_speed).(x) * fm1 + f0_5)%f32
      else g.(ball).(ball_speed).(x)
    else g.(ball).(ball_speed).(x).
Proof.
  unfold roundStep, roundResponse.
  destruct (framePaddleCollision g) as [pc na].
  destruct (frameWallCollision g) as [wc nb]. simpl.
  destruct (collides pc).
  { simpl. rewrite clampPositionY_speed, clampSpeedY_x.
    unfold paddleResponse.
    destruct (col_side pc =? LEFT); [reflexivity|].
    destruct (col_side pc =? RIGHT); reflexivity. }
  destruct (collides wc).
  2:{ simpl. rewrite clampPositionY_speed. reflexivity. }
  destruct (_ || _).
  { simpl. rewrite clampPositionY_speed. reflexivity. }
  destruct (col_side wc =? LEFT).
  { simpl. rewrite clampPositionY_speed. reflexivity. }
  destruct (col_side wc =? RIGHT);
    simpl; rewrite clampPositionY_speed; reflexivity.
Qed.

Lemma framePaddle_side_class (g : Game) :
  collides (fst (framePaddleCollision g)) = true ->
  (col_side (fst (framePaddleCollision g)) = LEFT ->
   not_negative g.(ball).(ball_speed).(x) = true)
  /\ (col_side (fst (framePaddleCollision g)) = RIGHT ->
      not_positive g.(ball).(ball_speed).(x) = true).
Proof.
  unfold framePaddleCollision.
  destruct (_ >=? _)%f32; apply paddle_side_class.
Qed.

(** The sign of [speed.x] after a hit on a paddle side. *)
Lemma paddle_side_hit_sign (g : Game) :
  collides (fst (framePaddleCollision g)) = true ->
  (col_side (fst (framePaddleCollision g)) = LEFT ->
   ((fst (roundStep g)).(ball).(ball_speed).(x) <? f0)%f32 = true)
  /\ (col_side (fst (framePaddleCollision g)) = RIGHT ->
      (f0 <? (fst (roundStep g)).(ball).(ball_speed).(x))%f32 = true).
Proof.
  intros C. rewrite roundStep_speed_x, C.
  destruct (framePaddle_side_class g C) as [L R].
  split; intros S; rewrite S; simpl.
  - apply sub_half_negative, mul_fm1_class, L, S.
  - apply add_half_positive, mul_fm1_class, R, S.
Qed.

(** * The clamp of the paddle response *)

(** The two bounds of the clamp, [MAX(c, -c)] and [MIN(c, -c)], are [|c|]
    and [-|c|], up to the sign of a zero. *)
Lemma MAX_opp_leb (c u : float) :
  (MAX c (F32.opp c) <=? u)%f32 = (F32.abs c <=? u)%f32.
Proof.
  destruct c as [[]|[]| |[] m e]; try reflexivity; destruct u; reflexivity.
Qed.

Lemma MIN_opp_leb (c u : float) :
  (u <=? MIN c (F32.opp c))%f32 = (u <=? F32.opp (F32.abs c))%f32.
Proof.
  destruct c as [[]|[]| |[] m e]; try reflexivity; destruct u; reflexivity.
Qed.

Lemma float_eqb_refl (u : float) : F32.is_nan u = false -> (u ==? u)%f32 = true.
Proof.
  intros H. pose proof (leb_refl u H) as L.
  unfold F32.eqb, SFeqb. unfold F32.leb, SFleb in L.
  pose proof (SFcompare_antisym u u) as A.
  destruct (SFcompare u u) as [[]|]; try discriminate; auto.
Qed.

Lemma MAX_opp_eqb (c : float) :
  F32.is_nan c = false -> (MAX c (F32.opp c) ==? F32.abs c)%f32 = true.
Proof.
  destruct c as [[]|[]| |[] m e]; try discriminate; try reflexivity;
    intros _; apply (float_eqb_refl (S754_finite false m e)); reflexivity.
Qed.

Lemma MIN_opp_eqb (c : float) :
  F32.is_nan c = false ->
  (MIN c (F32.opp c) ==? F32.opp (F32.abs c))%f32 = true.
Proof.
  destruct c as [[]|[]| |[] m e]; try discriminate; try reflexivity;
    intros _; apply (float_eqb_refl (S754_finite true m e)); reflexivity.
Qed.

Lemma abs_leb_opp_abs (c : float) :
  (F32.abs c <=? F32.opp (F32.abs c))%f32 = true ->
  (MAX c (F32.opp c) ==? F32.opp (F32.abs c))%f32 = true.
Proof.
  destruct c as [[]|[]| |[] m e]; try discriminate; reflexivity.
Qed.

(** The clamp, case by case, against the bound [B = 3 * |speed.x|]. *)
Lemma clampSpeedY_spec (bl : Ball) :
  F32.is_nan bl.(ball_speed).(x) = false ->
  F32.is_nan bl.(ball_speed).(y) = false ->
  let B := (f3 * F32.abs bl.(ball_speed).(x))%f32 in
  ((F32.opp B <? bl.(ball_speed).(y))%f32 = true ->
   (bl.(ball_speed).(y) <? B)%f32 = true ->
   (clampSpeedY bl).(ball_speed).(y) = bl.(ball_speed).(y))
  /\ ((B <=? bl.(ball_speed).(y))%f32 = true ->
      ((clampSpeedY bl).(ball_speed).(y) ==? B)%f32 = true)
  /\ ((bl.(ball_speed).(y) <=? F32.opp B)%f32 = true ->
      ((clampSpeedY bl).(ball_speed).(y) ==? F32.opp B)%f32 = true).
Proof.
  intros Nx Ny.
  set (vx := bl.(ball_speed).(x)) in *.
  set (vy := bl.(ball_speed).(y)) in *.
  set (c := (vx * f3)%f32).
  assert (Nc : F32.is_nan c = false)
    by (apply (SFmul_finite_not_nan F32.prec F32.emax vx); exact Nx).
  assert (Hc : (f3 * F32.abs vx)%f32 = F32.abs c).
  { unfold c, F32.mul, F32.abs. rewrite SFmul_abs, SFmul_comm. reflexivity. }
  cbv zeta. rewrite Hc.
  unfold clampSpeedY. fold vx vy. rewrite !mul_fm3. fold c.
  unfold F32.geb. rewrite MAX_opp_leb, MIN_opp_leb.
  repeat split.
  - intros Lo Hi.
    rewrite (ltb_antisym _ _ Hi), (ltb_antisym _ _ Lo). reflexivity.
  - intros Hi. rewrite Hi. cbn [set_speed_y ball_speed y].
    apply MAX_opp_eqb, Nc.
  - intros Lo.
    destruct (F32.abs c <=? vy)%f32 eqn:Hi; cbn [set_speed_y ball_speed y].
    + apply abs_leb_opp_abs. exact (leb_trans _ _ _ Hi Lo).
    + rewrite Lo. cbn [set_speed_y ball_speed y]. apply MIN_opp_eqb, Nc.
Qed.

(** The velocity a frame with a paddle collision leaves behind is the
    clamped velocity of the response. *)
Lemma roundStep_paddle_hit (g : Game) :
  collides (fst (framePaddleCollision g)) = true ->
  (fst (roundStep g)).(ball).(ball_speed)
  = (clampSpeedY (paddleResponse g (fst (framePaddleCollision g))
                                 (snd (framePaddleCollision g)))).(ball_speed).
Proof.
  unfold roundStep, roundResponse.
  destruct (framePaddleCollision g) as [pc na].
  destruct (frameWallCollision g) as [wc nb].
  simpl. intros ->. simpl. apply clampPositionY_speed.
Qed.

(** A paddle hit keeps [speed.x] a number. *)
Lemma paddle_hit_dx_number (g : Game) :
  collides (fst (framePaddleCollision g)) = true ->
  F32.is_nan g.(ball).(ball_speed).(x) = false ->
  F32.is_nan (fst (roundStep g)).(ball).(ball_speed).(x) = false.
Proof.
  intros C N. destruct (paddle_side_hit_sign g C) as [L R].
  rewrite roundStep_speed_x, C in *.
  destruct (col_side (fst (framePaddleCollision g)) =? LEFT) eqn:SL.
  { apply Z.eqb_eq in SL. exact (proj1 (ltb_not_nan _ _ (L SL))). }
  destruct (col_side (fst (framePaddleCollision g)) =? RIGHT) eqn:SR.
  { apply Z.eqb_eq in SR. exact (proj2 (ltb_not_nan _ _ (R SR))). }
  exact N.
Qed.

(** C7.  In every round-loop frame with a reported paddle collision
    (whichever side), [velocity.y] is clamped to within three times the
    magnitude of the post-reflection [velocity.x].  With [hit] the velocity
    of the response before the clamp, [out] the velocity the frame leaves
    behind and [B = 3 * |out.x|]: the clamp leaves [velocity.x] alone;
    [|out.y| <= B]; a [hit.y] strictly between [-B] and [B] is kept as it
    is; a [hit.y] of at least [B] is replaced by [B], and one of at most
    [-B] by [-B].  The comparisons are those of the floating-point values,
    so [velocity.x] before the frame and [hit.y] must be numbers (a NaN
    compares with nothing). *)
Theorem C7_paddle_hit_clamps_dy (g : Game) :
  collides (fst (framePaddleCollision g)) = true ->
  F32.is_nan g.(ball).(ball_speed).(x) = false ->
  F32.is_nan
    (paddleResponse g (fst (framePaddleCollision g))
                    (snd (framePaddleCollision g))).(ball_speed).(y) = false ->
  let hit := (paddleResponse g (fst (framePaddleCollision g))
                             (snd (framePaddleCollision g))).(ball_speed) in
  let out := (fst (roundStep g)).(ball).(ball_speed) in
  let B := (f3 * F32.abs out.(x))%f32 in
  out.(x) = hit.(x)
  /\ (F32.abs out.(y) <=? B)%f32 = true
  /\ ((F32.opp B <? hit.(y))%f32 = true -> (hit.(y) <? B)%f32 = true ->
      out.(y) = hit.(y))
  /\ ((B <=? hit.(y))%f32 = true -> (out.(y) ==? B)%f32 = true)
  /\ ((hit.(y) <=? F32.opp B)%f32 = true ->
      (out.(y) ==? F32.opp B)%f32 = true).
Proof.
  intros C Nx Ny. cbv zeta.
  pose proof (paddle_hit_dx_number g C Nx) as Nx'.
  rewrite (roundStep_paddle_hit g C) in *.
  rewrite clampSpeedY_x in *.
  split; [reflexivity|].
  destruct (clampSpeedY_spec _ Nx' Ny) as (Keep & Hi & Lo).
  split; [|auto].
  pose proof (clampSpeedY_bound
                (paddleResponse g (fst (framePaddleCollision g))
                                (snd (framePaddleCollision g)))) as Bd.
  rewrite clampSpeedY_x in Bd. apply Bd; [exact Nx'|].
  unfold clampSpeedY.
  set (vx := x (ball_speed (paddleResponse g (fst (framePaddleCollision g))
                                (snd (framePaddleCollision g))))) in *.
  assert (Nc : F32.is_nan (vx * f3)%f32 = false)
    by (apply (SFmul_finite_not_nan F32.prec F32.emax vx); exact Nx').
  rewrite !mul_fm3.
  destruct (MAX_cases (vx * f3)%f32 (F32.opp (vx * f3)%f32)) as [EM | EM];
    destruct (MIN_cases (vx * f3)%f32 (F32.opp (vx * f3)%f32)) as [Em | Em];
    rewrite EM, Em;
    repeat match goal with
           | |- context [if ?b then _ else _] => destruct b
           end;
    cbn [set_speed_y ball_speed y]; rewrite ?opp_not_nan; assumption.
Qed.

Lemma C7_paddle_hit_clamps_dy_witness :
  collides (fst (framePaddleCollision (game ball_steep_hit))) = true
  /\ F32.is_nan (game ball_steep_hit).(ball).(ball_speed).(x) = false
  /\ (paddleResponse (game ball_steep_hit)
        (fst (framePaddleCollision (game ball_steep_hit)))
        (snd (framePaddleCollision (game ball_steep_hit)))).(ball_speed)
     = mkPoint (F32.of_dyadic (-11) (-1)) (F32.of_dyadic 11744051 (-19))
  /\ ((fst (roundStep (game ball_steep_hit))).(ball).(ball_speed).(y)
      ==? f3 * F32.abs
                 (fst (roundStep (game ball_steep_hit))).(ball).(ball_speed).(x)
     )%f32 = true.
Proof.
  assert (H1 : collides (fst (framePaddleCollision (game ball_steep_hit)))
               = true) by (vm_compute; reflexivity).
  assert (H2 : F32.is_nan (game ball_steep_hit).(ball).(ball_speed).(x)
               = false) by reflexivity.
  assert (H3 : (paddleResponse (game ball_steep_hit)
                  (fst (framePaddleCollision (game ball_steep_hit)))
                  (snd (framePaddleCollision (game ball_steep_hit)))
               ).(ball_speed)
               = mkPoint (F32.of_dyadic (-11) (-1))
                         (F32.of_dyadic 11744051 (-19)))
    by (vm_compute; reflexivity).
  assert (H4 : F32.is_nan
                 (paddleResponse (game ball_steep_hit)
                    (fst (framePaddleCollision (game ball_steep_hit)))
                    (snd (framePaddleCollision (game ball_steep_hit)))
                 ).(ball_speed).(y) = false)
    by (vm_compute; reflexivity).
  repeat (split; [assumption|]).
  apply (proj1 (proj2 (proj2 (proj2
           (C7_paddle_hit_clamps_dy (game ball_steep_hit) H1 H2 H4))))).
  vm_compute; reflexivity.
Defined.

(** X10.  A hit on a paddle side sends the ball back: after a collision
    step with a reported paddle collision of side LEFT the ball has
    [speed.x < 0], after one of side RIGHT it has [speed.x > 0], for every
    state of ball and paddles. *)
Theorem X10_paddle_side_hit_reverses (g : Game) :
  collides (fst (framePaddleCollision g)) = true ->
  (col_side (fst (framePaddleCollision g)) = LEFT ->
   ((fst (roundStep g)).(ball).(ball_speed).(x) <? f0)%f32 = true)
  /\ (col_side (fst (framePaddleCollision g)) = RIGHT ->
      (f0 <? (fst (roundStep g)).(ball).(ball_speed).(x))%f32 = true).
Proof. exact (paddle_side_hit_sign g). Qed.

Lemma X10_paddle_side_hit_reverses_witness :
  collides (fst (framePaddleCollision (game ball_hits_paddle))) = true
  /\ col_side (fst (framePaddleCollision (game ball_hits_paddle))) = LEFT
  /\ ((fst (roundStep (game ball_hits_paddle))).(ball).(ball_speed).(x)
      <? f0)%f32 = true.
Proof.
  assert (C : collides (fst (framePaddleCollision (game ball_hits_paddle)))
              = true) by (vm_compute; reflexivity).
  assert (S : col_side (fst (framePaddleCollision (game ball_hits_paddle)))
              = LEFT) by (vm_compute; reflexivity).
  split; [exact C|]. split; [exact S|].
  exact (proj1 (X10_paddle_side_hit_reverses (game ball_hits_paddle) C) S).
Defined.

Lemma ltb_zero_nonzero (u : float) :
  (u <? f0)%f32 = true \/ (f0 <? u)%f32 = true ->
  F32.is_nan u = false /\ (u ==? f0)%f32 = false.
Proof.
  destruct u as [s|[]| |[] m e]; intros [H | H]; try discriminate H; auto.
Qed.

(** A collision step keeps [speed.x] a non-zero number. *)
Lemma roundStep_keeps_dx (g : Game) :
  F32.is_nan g.(ball).(ball_speed).(x) = false ->
  (g.(ball).(ball_speed).(x) ==? f0)%f32 = false ->
  F32.is_nan (fst (roundStep g)).(ball).(ball_speed).(x) = false
  /\ ((fst (roundStep g)).(ball).(ball_speed).(x) ==? f0)%f32 = false.
Proof.
  intros N Z.
  destruct (collides (fst (framePaddleCollision g))) eqn:C.
  - destruct (paddle_side_hit_sign g C) as [L R].
    destruct (col_side (fst (framePaddleCollision g)) =? LEFT) eqn:SL.
    { apply Z.eqb_eq in SL. apply ltb_zero_nonzero. left. auto. }
    destruct (col_side (fst (framePaddleCollision g)) =? RIGHT) eqn:SR.
    { apply Z.eqb_eq in SR. apply ltb_zero_nonzero. right. auto. }
    rewrite roundStep_speed_x, C, SL, SR. auto.
  - rewrite roundStep_speed_x, C. auto.
Qed.

(** X11.  A collision step never stops the ball horizontally: if [speed.x]
    is a non-zero number before the step, it is a non-zero number after it,
    so the resolvers' early return for a zero [speed.x] cannot start to
    apply during a rally. *)
Theorem X11_step_keeps_dx_nonzero (g : Game) :
  F32.is_nan g.(ball).(ball_speed).(x) = false ->
  (g.(ball).(ball_speed).(x) ==? f0)%f32 = false ->
  F32.is_nan (fst (roundStep g)).(ball).(ball_speed).(x) = false
  /\ ((fst (roundStep g)).(ball).(ball_speed).(x) ==? f0)%f32 = false.
Proof. exact (roundStep_keeps_dx g). Qed.

Lemma X11_step_keeps_dx_nonzero_witness :
  F32.is_nan (game ball_hits_paddle).(ball).(ball_speed).(x) = false
  /\ ((game ball_hits_paddle).(ball).(ball_speed).(x) ==? f0)%f32 = false
  /\ F32.is_nan (fst (roundStep (game ball_hits_paddle))).(ball)
                .(ball_speed).(x) = false
  /\ ((fst (roundStep (game ball_hits_paddle))).(ball).(ball_speed).(x)
      ==? f0)%f32 = false.
Proof.
  assert (N : F32.is_nan (game ball_hits_paddle).(ball).(ball_speed).(x)
              = false) by reflexivity.
  assert (Z : ((game ball_hits_paddle).(ball).(ball_speed).(x) ==? f0)%f32
              = false) by reflexivity.
  split; [exact N|]. split; [exact Z|].
  exact (X11_step_keeps_dx_nonzero (game ball_hits_paddle) N Z).
Defined.

(** * The round loop before the collision tests *)

Lemma leb_zero_zero : (f0 <=? f0)%f32 = true.
Proof. reflexivity. Qed.

Lemma binary_round_sign (prec emax : Z) (s : bool) (m : positive) (e : Z) :
  (if s then not_positive else not_negative) (binary_round prec emax s m e)
  = true.
Proof.
  unfold binary_round. destruct (shl_align _ _ _) as [mz ez].
  apply binary_round_aux_sign. lia.
Qed.

(** The sum of two values that are not negative. *)
Lemma add_not_negative (u v : float) :
  not_negative u = true -> not_negative v = true ->
  not_negative (u + v)%f32 = true.
Proof.
  destruct u as [s|[]| |[] m e]; try discriminate;
    destruct v as [s'|[]| |[] m' e']; try discriminate; intros _ _;
    try reflexivity; try (destruct s; try destruct s'; reflexivity).
  unfold F32.add. cbn [SFadd cond_Zopp].
  set (A := fst (shl_align m e (Z.min e e'))).
  set (B := fst (shl_align m' e' (Z.min e e'))).
  change (Z.pos A + Z.pos B) with (Z.pos (A + B)).
  cbn [binary_normalize].
  apply (binary_round_sign F32.prec F32.emax false).
Qed.

Lemma not_negative_geb (u : float) :
  not_negative u = true -> (u >=? f0)%f32 = true.
Proof. destruct u as [s|[]| |[] m e]; try discriminate; reflexivity. Qed.

(** The facts about the key handling of one paddle. *)
Lemma paddle_keys_facts (up down : bool) (p : Paddle) :
  (fst (movePaddle up down p)).(paddle_position).(x) = p.(paddle_position).(x)
  /\ (fst (movePaddle up down p)).(paddle_score) = p.(paddle_score)
  /\ snd (movePaddle up down p)
     = (if down then 1 else 0) - (if up then 1 else 0)
  /\ (up = false -> down = false -> fst (movePaddle up down p) = p)
  /\ (up = true ->
      (f0 <=? (fst (movePaddle up down p)).(paddle_position).(y))%f32 = true)
  /\ (down = true ->
      ((fst (movePaddle up down p)).(paddle_position).(y)
       <=? F32.of_Z 500)%f32 = true).
Proof.
  assert (U : forall q, (f0 <=? (moveUp q).(paddle_position).(y))%f32 = true).
  { intros q. unfold moveUp. cbn [paddle_position y].
    destruct (_ >? f0)%f32 eqn:E.
    - apply ltb_leb, E.
    - reflexivity. }
  assert (D : forall q, ((moveDown q).(paddle_position).(y)
                         <=? F32.of_Z 500)%f32 = true).
  { intros q. unfold moveDown. cbn [paddle_position y].
    destruct (_ <? _)%f32 eqn:E.
    - apply ltb_leb, E.
    - reflexivity. }
  assert (DU : forall q,
             (f0 <=? q.(paddle_position).(y))%f32 = true ->
             (f0 <=? (moveDown q).(paddle_position).(y))%f32 = true).
  { intros q H. unfold moveDown. cbn [paddle_position y].
    destruct (_ <? _)%f32 eqn:E; [|reflexivity].
    apply not_negative_geb, add_not_negative; [|reflexivity].
    apply geb_zero_class, H. }
  unfold movePaddle. destruct up, down; cbn [fst snd];
    repeat split; try discriminate; try reflexivity; intros; auto.
Qed.

(** X12.  The key handling of one paddle.  It never changes the paddle's
    [x] or its score.  The direction it reports is -1 for the up key alone,
    +1 for the down key alone and 0 for none or both.  Whatever the position
    before (even a NaN): after the up key alone the paddle is not above the
    top ([y >= 0]); after the down key the paddle is not below its lowest
    position ([y <= 500]); after both keys it is within [0, 500]. *)
Theorem X12_paddle_keys (up down : bool) (p : Paddle) :
  (fst (movePaddle up down p)).(paddle_position).(x) = p.(paddle_position).(x)
  /\ (fst (movePaddle up down p)).(paddle_score) = p.(paddle_score)
  /\ snd (movePaddle up down p)
     = (if down then 1 else 0) - (if up then 1 else 0)
  /\ (up = false -> down = false -> fst (movePaddle up down p) = p)
  /\ (up = true ->
      (f0 <=? (fst (movePaddle up down p)).(paddle_position).(y))%f32 = true)
  /\ (down = true ->
      ((fst (movePaddle up down p)).(paddle_position).(y)
       <=? F32.of_Z 500)%f32 = true).
Proof. exact (paddle_keys_facts up down p). Qed.

Lemma X12_paddle_keys_witness :
  (f0 <=? (fst (movePaddle true false (mkPaddle (pt 75 3) 0)))
          .(paddle_position).(y))%f32 = true
  /\ fst (movePaddle true false (mkPaddle (pt 75 3) 0))
     = mkPaddle (pt 75 0) 0.
Proof.
  split.
  - exact (proj1 (proj2 (proj2 (proj2 (proj2
             (X12_paddle_keys true false (mkPaddle (pt 75 3) 0)))))) eq_refl).
  - vm_compute. reflexivity.
Defined.

Lemma of_Z_not_negative (k : Z) : 0 <= k -> not_negative (F32.of_Z k) = true.
Proof.
  intros H. destruct k as [|q|q]; try lia; [reflexivity|].
  unfold F32.of_Z. cbn [binary_normalize].
  apply (binary_round_sign F32.prec F32.emax false).
Qed.

Lemma mul_f1_class (u : float) :
  not_negative u = true -> not_negative (u * f1)%f32 = true.
Proof.
  change f1 with (S754_finite false 8388608 (-23)).
  destruct u as [s|[]| |[] m e]; try discriminate; try reflexivity;
    intros _; unfold F32.mul; cbn [SFmul xorb].
  apply (binary_round_aux_sign F32.prec F32.emax false). lia.
Qed.

(** A value that is not negative, plus a positive binary32 number, is
    positive; a value that is not positive, plus a negative one, is
    negative. *)
Lemma add_pos_positive (u : float) (mc : positive) (ec : Z) :
  emin F32.prec F32.emax < Zpos (digits2_pos mc) + ec ->
  not_negative u = true ->
  (f0 <? u + S754_finite false mc ec)%f32 = true.
Proof.
  intros Hc.
  destruct u as [s|[]| |[] m e]; try discriminate; try reflexivity.
  intros _. unfold F32.add. cbn [SFadd cond_Zopp].
  set (A := fst (shl_align m e (Z.min e ec))).
  set (B := fst (shl_align mc ec (Z.min e ec))).
  change (Z.pos A + Z.pos B) with (Z.pos (A + B)).
  cbn [binary_normalize].
  assert (D : emin F32.prec F32.emax
              < Zpos (digits2_pos (A + B)) + Z.min e ec).
  { pose proof (shl_align_digits mc ec (Z.min e ec)) as E.
    rewrite shl_align_snd in E by lia. fold B in E.
    pose proof (digits2_pos_add_r A B). lia. }
  destruct (binary_round_nonzero F32.prec F32.emax eq_refl false _ _ D)
    as [(m' & e' & ->) | ->]; reflexivity.
Qed.

Lemma add_neg_negative (u : float) (mc : positive) (ec : Z) :
  emin F32.prec F32.emax < Zpos (digits2_pos mc) + ec ->
  not_positive u = true ->
  (u + S754_finite true mc ec <? f0)%f32 = true.
Proof.
  intros Hc.
  destruct u as [s|[]| |[] m e]; try discriminate; try reflexivity.
  intros _. unfold F32.add. cbn [SFadd cond_Zopp].
  set (A := fst (shl_align m e (Z.min e ec))).
  set (B := fst (shl_align mc ec (Z.min e ec))).
  change (- Z.pos A + - Z.pos B) with (Z.neg (A + B)).
  cbn [binary_normalize].
  assert (D : emin F32.prec F32.emax
              < Zpos (digits2_pos (A + B)) + Z.min e ec).
  { pose proof (shl_align_digits mc ec (Z.min e ec)) as E.
    rewrite shl_align_snd in E by lia. fold B in E.
    pose proof (digits2_pos_add_r A B). lia. }
  destruct (binary_round_nonzero F32.prec F32.emax eq_refl true _ _ D)
    as [(m' & e' & ->) | ->]; reflexivity.
Qed.

(** What [spin] does to the ball. *)
Lemma spin_cases (hit : bool) (dir : Z) (bl bl' : Ball) :
  spin hit dir bl = Some bl' ->
  bl'.(ball_position) = bl.(ball_position)
  /\ bl'.(ball_speed).(x) = bl.(ball_speed).(x)
  /\ (hit = false \/ dir = 0 -> bl' = bl)
  /\ (hit = true -> dir = 1 -> (f0 <? bl'.(ball_speed).(y))%f32 = true)
  /\ (hit = true -> dir = -1 -> (bl'.(ball_speed).(y) <? f0)%f32 = true).
Proof.
  unfold spin. destruct hit.
  2:{ intros [= <-]. repeat split; auto; discriminate. }
  destruct (dir =? 0) eqn:Z0; simpl negb; cbv iota.
  { apply Z.eqb_eq in Z0. intros [= <-]. repeat split; auto; lia. }
  apply Z.eqb_neq in Z0.
  destruct (float_to_int _) as [n|]; [|discriminate].
  unfold int_abs. destruct (n =? INT_MIN); [discriminate|].
  intros [= <-]. cbn [set_speed_y ball_position ball_speed x y].
  repeat split.
  - intros [H | H]; [discriminate | contradiction].
  - intros _ ->. cbn [Z.eqb].
    apply (add_pos_positive _ 8388608 (-20)); [reflexivity|].
    apply mul_f1_class, of_Z_not_negative, Z.abs_nonneg.
  - intros _ ->. cbn [Z.eqb].
    apply (add_neg_negative _ 8388608 (-20)); [reflexivity|].
    apply (proj1 (mul_fm1_class _)), of_Z_not_negative, Z.abs_nonneg.
Qed.

(** [spin] returns a ball whenever [abs(speed.y)] is defined, and the ball
    it was given when the paddle does not act on it. *)
Lemma spin_defined (hit : bool) (dir : Z) (bl : Ball) :
  abs_defined bl.(ball_speed).(y) = true ->
  exists bl', spin hit dir bl = Some bl'.
Proof.
  unfold abs_defined, spin, int_abs.
  destruct (float_to_int _) as [n|]; [|discriminate].
  intros H. apply negb_true_iff in H. rewrite H.
  destruct hit; [|eauto]. destruct (negb _); eauto.
Qed.

Lemma spin_idle (hit : bool) (dir : Z) (bl : Ball) :
  hit = false \/ dir = 0 -> spin hit dir bl = Some bl.
Proof.
  unfold spin. intros [-> | ->]; [reflexivity|].
  destruct hit; reflexivity.
Qed.

(** What the input part of a frame does to the ball. *)
Lemma roundInput_spin (inp : Inputs) (g g1 : Game) :
  roundInput inp g = Some g1 ->
  g1.(ball).(ball_position) = g.(ball).(ball_position)
  /\ g1.(ball).(ball_speed).(x) = g.(ball).(ball_speed).(x)
  /\ g1.(gameState) = g.(gameState)
  /\ (inp.(intersects) = false \/ facingUpKey inp g = facingDownKey inp g ->
      g1.(ball) = g.(ball))
  /\ (inp.(intersects) = true ->
      facingUpKey inp g = false -> facingDownKey inp g = true ->
      (f0 <? g1.(ball).(ball_speed).(y))%f32 = true)
  /\ (inp.(intersects) = true ->
      facingUpKey inp g = true -> facingDownKey inp g = false ->
      (g1.(ball).(ball_speed).(y) <? f0)%f32 = true).
Proof.
  unfold roundInput, facingUpKey, facingDownKey.
  pose proof (Kdir := fun u d p =>
    proj1 (proj2 (proj2 (paddle_keys_facts u d p)))).
  rewrite (surjective_pairing (movePaddle inp.(keyW) inp.(keyS) g.(p1))).
  rewrite (surjective_pairing (movePaddle inp.(keyUp) inp.(keyDown) g.(p2))).
  rewrite !Kdir.
  destruct (spin _ _ _) as [bl|] eqn:E; [|discriminate].
  intros [= <-]. cbn [ball gameState].
  destruct (spin_cases _ _ _ _ E) as (P & V & N & D & U).
  split; [exact P|]. split; [exact V|]. split; [reflexivity|].
  destruct (g.(ball).(ball_speed).(x) >=? f0)%f32; cbn [Z.eqb] in *.
  - repeat split.
    + intros [H | H]; apply N; auto.
      right. rewrite H. destruct (keyDown inp); reflexivity.
    + intros H Hu Hd. apply D; auto. rewrite Hu, Hd. reflexivity.
    + intros H Hu Hd. apply U; auto. rewrite Hu, Hd. reflexivity.
  - repeat split.
    + intros [H | H]; apply N; auto.
      right. rewrite H. destruct (keyS inp); reflexivity.
    + intros H Hu Hd. apply D; auto. rewrite Hu, Hd. reflexivity.
    + intros H Hu Hd. apply U; auto. rewrite Hu, Hd. reflexivity.
Qed.

(** The input part of a frame is defined whenever [abs(speed.y)] is
    defined or not evaluated. *)
Lemma roundInput_defined (inp : Inputs) (g : Game) :
  abs_defined g.(ball).(ball_speed).(y) = true
  \/ inp.(intersects) = false
  \/ facingUpKey inp g = facingDownKey inp g ->
  exists g1, roundInput inp g = Some g1.
Proof.
  unfold roundInput, facingUpKey, facingDownKey.
  pose proof (Kdir := fun u d p =>
    proj1 (proj2 (proj2 (paddle_keys_facts u d p)))).
  rewrite (surjective_pairing (movePaddle inp.(keyW) inp.(keyS) g.(p1))).
  rewrite (surjective_pairing (movePaddle inp.(keyUp) inp.(keyDown) g.(p2))).
  rewrite !Kdir.
  intros [H | H].
  - destruct (spin_defined inp.(intersects)
                (if (if (g.(ball).(ball_speed).(x) >=? f0)%f32 then 1 else 0)
                      =? 1
                 then (if keyDown inp then 1 else 0)
                      - (if keyUp inp then 1 else 0)
                 else (if keyS inp then 1 else 0)
                      - (if keyW inp then 1 else 0))
                g.(ball) H) as [bl' ->].
    eauto.
  - rewrite spin_idle; [eauto|].
    destruct H as [H | H]; [left; exact H|right].
    destruct (g.(ball).(ball_speed).(x) >=? f0)%f32; cbn [Z.eqb];
      rewrite H; [destruct (keyDown inp) | destruct (keyS inp)]; reflexivity.
Qed.

(** X13.  The input part of a round-loop frame, when [abs(ball.speed.y)] is
    defined ([speed.y] converts to an [int] other than [INT_MIN]) or is not
    evaluated (the rectangles do not intersect, or none or both keys of the
    paddle the ball is heading to are pressed; outside these cases the C
    behaviour is undefined).  It leaves the ball's position, [speed.x] and
    [gameState] alone, and changes [speed.y] only when the rectangles of the
    ball and of the paddle it is heading to intersect and exactly one of
    that paddle's two keys is pressed: with the down key the ball then
    leaves downwards ([speed.y > 0]), with the up key upwards
    ([speed.y < 0]), whichever way it was moving before. *)
Theorem X13_spin_follows_paddle (inp : Inputs) (g : Game) :
  abs_defined g.(ball).(ball_speed).(y) = true
  \/ inp.(intersects) = false
  \/ facingUpKey inp g = facingDownKey inp g ->
  exists g1 : Game,
    roundInput inp g = Some g1
    /\ g1.(ball).(ball_position) = g.(ball).(ball_position)
    /\ g1.(ball).(ball_speed).(x) = g.(ball).(ball_speed).(x)
    /\ g1.(gameState) = g.(gameState)
    /\ (inp.(intersects) = false \/ facingUpKey inp g = facingDownKey inp g ->
        g1.(ball) = g.(ball))
    /\ (inp.(intersects) = true ->
        facingUpKey inp g = false -> facingDownKey inp g = true ->
        (f0 <? g1.(ball).(ball_speed).(y))%f32 = true)
    /\ (inp.(intersects) = true ->
        facingUpKey inp g = true -> facingDownKey inp g = false ->
        (g1.(ball).(ball_speed).(y) <? f0)%f32 = true).
Proof.
  intros H. destruct (roundInput_defined inp g H) as [g1 E].
  exists g1. split; [exact E|]. exact (roundInput_spin inp g g1 E).
Qed.

Lemma X13_spin_follows_paddle_witness :
  abs_defined (game ball_hits_paddle).(ball).(ball_speed).(y) = true
  /\ roundInput drag_down (game ball_hits_paddle)
     = Some (mkGame 1 paddle1 (mkPaddle (pt 700 258) 0)
                    (mkBall (pt 677 290) (pt 5 10)))
  /\ drag_down.(intersects) = true
  /\ facingUpKey drag_down (game ball_hits_paddle) = false
  /\ facingDownKey drag_down (game ball_hits_paddle) = true
  /\ (f0 <? (mkGame 1 paddle1 (mkPaddle (pt 700 258) 0)
                    (mkBall (pt 677 290) (pt 5 10))).(ball).(ball_speed).(y)
     )%f32 = true.
Proof.
  assert (H0 : abs_defined (game ball_hits_paddle).(ball).(ball_speed).(y)
               = true) by (vm_compute; reflexivity).
  assert (H : roundInput drag_down (game ball_hits_paddle)
              = Some (mkGame 1 paddle1 (mkPaddle (pt 700 258) 0)
                             (mkBall (pt 677 290) (pt 5 10))))
    by (vm_compute; reflexivity).
  assert (H1 : drag_down.(intersects) = true) by reflexivity.
  assert (H2 : facingUpKey drag_down (game ball_hits_paddle) = false)
    by reflexivity.
  assert (H3 : facingDownKey drag_down (game ball_hits_paddle) = true)
    by reflexivity.
  repeat (split; [assumption|]).
  destruct (X13_spin_follows_paddle drag_down (game ball_hits_paddle)
              (or_introl H0)) as (g1 & E & _ & _ & _ & _ & D & _).
  rewrite H in E. injection E as <-. exact (D H1 H2 H3).
Defined.

(** * The game logic as a state machine *)

Section Invariant.

Variable RAND_MAX : Z.

Lemma serveBall_dx (inp : Inputs) :
  F32.is_nan (serveBall RAND_MAX inp).(ball_speed).(x) = false
  /\ ((serveBall RAND_MAX inp).(ball_speed).(x) ==? f0)%f32 = false
  /\ ((serveBall RAND_MAX inp).(ball_speed).(x) = F32.of_Z 5
      \/ (serveBall RAND_MAX inp).(ball_speed).(x) = F32.of_Z (-5)).
Proof.
  unfold serveBall. cbn [ball_speed x].
  destruct (negb _); repeat split; auto.
Qed.

Lemma int_incr_small_score (n : Z) : 0 <= n <= 8 -> int_incr n = n + 1.
Proof. intros H. apply int_incr_small. unfold INT_MIN, INT_MAX. lia. Qed.

Lemma roundInput_facts (inp : Inputs) (g g1 : Game) :
  roundInput inp g = Some g1 ->
  g1.(gameState) = g.(gameState)
  /\ g1.(p1).(paddle_score) = g.(p1).(paddle_score)
  /\ g1.(p2).(paddle_score) = g.(p2).(paddle_score)
  /\ g1.(p1).(paddle_position).(x) = g.(p1).(paddle_position).(x)
  /\ g1.(p2).(paddle_position).(x) = g.(p2).(paddle_position).(x)
  /\ g1.(ball).(ball_speed).(x) = g.(ball).(ball_speed).(x).
Proof.
  unfold roundInput.
  pose proof (paddle_keys_facts inp.(keyW) inp.(keyS) g.(p1))
    as (X1 & S1 & _).
  pose proof (paddle_keys_facts inp.(keyUp) inp.(keyDown) g.(p2))
    as (X2 & S2 & _).
  destruct (movePaddle inp.(keyW) inp.(keyS) g.(p1)) as [q1 d1].
  destruct (movePaddle inp.(keyUp) inp.(keyDown) g.(p2)) as [q2 d2].
  cbn [fst] in *.
  destruct (spin _ _ _) as [bl|] eqn:E; [|discriminate].
  intros [= <-]. cbn [gameState p1 p2 ball].
  destruct (spin_cases _ _ _ _ E) as (_ & V & _).
  auto 10.
Qed.

Ltac ok_finish :=
  repeat split; auto; try lia; try (intros; discriminate);
  try (intros; lia).

(** One iteration of the game logic keeps the invariant. *)
Lemma gameLogic_ok (inp : Inputs) (s s' : Session) (msgs : list Message) :
  session_ok s -> gameLogic RAND_MAX inp s = Some (s', msgs) -> session_ok s'.
Proof.
  unfold session_ok, gameLogic.
  intros (G & S1 & S2 & NB & R & W & N & Z & X1 & X2).
  destruct s as [g st since]. cbn [session_game gameStarting] in *.
  destruct G as [G | [G | G]]; rewrite G; cbn [Z.eqb].
  - (* startup *)
    unfold startupState. cbn [session_game gameStarting sinceStart].
    destruct st.
    + destruct (_ >=? 3).
      * intros [= <- _]. cbn [session_game gameStarting serveGame gameState
                               p1 p2 ball paddle_score paddle_position x].
        rewrite G.
        destruct (serveBall_dx inp) as (N' & Z' & _).
        ok_finish.
      * intros [= <- _]. cbn [session_game gameStarting]. ok_finish.
    + destruct (keyReturn inp); intros [= <- _];
        cbn [session_game gameStarting]; ok_finish.
  - (* round loop *)
    unfold roundFrame.
    destruct (roundInput inp g) as [g1|] eqn:E; [|discriminate].
    destruct (roundInput_facts _ _ _ E) as (Eg & E1 & E2 & Ex1 & Ex2 & Ev).
    destruct (R G) as (St & L1 & L2).
    pose proof (roundStep_scoreboard g1) as (P1 & P2 & Cases).
    pose proof (roundStep_keeps_dx g1) as Dx.
    rewrite Ev in Dx. specialize (Dx N Z).
    destruct (roundStep g1) as [g2 out]. cbn [fst snd] in *.
    intros [= <- _]. cbn [session_game gameStarting].
    destruct Dx as [N' Z'].
    rewrite P1, P2, Ex1, Ex2.
    destruct Cases as [(Gs & Q1 & Q2 & _)
                      | [(_ & _ & _ & Gs & Q1 & Q2 & _)
                        | (_ & _ & _ & Gs & Q2 & Q1 & _)]].
    + rewrite Gs, Q1, Q2, Eg, E1, E2, G. ok_finish.
    + rewrite Gs, Q1, Q2, Eg, E1, E2, G.
      rewrite !int_incr_small_score by lia. subst st. ok_finish.
    + rewrite Gs, Q1, Q2, Eg, E1, E2, G.
      rewrite !int_incr_small_score by lia. subst st. ok_finish.
  - (* new round *)
    unfold newRoundState. cbn [session_game gameStarting sinceStart].
    destruct st.
    + destruct (W G eq_refl) as [L1 L2].
      destruct (_ >=? 1).
      * intros [= <- _]. cbn [session_game gameStarting serveGame gameState
                               p1 p2 ball paddle_score paddle_position x].
        rewrite G.
        destruct (serveBall_dx inp) as (N' & Z' & _).
        ok_finish.
      * intros [= <- _]. cbn [session_game gameStarting]. ok_finish.
    + destruct (_ || _) eqn:Nine.
      * intros [= <- _]. cbn [session_game gameStarting gameState p1 p2 ball].
        ok_finish.
      * apply orb_false_iff in Nine. destruct Nine as [N1 N2].
        assert (L1 : paddle_score (p1 g) < 9).
        { unfold Z.geb in N1.
          destruct (paddle_score (p1 g) ?= 9) eqn:C; try discriminate.
          apply Z.compare_lt_iff in C. exact C. }
        assert (L2 : paddle_score (p2 g) < 9).
        { unfold Z.geb in N2.
          destruct (paddle_score (p2 g) ?= 9) eqn:C; try discriminate.
          apply Z.compare_lt_iff in C. exact C. }
        intros [= <- _]. cbn [session_game gameStarting]. ok_finish.
Qed.

(** So does every sequence of iterations. *)
Lemma gameRun_ok (inps : list Inputs) (s s' : Session) :
  session_ok s -> gameRun RAND_MAX inps s = Some s' -> session_ok s'.
Proof.
  revert s. induction inps as [|inp rest IH]; intros s Ok.
  - intros [= <-]. exact Ok.
  - cbn [gameRun]. destruct (gameLogic RAND_MAX inp s) as [[s1 msgs]|] eqn:E;
      [|discriminate].
    apply IH. exact (gameLogic_ok _ _ _ _ Ok E).
Qed.

Lemma initialSession_ok (t0 : Z) : session_ok (initialSession t0).
Proof.
  unfold session_ok, initialSession.
  cbn [session_game gameStarting gameState p1 p2 ball paddle_score
       paddle_position ball_speed x].
  repeat split; auto; try lia; try (intros; discriminate); intros; lia.
Qed.

(** Every session the window loop can reach satisfies the invariant. *)
Lemma reachable_ok (inps : list Inputs) (t0 : Z) (s : Session) :
  gameRun RAND_MAX inps (initialSession t0) = Some s -> session_ok s.
Proof. apply gameRun_ok, initialSession_ok. Qed.

(** The lines of one iteration. *)
Lemma gameLogic_lines (inp : Inputs) (s s' : Session) (msgs : list Message) :
  session_ok s -> gameLogic RAND_MAX inp s = Some (s', msgs) ->
  let g := s.(session_game) in
  let g' := s'.(session_game) in
  (msgs = []
   \/ msgs = [StartingLine]
      /\ g.(gameState) = 0 /\ s.(gameStarting) = false
      /\ inp.(keyReturn) = true
      /\ s' = mkSession g true inp.(now)
   \/ msgs = [RoundLine (ScoreLine g'.(p1).(paddle_score)
                                   g'.(p2).(paddle_score))]
      /\ g.(gameState) = 1 /\ g'.(gameState) = 2
      /\ s'.(gameStarting) = false
      /\ (g'.(p1).(paddle_score) = g.(p1).(paddle_score) + 1
          /\ g'.(p2).(paddle_score) = g.(p2).(paddle_score)
          \/ g'.(p1).(paddle_score) = g.(p1).(paddle_score)
             /\ g'.(p2).(paddle_score) = g.(p2).(paddle_score) + 1)
   \/ g.(gameState) = 2 /\ s.(gameStarting) = false
      /\ s' = mkSession (mkGame 0 g.(p1) g.(p2) g.(ball)) false
                        s.(sinceStart)
      /\ (msgs = [WinnerLine 1]
          /\ g.(p1).(paddle_score) = 9 /\ g.(p2).(paddle_score) < 9
          \/ msgs = [WinnerLine 2]
             /\ g.(p2).(paddle_score) = 9 /\ g.(p1).(paddle_score) < 9)).
Proof.
  unfold session_ok, gameLogic.
  intros (G & S1 & S2 & NB & R & W & _).
  destruct s as [g st since]. cbn [session_game gameStarting sinceStart] in *.
  cbv zeta.
  destruct G as [G | [G | G]]; rewrite G; cbn [Z.eqb].
  - unfold startupState. cbn [session_game gameStarting sinceStart].
    destruct st.
    + destruct (_ >=? 3); intros [= <- <-]; left; reflexivity.
    + destruct (keyReturn inp) eqn:K; intros [= <- <-].
      * right; left. repeat split; auto.
      * left; reflexivity.
  - unfold roundFrame.
    destruct (roundInput inp g) as [g1|] eqn:E; [|discriminate].
    destruct (roundInput_facts _ _ _ E) as (Eg & E1 & E2 & _).
    destruct (R G) as (St & L1 & L2).
    pose proof (roundStep_scoreboard g1) as (_ & _ & Cases).
    destruct (roundStep g1) as [g2 out]. cbn [fst snd] in *.
    intros [= <- <-]. cbn [session_game gameStarting].
    destruct Cases as [(_ & _ & _ & ->)
                      | [(_ & _ & _ & Gs & Q1 & Q2 & ->)
                        | (_ & _ & _ & Gs & Q2 & Q1 & ->)]].
    + left; reflexivity.
    + right; right; left. cbn [map].
      rewrite Gs, Q1, Q2, Eg, E1, E2, G.
      rewrite !int_incr_small_score by lia. repeat split; auto.
    + right; right; left. cbn [map].
      rewrite Gs, Q1, Q2, Eg, E1, E2, G.
      rewrite !int_incr_small_score by lia. repeat split; auto.
  - unfold newRoundState. cbn [session_game gameStarting sinceStart].
    destruct st.
    + destruct (_ >=? 1); intros [= <- <-]; left; reflexivity.
    + destruct (_ || _) eqn:Nine.
      2:{ intros [= <- <-]; left; reflexivity. }
      intros [= <- <-]. right; right; right.
      do 3 (split; [reflexivity|]).
      apply orb_true_iff in Nine.
      destruct (paddle_score (p1 g) >? paddle_score (p2 g)) eqn:C.
      * apply Z.gtb_lt in C. rewrite Z.eqb_refl. left.
        repeat split; destruct Nine as [H | H]; apply Z.geb_le in H; lia.
      * assert (C' : paddle_score (p1 g) <= paddle_score (p2 g)).
        { unfold Z.gtb in C.
          destruct (paddle_score (p1 g) ?= paddle_score (p2 g)) eqn:D;
            try discriminate.
          - apply Z.compare_eq in D. lia.
          - apply Z.lt_le_incl. exact D. }
        assert (H9 : paddle_score (p2 g) = 9).
        { destruct Nine as [H | H]; apply Z.geb_le in H; lia. }
        assert (H8 : paddle_score (p1 g) < 9) by lia.
        destruct (paddle_score (p2 g) =? paddle_score (p1 g)) eqn:D.
        { apply Z.eqb_eq in D. lia. }
        right. repeat split; auto.
Qed.

(** The only way into the round loop is a serve. *)
Lemma gameLogic_serve (inp : Inputs) (s s' : Session) (msgs : list Message) :
  gameLogic RAND_MAX inp s = Some (s', msgs) ->
  let g := s.(session_game) in
  let g' := s'.(session_game) in
  g.(gameState) <> 1 -> g'.(gameState) = 1 ->
  s.(gameStarting) = true /\ s'.(gameStarting) = false /\ msgs = []
  /\ g'.(ball).(ball_position) = mkPoint BALL_START_X BALL_START_Y
  /\ (g'.(ball).(ball_speed).(x) = F32.of_Z 5
      \/ g'.(ball).(ball_speed).(x) = F32.of_Z (-5))
  /\ g'.(p1).(paddle_position) = mkPoint P1_START_X P1_START_Y
  /\ g'.(p2).(paddle_position) = mkPoint P2_START_X P2_START_Y
  /\ (g.(gameState) = 0
      /\ 3 <= inp.(now) - s.(sinceStart)
      /\ g'.(p1).(paddle_score) = 0 /\ g'.(p2).(paddle_score) = 0
      \/ g.(gameState) = 2
         /\ 1 <= inp.(now) - s.(sinceStart)
         /\ g'.(p1).(paddle_score) = g.(p1).(paddle_score)
         /\ g'.(p2).(paddle_score) = g.(p2).(paddle_score)).
Proof.
  unfold gameLogic. destruct s as [g st since].
  cbn [session_game gameStarting sinceStart]. cbv zeta.
  destruct (gameState g =? 0) eqn:G0.
  { apply Z.eqb_eq in G0. unfold startupState.
    cbn [session_game gameStarting sinceStart].
    destruct st.
    - destruct (_ >=? 3) eqn:T.
      + intros [= <- <-] _ _.
        cbn [session_game gameStarting serveGame gameState p1 p2 ball
             paddle_score paddle_position].
        destruct (serveBall_dx inp) as (_ & _ & V).
        apply Z.geb_le in T.
        repeat split; auto.
      + intros [= <- <-] _ H. cbn [session_game] in H. lia.
    - destruct (keyReturn inp); intros [= <- <-] _ H;
        cbn [session_game] in H; lia. }
  destruct (gameState g =? 1) eqn:G1.
  { apply Z.eqb_eq in G1. intros _ H. contradiction. }
  destruct (gameState g =? 2) eqn:G2.
  2:{ intros [= <- <-] H1 H2. cbn [session_game] in H2. contradiction. }
  apply Z.eqb_eq in G2. unfold newRoundState.
  cbn [session_game gameStarting sinceStart].
  destruct st.
  - destruct (_ >=? 1) eqn:T.
    + intros [= <- <-] _ _.
      cbn [session_game gameStarting serveGame gameState p1 p2 ball
           paddle_score paddle_position].
      destruct (serveBall_dx inp) as (_ & _ & V).
      apply Z.geb_le in T.
      repeat split; auto.
    + intros [= <- <-] _ H. cbn [session_game] in H. lia.
  - destruct (_ || _); intros [= <- <-] _ H;
      cbn [session_game gameState] in H; lia.
Qed.

End Invariant.

(** X14.  Whatever the keys, the clock and the random numbers are, after
    any number of iterations of the window loop [gameState] is 0, 1 or 2,
    both scores are within 0..9 and never both 9, and while a round is
    played [gameStarting] is 0 and both scores are at most 8: a round is
    never started once a player has nine points. *)
Theorem X14_states_and_scores (RAND_MAX : Z) (inps : list Inputs) (t0 : Z)
    (s : Session) :
  gameRun RAND_MAX inps (initialSession t0) = Some s ->
  let g := s.(session_game) in
  (g.(gameState) = 0 \/ g.(gameState) = 1 \/ g.(gameState) = 2)
  /\ 0 <= g.(p1).(paddle_score) <= 9
  /\ 0 <= g.(p2).(paddle_score) <= 9
  /\ ~ (g.(p1).(paddle_score) = 9 /\ g.(p2).(paddle_score) = 9)
  /\ (g.(gameState) = 1 ->
      s.(gameStarting) = false
      /\ g.(p1).(paddle_score) <= 8 /\ g.(p2).(paddle_score) <= 8).
Proof.
  intros H. destruct (reachable_ok _ _ _ _ H) as (G & S1 & S2 & NB & R & _).
  cbv zeta. auto.
Qed.

Lemma X14_states_and_scores_witness :
  gameRun 2147483647 first_point (initialSession 0) = Some after_first_point
  /\ 0 <= after_first_point.(session_game).(p1).(paddle_score) <= 9
  /\ 0 <= after_first_point.(session_game).(p2).(paddle_score) <= 9.
Proof.
  assert (H : gameRun 2147483647 first_point (initialSession 0)
              = Some after_first_point) by (vm_compute; reflexivity).
  split; [exact H|].
  pose proof (X14_states_and_scores _ _ _ _ H) as (_ & S1 & S2 & _).
  split; assumption.
Defined.

(** X15.  In every session the window loop can reach, [ball.speed.x] is a
    number other than zero: a serve sets it to 5 or -5 and no frame of a
    round makes it zero or NaN.  So the early exit of both resolvers for
    [speed.x == 0] is not taken in a game. *)
Theorem X15_dx_never_zero (RAND_MAX : Z) (inps : list Inputs) (t0 : Z)
    (s : Session) :
  gameRun RAND_MAX inps (initialSession t0) = Some s ->
  let vx := s.(session_game).(ball).(ball_speed).(x) in
  F32.is_nan vx = false /\ (vx ==? f0)%f32 = false.
Proof.
  intros H.
  destruct (reachable_ok _ _ _ _ H) as (_ & _ & _ & _ & _ & _ & N & Z & _).
  cbv zeta. auto.
Qed.

Lemma X15_dx_never_zero_witness :
  gameRun 2147483647 match_point (initialSession 0) = Some before_winner
  /\ F32.is_nan before_winner.(session_game).(ball).(ball_speed).(x) = false
  /\ (before_winner.(session_game).(ball).(ball_speed).(x) ==? f0)%f32
     = false.
Proof.
  assert (H : gameRun 2147483647 match_point (initialSession 0)
              = Some before_winner) by (vm_compute; reflexivity).
  split; [exact H|]. exact (X15_dx_never_zero _ _ _ _ H).
Defined.

(** X16.  The paddles never leave their columns: in every session the
    window loop can reach, paddle 1 is at [x = 75] and paddle 2 at
    [x = 700]. *)
Theorem X16_paddle_columns (RAND_MAX : Z) (inps : list Inputs) (t0 : Z)
    (s : Session) :
  gameRun RAND_MAX inps (initialSession t0) = Some s ->
  s.(session_game).(p1).(paddle_position).(x) = P1_START_X
  /\ s.(session_game).(p2).(paddle_position).(x) = P2_START_X.
Proof.
  intros H.
  destruct (reachable_ok _ _ _ _ H)
    as (_ & _ & _ & _ & _ & _ & _ & _ & X1 & X2).
  auto.
Qed.

Lemma X16_paddle_columns_witness :
  gameRun 2147483647 (flight 77) (initialSession 0) = Some before_first_point
  /\ before_first_point.(session_game).(p1).(paddle_position).(x)
     = P1_START_X
  /\ before_first_point.(session_game).(p2).(paddle_position).(x)
     = P2_START_X.
Proof.
  assert (H : gameRun 2147483647 (flight 77) (initialSession 0)
              = Some before_first_point) by (vm_compute; reflexivity).
  split; [exact H|]. exact (X16_paddle_columns _ _ _ _ H).
Defined.

(** X17.  "Player n wins!" is written only in the new-round state, and the
    player it names has exactly nine points while the other has fewer; the
    iteration that writes it leaves paddles, scores and ball as they are
    and goes back to the startup state. *)
Theorem X17_winner_has_nine (RAND_MAX : Z) (inps : list Inputs) (t0 : Z)
    (s : Session) (inp : Inputs) (s' : Session) (msgs : list Message)
    (n : Z) :
  gameRun RAND_MAX inps (initialSession t0) = Some s ->
  gameLogic RAND_MAX inp s = Some (s', msgs) ->
  In (WinnerLine n) msgs ->
  let g := s.(session_game) in
  g.(gameState) = 2
  /\ s' = mkSession (mkGame 0 g.(p1) g.(p2) g.(ball)) false s.(sinceStart)
  /\ (n = 1 /\ g.(p1).(paddle_score) = 9 /\ g.(p2).(paddle_score) < 9
      \/ n = 2 /\ g.(p2).(paddle_score) = 9 /\ g.(p1).(paddle_score) < 9).
Proof.
  intros H L I. cbv zeta.
  pose proof (gameLogic_lines _ _ _ _ _ (reachable_ok _ _ _ _ H) L) as C.
  cbv zeta in C.
  destruct C as [-> | [(-> & _) | [(-> & _) | (G & _ & E & W)]]].
  - destruct I.
  - destruct I as [I | []]. discriminate I.
  - destruct I as [I | []]. discriminate I.
  - split; [exact G|]. split; [exact E|].
    destruct W as [(-> & A & B) | (-> & A & B)];
      destruct I as [[= <-] | []]; auto.
Qed.

Lemma X17_winner_has_nine_witness :
  gameRun 2147483647 match_point (initialSession 0) = Some before_winner
  /\ gameLogic 2147483647 (idle 11) before_winner
     = Some (flight_session 0 9 10, [WinnerLine 1])
  /\ before_winner.(session_game).(p1).(paddle_score) = 9
  /\ before_winner.(session_game).(p2).(paddle_score) < 9.
Proof.
  assert (H : gameRun 2147483647 match_point (initialSession 0)
              = Some before_winner) by (vm_compute; reflexivity).
  assert (L : gameLogic 2147483647 (idle 11) before_winner
              = Some (flight_session 0 9 10, [WinnerLine 1]))
    by (vm_compute; reflexivity).
  split; [exact H|]. split; [exact L|].
  destruct (X17_winner_has_nine _ _ _ _ _ _ _ 1 H L (or_introl eq_refl))
    as (_ & _ & [(_ & A & B) | (D & _)]).
  - split; assumption.
  - discriminate D.
Defined.

(** X18.  The round loop is entered only by a serve: an iteration that
    takes [gameState] to 1 from another value found [gameStarting] set and
    the waiting time over (3 seconds in the startup state, 1 second in the
    new-round state), writes nothing, clears [gameStarting], and leaves the
    ball at (390, 290) with [speed.x] exactly 5 or -5 and both paddles at
    their starting positions; from the startup state both scores are 0,
    from the new-round state they are what they were. *)
Theorem X18_round_starts_with_serve (RAND_MAX : Z) (inp : Inputs)
    (s s' : Session) (msgs : list Message) :
  gameLogic RAND_MAX inp s = Some (s', msgs) ->
  s.(session_game).(gameState) <> 1 ->
  s'.(session_game).(gameState) = 1 ->
  let g := s.(session_game) in
  let g' := s'.(session_game) in
  s.(gameStarting) = true /\ s'.(gameStarting) = false /\ msgs = []
  /\ g'.(ball).(ball_position) = mkPoint BALL_START_X BALL_START_Y
  /\ (g'.(ball).(ball_speed).(x) = F32.of_Z 5
      \/ g'.(ball).(ball_speed).(x) = F32.of_Z (-5))
  /\ g'.(p1).(paddle_position) = mkPoint P1_START_X P1_START_Y
  /\ g'.(p2).(paddle_position) = mkPoint P2_START_X P2_START_Y
  /\ (g.(gameState) = 0
      /\ 3 <= inp.(now) - s.(sinceStart)
      /\ g'.(p1).(paddle_score) = 0 /\ g'.(p2).(paddle_score) = 0
      \/ g.(gameState) = 2
         /\ 1 <= inp.(now) - s.(sinceStart)
         /\ g'.(p1).(paddle_score) = g.(p1).(paddle_score)
         /\ g'.(p2).(paddle_score) = g.(p2).(paddle_score)).
Proof. exact (gameLogic_serve RAND_MAX inp s s' msgs). Qed.

Lemma X18_round_starts_with_serve_witness :
  gameLogic 2147483647 (idle 3) awaiting_serve
  = Some (mkSession
            (game (mkBall (pt 390 290)
                          (mkPoint (F32.of_Z 5)
                                   (S754_finite false 10066330 (-25)))))
            false 0, [])
  /\ awaiting_serve.(gameStarting) = true
  /\ 3 <= (idle 3).(now) - awaiting_serve.(sinceStart).
Proof.
  assert (L : gameLogic 2147483647 (idle 3) awaiting_serve
              = Some (mkSession
                        (game (mkBall (pt 390 290)
                                 (mkPoint (F32.of_Z 5)
                                    (S754_finite false 10066330 (-25)))))
                        false 0, []))
    by (vm_compute; reflexivity).
  split; [exact L|].
  assert (N : awaiting_serve.(session_game).(gameState) <> 1)
    by (intros [=]).
  destruct (X18_round_starts_with_serve _ _ _ _ _ L N eq_refl)
    as (A & _ & _ & _ & _ & _ & _ & [(_ & T & _) | (D & _)]).
  - split; assumption.
  - discriminate D.
Defined.

(** X19.  An iteration of a game writes at most one line, and the line
    tells the transition: "Starting the game..." is written only in the
    startup state when Return is pressed and no start is pending, and only
    starts the countdown; "Score is: a to b" is written only by the frame
    that ends a round, [a] and [b] are the scores after it, and exactly one
    of them is one more than before. *)
Theorem X19_lines_tell_transitions (RAND_MAX : Z) (inps : list Inputs)
    (t0 : Z) (s : Session) (inp : Inputs) (s' : Session)
    (msgs : list Message) :
  gameRun RAND_MAX inps (initialSession t0) = Some s ->
  gameLogic RAND_MAX inp s = Some (s', msgs) ->
  let g := s.(session_game) in
  let g' := s'.(session_game) in
  (length msgs <= 1)%nat
  /\ (In StartingLine msgs ->
      g.(gameState) = 0 /\ s.(gameStarting) = false
      /\ inp.(keyReturn) = true
      /\ s' = mkSession g true inp.(now))
  /\ (forall a b : Z, In (RoundLine (ScoreLine a b)) msgs ->
      g.(gameState) = 1 /\ g'.(gameState) = 2
      /\ a = g'.(p1).(paddle_score) /\ b = g'.(p2).(paddle_score)
      /\ (a = g.(p1).(paddle_score) + 1 /\ b = g.(p2).(paddle_score)
          \/ a = g.(p1).(paddle_score) /\ b = g.(p2).(paddle_score) + 1)).
Proof.
  intros H L. cbv zeta.
  pose proof (gameLogic_lines _ _ _ _ _ (reachable_ok _ _ _ _ H) L) as C.
  cbv zeta in C.
  destruct C as [-> | [(-> & C) | [(-> & G & G' & _ & C)
                                  | (_ & _ & _ & [(-> & _) | (-> & _)])]]].
  - split; [apply Nat.le_0_1|]. split; [intros []|intros a b []].
  - split; [apply Nat.le_refl|]. split; [intros _; exact C|].
    intros a b [I | []]. discriminate I.
  - split; [apply Nat.le_refl|]. split.
    + intros [I | []]. discriminate I.
    + intros a b [[= <- <-] | []]. auto.
  - split; [apply Nat.le_refl|]. split.
    + intros [I | []]. discriminate I.
    + intros a b [I | []]. discriminate I.
  - split; [apply Nat.le_refl|]. split.
    + intros [I | []]. discriminate I.
    + intros a b [I | []]. discriminate I.
Qed.

Lemma X19_lines_tell_transitions_witness :
  gameRun 2147483647 (flight 77) (initialSession 0) = Some before_first_point
  /\ gameLogic 2147483647 (hold_up 3) before_first_point
     = Some (after_first_point, [RoundLine (ScoreLine 1 0)])
  /\ before_first_point.(session_game).(gameState) = 1
  /\ after_first_point.(session_game).(gameState) = 2.
Proof.
  assert (H : gameRun 2147483647 (flight 77) (initialSession 0)
              = Some before_first_point) by (vm_compute; reflexivity).
  assert (L : gameLogic 2147483647 (hold_up 3) before_first_point
              = Some (after_first_point, [RoundLine (ScoreLine 1 0)]))
    by (vm_compute; reflexivity).
  split; [exact H|]. split; [exact L|].
  destruct (X19_lines_tell_transitions _ _ _ _ _ _ _ H L) as (_ & _ & R).
  destruct (R 1 0 (or_introl eq_refl)) as (A & B & _).
  split; assumption.
Defined.
